(* ===== verification/_CoqProject ===== *)
-Q . S2P
Prelude.v
Unicode.v
Tiles.v
Decimal.v
TilesSpec.v
Guess.v
Evaluator.v
Corpus.v
Timers.v
Feedback.v
Session.v
Attempts.v
Interleave.v
SessionSpec.v
Game.v
GameSpec.v
Replies.v
Texts.v
Scenario.v
Witnesses.v
