(* ===== verification/Prelude.v ===== *)
(** * A verification development of mahjong-hand-guess

    The program is one Python module, [src/handler.py], the game core of
    a chat-bot plugin: a group starts a game, the plugin draws a secret
    winning hand (13 tiles and a winning tile) from a corpus, and members
    guess it in mahjong notation ("123m456p789s11z22z" or with glyphs
    such as 万); every well-formed guess that scores as a winning hand is
    answered with per-tile feedback (blue: right tile at the right place,
    orange: in the hand elsewhere, no colour: absent), the attempts left,
    a yaku hint and the hand's value; a user has [MAX_GUESS = 6] counted
    guesses; a correct guess wins points and ends the game; a timer ends
    it after [TIMEOUT = 300] s.

    ** The parts and how they interact

    - [get_hand] (lines 38-60) reads the corpus line, splits it into
      hand, winning tile and tsumo flag, converts it with the mahjong
      library's [TilesConverter] and asks the library's [HandCalculator]
      for its value.
    - [HandGuessProcess] (line 66) is the registry: a defaultdict from a
      group to its [GroupState(start, hand, users)], [users] a plain dict
      when idle and a defaultdict of [UserState(hit_count)] when started.
    - [HandGuess] (lines 69-245): [start] draws a hand, stores the started
      state and registers the timeout with [utils.call_later] under the
      fixed name "HandGuessGame"; [timeout] sends a message, then resets;
      [guesses_handler] filters the characters, checks the attempts,
      normalises the text ([format_hand_msg]), converts it, asks the
      scorer, computes the feedback, and either wins ([win_game]: reset,
      [cancel_call_later], [User.add_points]) or counts the attempt
      ([inc_user_count]).

    ** Files

    - [Prelude] (this file): Python exceptions as values ([PyExc],
      [Res A = PyExc + A]), a state-and-exception monad [PyM S A] with the
      notations [let!], [;;] and [let?] of [py_scope], Python's negative
      indices and slices ([py_slice], [py_getitem]), the lemmas on them,
      the rewrite database [pyrw] and the hint database [mahjong].
    - [Unicode]: strings as lists of code points ([pystr]); the Unicode
      tables behind [\d] ([re_digit]), [str.isdigit] ([py_isdigit]),
      [int()] of a digit and [str.strip] ([py_strip]), generated from the
      Unicode 14 database of Python 3.11.
    - [Tiles], [Module TilesConverter]: the library's
      [one_line_string_to_136_array] (mahjong 1.x), the only function of
      the library the code relies on for its semantics: the suit
      splitting loop, [_split_string] with its copy counter, the 136-index
      of a tile ([4 * kind + copy]); and [to_one_line_string], which
      names the tile images of the feedback (lines 177 and 192).  It is
      not code of the repository and is modelled from the library's
      text; Python's [str(int)] is [py_str_Z].
    - [Decimal], [Module Decimal]: Python's [str(int)] and [int()] on
      decimal text; the printer's fuel is enough and [int(str(n)) = n].
    - [TilesSpec], [Module TilesSpec]: what the converter computes on
      texts that name real tiles: [_split_string] gives the [i]-th digit
      [c] the index [offset + 4 (c - 1)] plus the number of earlier
      copies of [c] ([canon]), hence the bounds of the 136-format, and
      [to_one_line_string] is read back as the same tile kinds.
    - [Guess], [Module GuessValidator]: [TileAsciiMap], [TileMap], the
      character filter of line 139 and [format_hand_msg].
    - [Evaluator], [Module Evaluator]: the scorer as an interface, the
      class [HandCalculator] with its only method [estimate_hand_value],
      returning a [HandResponse]; the law [KindInvariant] (the value
      depends on the tiles' kinds only); [table_calculator], a scorer given
      by a table, used by the concrete runs.  The scoring rules of
      mahjong are not modelled: every theorem holds for every scorer.
    - [Corpus], [Module Corpus]: [HandResult] and [get_hand], with the
      value of [random.randint] as an argument [draw]; [draw_range] is the
      pair of bounds the code passes to [randint] (line 42) and
      [randint_ok] the library's contract on its result (both bounds
      inclusive).  The event loop lets [draw] be any integer, a superset
      of the draws [randint] can produce, so the theorems over all draws
      hold for the real ones.
    - [Timers], [Module Timers]: the [utils] timer registry (not under
      [src/], modelled from the spec), its policy on a name registered
      twice left as the parameter [replace_cancels].
    - [Feedback], [Module TileFeedback]: the feedback loops of lines
      172-200, the hint and the cost of lines 202-213.
    - [Session], [Module HandGuess]: the registry and [HandGuess] as
      functions on a [World] (registry [w_proc], timers, the points of
      [User], the clock, the messages sent) in the monad [PyM World];
      every method is one definition, composed as the code composes them
      ([guesses_handler] calls [users_get], [format_hand_msg],
      [one_line_string_to_136_array], [estimate_hand_value],
      [hand_feedback], [win_feedback], [is_win], [win_game] or
      [inc_user_count] in the order of the source).  Reading
      [self.status] inserts the default state into the defaultdict, and
      reading [users[qq]] inserts [UserState(0)] when [users] is a
      defaultdict and raises [KeyError] when it is the plain [{}]: both
      are modelled.  The pure [judge] and [apply_verdict] restate the
      handler as a decision followed by one update of the world.
    - [Attempts], [Module Attempts]: a user's messages handled one after
      the other ([guess_run]), and the variant that bounds the answers.
    - [Interleave], [Module Interleave]: a guess that does not win
      reads and writes only its group's entry of the registry
      ([guess_local]), so guesses in different groups commute.
    - [SessionSpec], [Module SessionSpec]: the spec's session machine
      (a group [AIdle] or [AActive] with its hand and a count per user;
      transitions [abs_guess] on a guess's outcome, only while the
      guesser has attempts left, and [abs_start]), the
      abstraction [abs_group] of the code's [GroupState], and the
      equivalence [≡] that ignores zero counts, with its [Proper]
      instances; the lemma [guesses_handler_refines] shows the handler
      moves a group as the machine does.
    - [Game], [Module Game]: the bot around the core as a step relation
      on configurations (the world and the suspended [timeout]
      coroutines): commands "start" and "guess" (the bot dispatcher, not
      in [src/], is modelled from the spec: it hands a guess to the
      handler only when the game is started), clock ticks, timer firings
      and resumptions of a suspended [timeout].  The [await] of line 90
      splits [timeout] into [timeout_notify] and [timeout_resume], so any
      interleaving of other commands between them is a run of [step].
      The other coroutines are atomic events: [guesses_handler] has no
      [await], and [start] only awaits [get_hand], which never suspends.
      [exec_event] is an executable version, sound for [step].
    - [GameSpec], [Module GameSpec]: each event as one group sees it
      ([abs_event]: a guess with the outcome of its reply, a start with
      the hand it draws, a resumed timeout of the group), and the machine
      as a function [spec_next]; every step of [Game.step] moves every
      group exactly by [spec_next], a lockstep forward simulation.
    - [Replies], [Module Replies]: the shape of the data handed to the
      renderer ([render_wf]), in every reachable configuration, and the
      winning tile's colour in every reply with feedback.
    - [Texts], [Module Texts]: the texts as code points: the [dict]s the
      handler and [start] return (error flag and message, the win message
      of line 135), the timeout message, the console line of [start], and
      the three lines of text drawn on the image (lines 205, 215, 221).
    - [Scenario], [Module Scenario]: the spec's example (secret
      [1m..9m 1p1p1p 2p], winning tile 3p) run through the model.
    - [Witnesses], [Module Witnesses]: each theorem with hypotheses
      applied at a concrete input of the scenario.

    ** What is proved

    - The guess handler: an exhausted user is refused before any work
      (C1); a win resets the group, cancels the timer and
      credits the secret's cost (C4); error replies and
      exceptions change no session (C6); a miss
      is counted and shows the right number of attempts left
      (C7); feedback is positional, blue exactly at the
      secret's index (C11); a tile count other than 14
      is the tile-count error (C16); a character outside
      the filter's class is rejected first (C17);
      what a win requires
      of the guess (C18); a guess on an idle group raises
      [KeyError] (C29); a 14-tile guess whose last
      two characters name no tile raises [IndexError] at line 152
      (C30).
    - Termination of a user's game: whatever messages a user sends, at
      most [MAX_GUESS - count] are answered with feedback
      (C10); in every run, the renderer gets 13 positions
      and an attempts-left number in [[0, MAX_GUESS)] (C12); the
      message of a win reads back as the points credited and the user's
      new total in the ledger (C14).
    - Refinement, in lockstep: every step of the bot moves every group's
      abstract state exactly as the spec's deterministic session machine
      moves on the event the group sees, a guess by the outcome of its
      reply and only while the guesser has attempts left, a start by the
      hand it draws (C2);
      counters never decrease within a game (C9);
      two guesses in different groups commute unless one of them wins
      (C15).
    - Validation and conversion: a filtered guess of 14 tiles has a
      13-tile hand part (C3); the reordering of
      [format_hand_msg] keeps the tiles (C24);
      the glyph table is a bijection (C25); a secret
      hand whose corpus text names real tiles, at most four copies each,
      has distinct indices in [[0, 136)] (C26).
    - Feedback: the colour of every position (C5);
      the colour of the winning tile in every reply, decided by its text
      or else by the last hand tile (C13).
    - The invariant of the whole bot: every group idle or started with a
      defaultdict of counters in [0, MAX_GUESS] (C8), by
      induction on the step relation.
    - Timers: with a registry that cancels on a reused name, a win in any
      group disarms the timers of every group, so another group's running
      game loses its timeout (C22); a timeout
      suspended at its [await] ends the next game its group starts, while
      that game's own timer is armed and not due
      (C27).
    - [start]: on a started group it changes nothing (C19);
      on an idle one it stores the hand and zero counters and arms the
      timer (C20).  A due timer ends the game
      (C21); a timeout on an idle group changes no
      state but still sends the timeout message (C31).
    - Corpus: [get_hand] decodes a well-formed corpus line (a round trip
      with [corpus_line], C23); the random draw can go
      past the end: the bounds passed to [random.randint], whose upper
      bound is inclusive, admit the draw [len(hand_list)], where the
      lookup raises [IndexError] (C28).
    - The module [Scenario] runs the spec's scenario and the runs behind
      the findings on concrete inputs, as plain lemmas that are not
      claims: the shared timer name leaves group B's game without a
      timeout ([timer_name_collision]); a permutation of the secret's
      tiles does not win ([permuted_guess_does_not_win]); six guesses are
      answered and the seventh refused ([guess_limit_scenario]); a later
      copy of the right tile at the right place is not Correct
      ([copy_index_hides_correct_tile]); the spec's 9p swap gets no
      feedback ([nine_p_swap_no_feedback]); with a registry that keeps a
      timer under a reused name, a winner's own timer fires on its idle
      group ([stale_timer_fires_on_idle_group]) or doubles the timeout of
      its next game ([restart_keeps_old_timer]); the filter admits 0,
      non-ASCII digits, the honour 8z (index 136) and a fifth copy
      ([digit_filter_admits_zero]).
    ** Bounds, fuel and what is not modelled

    Only [str(int)] of the library needs fuel: [digits_rev] divides by
    10 at most [1 + log2 n] times, more than the number of decimal
    digits of [n], so the fuel never runs out.  Every loop of the code is
    a [fold_left] or a structural recursion on the guess; the game loop
    of the bot, which does not terminate, is a step relation, and the
    number of answered guesses of a user is bounded by the variant of
    [Attempts].  Counters and indices are unbounded integers ([Z]) as in
    Python; the 136-format is bounded by a theorem ([TilesSpec]), under
    the hypotheses that the filter of line 139 does not check.  The fuel
    [1 + log2 |n|] of [str(n)] is enough, since [n < 10^(1 + log2 n)]
    ([Decimal.fuel_enough]).  Not modelled: the pixels of the image
    (PIL, [MahjongImage], [draw_text_by_line], [pil2b64]; the feedback
    data and the texts drawn are modelled), the network I/O of
    [send_group_msg] (the group and the text of the message are), the
    scoring rules of the mahjong library (an interface: they are the
    library's, and every theorem holds for any scorer), [User]'s storage
    (a map from a user to its points), and the [**kwargs] of
    [get_hand], which the code never passes. *)

From Stdlib Require Import ZArith Lia.
From stdpp Require Import base list gmap strings.

Open Scope Z_scope.

(** ** Python exceptions as values *)

(** The exceptions that the code of [src/handler.py] can raise on its
    own (the external libraries are modelled as total functions). *)
Inductive PyExc :=
  | IndexError          (** [s[-1]] on an empty string, [lst[0]] on [[]] *)
  | KeyError            (** a plain [dict] read with a missing key *)
  | ValueError          (** [int(c)] on a character that is not a digit *)
  | TypeError           (** subscripting [None] *)
  | AttributeError      (** [None.tiles] *)
  | UnboundLocalError.  (** reading a loop variable that was never bound *)

#[export] Instance PyExc_eq_dec : EqDecision PyExc.
Proof. solve_decision. Defined.

(** A Python computation that may raise. *)
Definition Res (A : Type) : Type := (PyExc + A)%type.

(** ** A state and exception monad

    Python keeps the mutations made before an exception, so the state is
    returned on both outcomes. *)
Definition PyM (S A : Type) : Type := S -> S * Res A.

Definition pret {S A} (x : A) : PyM S A := fun s => (s, inr x).
Definition pbind {S A B} (m : PyM S A) (k : A -> PyM S B) : PyM S B :=
  fun s => match m s with
           | (s', inl e) => (s', inl e)
           | (s', inr x) => k x s'
           end.
Definition praise {S A} (e : PyExc) : PyM S A := fun s => (s, inl e).
Definition pget {S} : PyM S S := fun s => (s, inr s).
Definition pput {S} (s : S) : PyM S unit := fun _ => (s, inr tt).
Definition plift {S A} (r : Res A) : PyM S A := fun s => (s, r).

Declare Scope py_scope.
Delimit Scope py_scope with py.
Notation "'let!' x := m 'in' k" := (pbind m (fun x => k))
  (at level 10, x name, m at level 100, k at level 200) : py_scope.
Notation "'let!' ' p := m 'in' k" := (pbind m (fun x => match x with p => k end))
  (at level 10, p pattern, m at level 100, k at level 200) : py_scope.
Notation "m ;; k" := (pbind m (fun _ => k))
  (at level 100, right associativity) : py_scope.

(** Bind on a pure [Res] value. *)
Definition rbind {A B} (r : Res A) (k : A -> Res B) : Res B :=
  match r with inl e => inl e | inr x => k x end.
Notation "'let?' x := r 'in' k" := (rbind r (fun x => k))
  (at level 10, x name, r at level 100, k at level 200) : py_scope.

(** ** Python sequences: [len], indexing and slicing with negative
    indices, as for [str] and [list] *)

Definition py_len {A} (l : list A) : Z := Z.of_nat (length l).

(** The clamping of a slice bound [i] against a length [n]. *)
Definition py_bound (n i : Z) : Z :=
  if i <? 0 then Z.max 0 (i + n) else Z.min i n.

(** [l[lo:hi]], with [None] for an omitted bound. *)
Definition py_slice {A} (l : list A) (lo hi : option Z) : list A :=
  let n := py_len l in
  let i := match lo with Some x => py_bound n x | None => 0 end in
  let j := match hi with Some x => py_bound n x | None => n end in
  take (Z.to_nat (j - i)) (drop (Z.to_nat i) l).

(** [l[i]]: negative indices count from the end; out of range raises. *)
Definition py_getitem {A} (l : list A) (i : Z) : Res A :=
  let k := if i <? 0 then i + py_len l else i in
  match (if 0 <=? k then l !! Z.to_nat k else None) with
  | Some x => inr x
  | None => inl IndexError
  end.

(** [x in l] on a list of integers. *)
Definition py_in (x : Z) (l : list Z) : bool := bool_decide (x ∈ l).

(** ** Shared lemmas *)

Create Rewrite HintDb pyrw.
Create HintDb mahjong.

Lemma py_len_app {A} (l1 l2 : list A) : py_len (l1 ++ l2) = py_len l1 + py_len l2.
Proof. unfold py_len. rewrite length_app. lia. Qed.

Lemma py_slice_drop_last2 {A} (q : list A) (a b : A) :
  py_slice (q ++ [a; b]) None (Some (-2)) = q.
Proof.
  unfold py_slice, py_bound, py_len. rewrite length_app; simpl length.
  change (-2 <? 0) with true; cbv iota.
  rewrite Z.max_r by lia. rewrite drop_0. apply take_app_length'. lia.
Qed.

Lemma py_slice_last2 {A} (q : list A) (a b : A) :
  py_slice (q ++ [a; b]) (Some (-2)) None = [a; b].
Proof.
  unfold py_slice, py_bound, py_len. rewrite length_app; simpl length.
  change (-2 <? 0) with true; cbv iota.
  rewrite Z.max_r by lia. rewrite drop_app_length' by lia.
  by replace (Z.to_nat (Z.of_nat (length q + 2) - (-2 + Z.of_nat (length q + 2)))) with 2%nat by lia.
Qed.

Lemma py_getitem_last {A} (q : list A) (a : A) : py_getitem (q ++ [a]) (-1) = inr a.
Proof.
  unfold py_getitem, py_len. rewrite length_app; simpl length.
  change (-1 <? 0) with true; cbv iota.
  replace (0 <=? -1 + Z.of_nat (length q + 1)) with true by (symmetry; apply Z.leb_le; lia).
  rewrite lookup_app_r by lia.
  by replace (Z.to_nat (-1 + Z.of_nat (length q + 1)) - length q)%nat with 0%nat by lia.
Qed.

Lemma py_getitem_nil {A} (i : Z) : py_getitem (@nil A) i = inl IndexError.
Proof. unfold py_getitem. destruct (0 <=? _); reflexivity. Qed.

Lemma py_getitem_nat {A} (l : list A) (n : nat) (x : A) :
  l !! n = Some x -> py_getitem l (Z.of_nat n) = inr x.
Proof.
  intros H. unfold py_getitem.
  replace (Z.of_nat n <? 0) with false by (symmetry; apply Z.ltb_ge; lia).
  replace (0 <=? Z.of_nat n) with true by (symmetry; apply Z.leb_le; lia).
  by rewrite Nat2Z.id, H.
Qed.

Lemma py_slice_prefix {A} (q r : list A) :
  py_slice (q ++ r) None (Some (py_len q)) = q.
Proof.
  unfold py_slice, py_bound, py_len. rewrite length_app.
  destruct (Z.of_nat (length q) <? 0) eqn:E; [apply Z.ltb_lt in E; lia|].
  rewrite Z.min_l by lia. rewrite drop_0. apply take_app_length'. lia.
Qed.

Lemma py_slice_mid {A} (q r t : list A) :
  py_slice (q ++ r ++ t) (Some (py_len q)) (Some (py_len q + py_len r)) = r.
Proof.
  unfold py_slice, py_bound, py_len. rewrite !length_app.
  destruct (Z.of_nat (length q) <? 0) eqn:E; [apply Z.ltb_lt in E; lia|].
  destruct (Z.of_nat (length q) + Z.of_nat (length r) <? 0) eqn:E'; [apply Z.ltb_lt in E'; lia|].
  rewrite !Z.min_l by lia. rewrite drop_app_length' by lia. apply take_app_length'. lia.
Qed.

Lemma py_slice_drop_suffix {A} (q r : list A) :
  r <> [] -> py_slice (q ++ r) None (Some (- py_len r)) = q.
Proof.
  intros Hr. destruct r as [|x r]; [done|].
  unfold py_slice, py_bound, py_len. rewrite length_app; simpl length.
  destruct (- Z.of_nat (S (length r)) <? 0) eqn:E; [|apply Z.ltb_ge in E; lia].
  rewrite Z.max_r by lia. rewrite drop_0. apply take_app_length'. lia.
Qed.

Lemma py_getitem_at {A} (q r : list A) (x : A) : py_getitem (q ++ x :: r) (py_len q) = inr x.
Proof.
  apply py_getitem_nat. rewrite lookup_app_r, Nat.sub_diag by lia. reflexivity.
Qed.

Lemma py_getitem_len {A} (l : list A) : py_getitem l (py_len l) = inl IndexError.
Proof.
  unfold py_getitem, py_len.
  replace (Z.of_nat (length l) <? 0) with false by (symmetry; apply Z.ltb_ge; lia).
  replace (0 <=? Z.of_nat (length l)) with true by (symmetry; apply Z.leb_le; lia).
  rewrite Nat2Z.id, lookup_ge_None_2 by lia. reflexivity.
Qed.

Lemma py_in_spec (x : Z) (l : list Z) : py_in x l = true <-> x ∈ l.
Proof. unfold py_in. apply bool_decide_eq_true. Qed.

Lemma forallb_Forall {A} (f : A -> bool) (l : list A) :
  forallb f l = true -> Forall (fun x => f x = true) l.
Proof.
  induction l as [|x l IH]; simpl; [constructor|].
  rewrite andb_true_iff. intros [Hx Hl]. constructor; auto.
Qed.

#[export] Hint Rewrite @py_slice_drop_last2 @py_slice_last2 @py_getitem_last
  @py_getitem_nil : pyrw.

(** Unfolding the monad in a goal. *)
Ltac py_unfold := unfold pbind, pret, praise, pget, pput, plift, rbind in *.

(** Running the monad's combinators in the goal, and nothing else. *)
Ltac py_red := cbv beta iota zeta delta [pret pbind plift praise pget pput rbind].

(** Linear arithmetic with [div] and [mod] by constants (Python's [//]
    and [%] on non-negative operands). *)
Ltac div_lia := Z.to_euclidean_division_equations; lia.
