(* ===== verification/Unicode.v ===== *)
(** Python's character classes over Unicode code points, as the code of
    [src/handler.py] uses them: the regular-expression class [\d] (line
    139), [int(c)] on a one-character string (inside the tile converter),
    [str.isdigit] (line 116) and [str.strip] (line 43).  A character is
    its code point, a Python [str] a list of code points.  The tables are
    those of Unicode 14.0 (the database of Python 3.11). *)

From Stdlib Require Import ZArith Lia.
From stdpp Require Import base list strings.
From S2P Require Import Prelude.

Open Scope Z_scope.

(** A Python [str] as its list of code points. *)
Abbreviation pystr := (list Z).

(** The code points of an ASCII literal, to write concrete inputs. *)
Definition u (s : string) : pystr :=
  map (fun a => Z.of_nat (Ascii.nat_of_ascii a)) (String.list_ascii_of_string s).

Arguments u _%_string.

(** The first code point of each run of ten decimal digits (general
    category Nd): [\d] matches exactly these runs, and [int(c)] gives
    [c] minus the start of its run. *)
Definition nd_zeros : list Z :=
  [ 48; 1632; 1776; 1984; 2406; 2534; 2662; 2790;
    2918; 3046; 3174; 3302; 3430; 3558; 3664; 3792;
    3872; 4160; 4240; 6112; 6160; 6470; 6608; 6784;
    6800; 6992; 7088; 7232; 7248; 42528; 43216; 43264;
    43472; 43504; 43600; 44016; 65296; 66720; 68912; 69734;
    69872; 69942; 70096; 70384; 70736; 70864; 71248; 71360;
    71472; 71904; 72016; 72784; 73040; 73120; 92768; 92864;
    93008; 120782; 120792; 120802; 120812; 120822; 123200; 123632;
    125264; 130032 ].

(** The maximal runs [(first, last)] of code points for which
    [str.isdigit] holds (Numeric_Type Digit or Decimal). *)
Definition isdigit_ranges : list (Z * Z) :=
  [ (48, 57); (178, 179); (185, 185); (1632, 1641); (1776, 1785); (1984, 1993);
    (2406, 2415); (2534, 2543); (2662, 2671); (2790, 2799); (2918, 2927); (3046, 3055);
    (3174, 3183); (3302, 3311); (3430, 3439); (3558, 3567); (3664, 3673); (3792, 3801);
    (3872, 3881); (4160, 4169); (4240, 4249); (4969, 4977); (6112, 6121); (6160, 6169);
    (6470, 6479); (6608, 6618); (6784, 6793); (6800, 6809); (6992, 7001); (7088, 7097);
    (7232, 7241); (7248, 7257); (8304, 8304); (8308, 8313); (8320, 8329); (9312, 9320);
    (9332, 9340); (9352, 9360); (9450, 9450); (9461, 9469); (9471, 9471); (10102, 10110);
    (10112, 10120); (10122, 10130); (42528, 42537); (43216, 43225); (43264, 43273); (43472, 43481);
    (43504, 43513); (43600, 43609); (44016, 44025); (65296, 65305); (66720, 66729); (68160, 68163);
    (68912, 68921); (69216, 69224); (69714, 69722); (69734, 69743); (69872, 69881); (69942, 69951);
    (70096, 70105); (70384, 70393); (70736, 70745); (70864, 70873); (71248, 71257); (71360, 71369);
    (71472, 71481); (71904, 71913); (72016, 72025); (72784, 72793); (73040, 73049); (73120, 73129);
    (92768, 92777); (92864, 92873); (93008, 93017); (120782, 120831); (123200, 123209); (123632, 123641);
    (125264, 125273); (127232, 127242); (130032, 130041) ].

(** The code points for which [str.isspace] holds. *)
Definition space_chars : list Z :=
  [ 9; 10; 11; 12; 13; 28; 29; 30; 31; 32;
    133; 160; 5760; 8192; 8193; 8194; 8195; 8196; 8197; 8198;
    8199; 8200; 8201; 8202; 8232; 8233; 8239; 8287; 12288 ].

Definition in_nd_run (c z : Z) : bool := (z <=? c) && (c <? z + 10).

(** [re.search(r"\d", c)] for one character [c] (a [str] pattern, so
    [\d] is Unicode-aware). *)
Definition re_digit (c : Z) : bool := existsb (in_nd_run c) nd_zeros.

(** [int(c)] for a one-character string [c]: its decimal value, or
    [None] where Python raises [ValueError]. *)
Definition py_int_char (c : Z) : option Z :=
  match find (in_nd_run c) nd_zeros with
  | Some z => Some (c - z)
  | None => None
  end.

(** [c.isdigit()] for a one-character string [c]. *)
Definition py_isdigit (c : Z) : bool :=
  existsb (fun r => (r.1 <=? c) && (c <=? r.2)) isdigit_ranges.

(** [c.isspace()] for a one-character string [c]. *)
Definition py_isspace (c : Z) : bool := existsb (Z.eqb c) space_chars.

Fixpoint lstrip (s : pystr) : pystr :=
  match s with
  | c :: s' => if py_isspace c then lstrip s' else s
  | [] => []
  end.

(** [s.strip()]. *)
Definition py_strip (s : pystr) : pystr := rev (lstrip (rev (lstrip s))).

(** ** Lemmas *)

Lemma in_nd_run_spec c z : in_nd_run c z = true <-> z <= c < z + 10.
Proof. unfold in_nd_run. rewrite andb_true_iff, Z.leb_le, Z.ltb_lt. lia. Qed.

(** [int(c)] succeeds on exactly the characters that [\d] matches. *)
Lemma py_int_char_re_digit c : re_digit c = true <-> is_Some (py_int_char c).
Proof.
  unfold re_digit, py_int_char. rewrite existsb_exists.
  destruct (find (in_nd_run c) nd_zeros) eqn:E.
  - apply find_some in E as [Hin Hrun]. split; eauto.
  - split; [|intros [? ?]; discriminate].
    intros (z & Hz & Hrun). rewrite (find_none _ _ E z Hz) in Hrun. discriminate.
Qed.

Lemma py_int_char_range c d : py_int_char c = Some d -> 0 <= d <= 9.
Proof.
  unfold py_int_char. destruct (find _ _) as [z|] eqn:E; [|discriminate].
  intros [= <-]. apply find_some in E as [_ Hrun%in_nd_run_spec]. lia.
Qed.

(** Every run of decimal digits lies inside a run of [isdigit]. *)
Lemma nd_runs_isdigit :
  forallb (fun z => existsb (fun r => (r.1 <=? z) && (z + 9 <=? r.2)) isdigit_ranges)
    nd_zeros = true.
Proof. vm_compute. reflexivity. Qed.

(** A character that [\d] matches is one for which [isdigit] holds. *)
Lemma re_digit_isdigit c : re_digit c = true -> py_isdigit c = true.
Proof.
  unfold re_digit, py_isdigit. intros (z & Hz & Hrun%in_nd_run_spec)%existsb_exists.
  pose proof nd_runs_isdigit as Hall. rewrite forallb_forall in Hall.
  apply Hall, existsb_exists in Hz as (r & Hr & Hb).
  apply existsb_exists. exists r. split; [done|].
  rewrite andb_true_iff, !Z.leb_le in *. lia.
Qed.

(** The ASCII digits ['0'..'9'] have their usual value. *)
Lemma py_int_char_ascii c : 48 <= c <= 57 -> py_int_char c = Some (c - 48).
Proof.
  intros H. unfold py_int_char, nd_zeros. cbn [find].
  replace (in_nd_run c 48) with true by (symmetry; apply in_nd_run_spec; lia).
  reflexivity.
Qed.

Lemma lstrip_app_l (s t : pystr) :
  Forall (fun c => py_isspace c = true) s -> lstrip (s ++ t) = lstrip t.
Proof. induction 1 as [|c s Hc _ IH]; [done|]. simpl. by rewrite Hc. Qed.

Lemma lstrip_nonspace (c : Z) (t : pystr) :
  py_isspace c = false -> lstrip (c :: t) = c :: t.
Proof. intros H. simpl. by rewrite H. Qed.

(** [line.strip()] on a line [c m d] ending with ["\n"], whose first and
    last characters are not blanks. *)
Lemma py_strip_line c m d :
  py_isspace c = false -> py_isspace d = false -> py_strip (c :: m ++ [d; 10]) = c :: m ++ [d].
Proof.
  intros Hc Hd. unfold py_strip. rewrite lstrip_nonspace by done.
  replace (rev (c :: m ++ [d; 10])) with (10 :: d :: rev (c :: m))
    by (simpl; by rewrite rev_app_distr).
  cbn [lstrip]. replace (py_isspace 10) with true by reflexivity. rewrite Hd.
  simpl. rewrite rev_app_distr, rev_involutive. simpl. by rewrite ?app_assoc.
Qed.

#[export] Hint Resolve re_digit_isdigit : mahjong.
