(* ===== verification/Tiles.v ===== *)
(** The tile converter of the [mahjong] library,
    [mahjong.tile.TilesConverter], which [src/handler.py] calls at lines
    48, 49, 58, 126, 148, 152 and 166 to turn one-line tile notation
    ("123m456p1z") into 136-format arrays.  The library is not part of
    the repository: the model transcribes [one_line_string_to_136_array]
    and [string_to_136_array] (version 1.x, with the default
    [has_aka_dora=False], the only value the handler uses), so that the
    handler's positional feedback and win test can be stated exactly.

    A tile of kind [k] (0..33: 1m..9m, 1p..9p, 1s..9s, 1z..7z) has the
    136-format indices [4k .. 4k+3]; repeated copies of a kind within one
    suit group get consecutive indices. *)

From Stdlib Require Import ZArith Lia.
From stdpp Require Import base list strings sorting.
From S2P Require Import Prelude Unicode.

Open Scope Z_scope.
Local Open Scope py_scope.

Module TilesConverter.

(** The four suit buffers [man], [pin], [sou], [honors] of
    [one_line_string_to_136_array]. *)
Record SuitBuf := mkSuitBuf {
  buf_man : pystr; buf_pin : pystr; buf_sou : pystr; buf_honors : pystr }.

Definition empty_buf : SuitBuf := mkSuitBuf [] [] [] [].

(** The suit letters: ['m'] 109, ['p'] 112, ['s'] 115, ['z'] 122, ['h'] 104. *)
Definition is_suit_letter (c : Z) : bool :=
  (c =? 109) || (c =? 112) || (c =? 115) || (c =? 122) || (c =? 104).

(** One iteration of the loop [for index, i in enumerate(string)]: the
    pending segment [cur] is [string[split_start:index]], the characters
    read since the last suit letter; a suit letter appends it to its
    buffer and moves [split_start] past itself. *)
Definition suit_step (st : SuitBuf * pystr) (i : Z) : SuitBuf * pystr :=
  let '(b, cur) := st in
  if i =? 109 then (mkSuitBuf (buf_man b ++ cur) (buf_pin b) (buf_sou b) (buf_honors b), [])
  else if i =? 112 then (mkSuitBuf (buf_man b) (buf_pin b ++ cur) (buf_sou b) (buf_honors b), [])
  else if i =? 115 then (mkSuitBuf (buf_man b) (buf_pin b) (buf_sou b ++ cur) (buf_honors b), [])
  else if (i =? 122) || (i =? 104) then
    (mkSuitBuf (buf_man b) (buf_pin b) (buf_sou b) (buf_honors b ++ cur), [])
  else (b, cur ++ [i]).

Definition split_suits (s : pystr) : SuitBuf * pystr := fold_left suit_step s (empty_buf, []).

(** One iteration of the loop of [_split_string(string, offset)]: [data]
    holds the 136-indices produced so far, [temp] the base indices; a
    repeated base index is shifted by the number of earlier copies. *)
Definition split_step (offset : Z) (acc : Res (list Z * list Z)) (i : Z) : Res (list Z * list Z) :=
  match acc with
  | inl e => inl e
  | inr (data, temp) =>
      match py_int_char i with
      | None => inl ValueError
      | Some v =>
          let tile := offset + (v - 1) * 4 in
          if py_in tile data then
            let count_of_tiles := Z.of_nat (length (List.filter (fun x => x =? tile) temp)) in
            inr (data ++ [tile + count_of_tiles], temp ++ [tile])
          else inr (data ++ [tile], temp ++ [tile])
      end
  end.

Definition split_string (s : pystr) (offset : Z) : Res (list Z) :=
  match fold_left (split_step offset) s (inr ([], [])) with
  | inl e => inl e
  | inr (data, _) => inr data
  end.

(** [string_to_136_array(sou, pin, man, honors)]: the groups are emitted
    in the order man, pin, sou, honors. *)
Definition string_to_136_array (sou pin man honors : pystr) : Res (list Z) :=
  let? r1 := split_string man 0 in
  let? r2 := split_string pin 36 in
  let? r3 := split_string sou 72 in
  let? r4 := split_string honors 108 in
  inr (r1 ++ r2 ++ r3 ++ r4).

(** [one_line_string_to_136_array(string)]: the characters after the
    last suit letter are dropped. *)
Definition one_line_string_to_136_array (s : pystr) : Res (list Z) :=
  let b := (split_suits s).1 in
  string_to_136_array (buf_sou b) (buf_pin b) (buf_man b) (buf_honors b).

(** [str(n)] of a Python int, in decimal: [digits_rev] gives the digits
    of [n >= 0] from the last one, with fuel [1 + log2 n], which is more
    than the number of decimal digits. *)
Fixpoint digits_rev (fuel : nat) (n : Z) : pystr :=
  match fuel with
  | O => []
  | S f => if n <? 10 then [48 + n] else (48 + n mod 10) :: digits_rev f (n `quot` 10)
  end.

Definition py_str_Z (n : Z) : pystr :=
  (if n <? 0 then [45] else []) ++ rev (digits_rev (S (Z.to_nat (Z.log2 (Z.abs n)))) (Z.abs n)).

(** The [words(suits, red_five, suffix)] helper of [to_one_line_string]
    with [print_aka_dora=False]: [suits and "".join(str(i // 4 + 1) for
    i in suits) + suffix or ""]. *)
Definition words (suits : list Z) (suffix : Z) : pystr :=
  match suits with
  | [] => []
  | _ :: _ => flat_map (fun i => py_str_Z (i `div` 4 + 1)) suits ++ [suffix]
  end.

(** [TilesConverter.to_one_line_string(tiles)] (mahjong 1.x): the tiles
    sorted ([sorted], here stdpp's [merge_sort]), split by suit, each
    suit's tiles shifted to start at 0, written man, pin, sou, honors. *)
Definition to_one_line_string (tiles : list Z) : pystr :=
  let tiles := merge_sort Z.le tiles in
  let man := List.filter (fun t => t <? 36) tiles in
  let pin := map (fun t => t - 36) (List.filter (fun t => (36 <=? t) && (t <? 72)) tiles) in
  let sou := map (fun t => t - 72) (List.filter (fun t => (72 <=? t) && (t <? 108)) tiles) in
  let honors := map (fun t => t - 108) (List.filter (fun t => 108 <=? t) tiles) in
  words man 109 ++ words pin 112 ++ words sou 115 ++ words honors 122.

(** The kind (0..33) of a 136-format index. *)
Definition tile_kind (t : Z) : Z := t `div` 4.

(** ** Lemmas on the converter *)

(** The buffer a suit letter appends to, as [suit_step] chooses it. *)
Definition buf_add (c : Z) (b : SuitBuf) (seg : pystr) : SuitBuf :=
  if c =? 109 then mkSuitBuf (buf_man b ++ seg) (buf_pin b) (buf_sou b) (buf_honors b)
  else if c =? 112 then mkSuitBuf (buf_man b) (buf_pin b ++ seg) (buf_sou b) (buf_honors b)
  else if c =? 115 then mkSuitBuf (buf_man b) (buf_pin b) (buf_sou b ++ seg) (buf_honors b)
  else mkSuitBuf (buf_man b) (buf_pin b) (buf_sou b) (buf_honors b ++ seg).

Definition buf_total (b : SuitBuf) : nat :=
  length (buf_man b) + length (buf_pin b) + length (buf_sou b) + length (buf_honors b).

Lemma suit_step_letter b cur c :
  is_suit_letter c = true -> suit_step (b, cur) c = (buf_add c b cur, []).
Proof.
  unfold is_suit_letter, suit_step, buf_add. intros H.
  destruct (c =? 109), (c =? 112), (c =? 115), (c =? 122), (c =? 104); simpl in *; congruence.
Qed.

Lemma suit_step_other b cur c :
  is_suit_letter c = false -> suit_step (b, cur) c = (b, cur ++ [c]).
Proof.
  unfold is_suit_letter, suit_step. intros H.
  destruct (c =? 109), (c =? 112), (c =? 115), (c =? 122), (c =? 104); simpl in *; congruence.
Qed.

Lemma buf_add_app c b s1 s2 : buf_add c (buf_add c b s1) s2 = buf_add c b (s1 ++ s2).
Proof.
  unfold buf_add. destruct (c =? 109), (c =? 112), (c =? 115); simpl; by rewrite <- app_assoc.
Qed.

Lemma buf_total_add c b seg : buf_total (buf_add c b seg) = (buf_total b + length seg)%nat.
Proof.
  unfold buf_total, buf_add. destruct (c =? 109), (c =? 112), (c =? 115); simpl;
    rewrite !length_app; lia.
Qed.

#[export] Hint Rewrite buf_add_app buf_total_add : pyrw.

(** Runs [suit_step] over characters whose class is in the context. *)
Ltac suit_simp :=
  repeat first [ rewrite suit_step_other by assumption
               | rewrite suit_step_letter by assumption ];
  cbn [fst snd];
  autorewrite with pyrw; simpl.

(** The reordering of [format_hand_msg] does not change the buffers:
    reading [x L y L] appends [x] then [y] to the buffer of [L], as
    reading [x y L] does. *)
Lemma suit_fold_fixup st x y L :
  is_suit_letter x = false -> is_suit_letter y = false -> is_suit_letter L = true ->
  fold_left suit_step [x; L; y; L] st = fold_left suit_step [x; y; L] st.
Proof.
  intros Hx Hy HL. destruct st as [b cur]. cbn [fold_left]. suit_simp.
  by rewrite <- app_assoc.
Qed.

(** Reading a tile [d L] after a suit letter adds one character to the
    buffers. *)
Lemma split_suits_tile q d L :
  (split_suits q).2 = [] -> is_suit_letter d = false -> is_suit_letter L = true ->
  (split_suits (q ++ [d; L])).2 = [] /\
  buf_total (split_suits (q ++ [d; L])).1 = S (buf_total (split_suits q).1).
Proof.
  unfold split_suits. rewrite fold_left_app.
  destruct (fold_left suit_step q _) as [b cur]; cbn [fold_left fst snd]. intros -> Hd HL.
  suit_simp. split; [done|lia].
Qed.

Lemma split_suits_letter q L :
  is_suit_letter L = true -> (split_suits (q ++ [L])).2 = [].
Proof.
  unfold split_suits. rewrite fold_left_app.
  destruct (fold_left suit_step q _) as [b cur]; cbn [fold_left]. intros HL. by rewrite suit_step_letter.
Qed.

Lemma split_step_error off s e : fold_left (split_step off) s (inl e) = inl e.
Proof. induction s; simpl; auto. Qed.

Lemma split_step_length off s d0 t0 d t :
  fold_left (split_step off) s (inr (d0, t0)) = inr (d, t) ->
  length d = (length d0 + length s)%nat.
Proof.
  revert d0 t0. induction s as [|c s IH]; intros d0 t0; simpl.
  - intros [= -> ->]. lia.
  - destruct (py_int_char c); [|by rewrite split_step_error].
    case_match; intros Hf%IH; rewrite Hf, length_app; simpl; lia.
Qed.

Lemma split_string_length s off d : split_string s off = inr d -> length d = length s.
Proof.
  unfold split_string. destruct (fold_left _ _ _) as [|[d' t']] eqn:E; [done|].
  intros [= <-]. by apply split_step_length in E.
Qed.

Lemma split_step_digits off s d0 t0 :
  Forall (fun c => re_digit c = true) s ->
  exists d t, fold_left (split_step off) s (inr (d0, t0)) = inr (d, t).
Proof.
  intros Hs. revert d0 t0. induction Hs as [|c s Hc _ IH]; intros d0 t0; simpl; eauto.
  apply py_int_char_re_digit in Hc as [v ->]. case_match; apply IH.
Qed.

Lemma split_string_digits s off :
  Forall (fun c => re_digit c = true) s -> exists d, split_string s off = inr d.
Proof.
  intros (d & t & E)%(split_step_digits off s [] []). unfold split_string. rewrite E. eauto.
Qed.

Lemma one_line_length s l :
  one_line_string_to_136_array s = inr l -> length l = buf_total (split_suits s).1.
Proof.
  unfold one_line_string_to_136_array, string_to_136_array, buf_total, rbind.
  destruct (split_suits s) as [b cur]; simpl.
  repeat match goal with
  | |- context [split_string ?x ?o] =>
      let E := fresh "E" in destruct (split_string x o) eqn:E; [done|];
      apply split_string_length in E
  end.
  intros [= <-]. rewrite !length_app. lia.
Qed.

(** The characters the converter reads: decimal digits and suit letters. *)
Definition tile_char (c : Z) : bool := re_digit c || is_suit_letter c.

Definition buf_chars (st : SuitBuf * pystr) : pystr :=
  buf_man st.1 ++ buf_pin st.1 ++ buf_sou st.1 ++ buf_honors st.1 ++ st.2.

Lemma suit_step_digits st c :
  tile_char c = true -> Forall (fun c => re_digit c = true) (buf_chars st) ->
  Forall (fun c => re_digit c = true) (buf_chars (suit_step st c)).
Proof.
  unfold tile_char, buf_chars. destruct st as [b cur]. intros Hc Hst.
  rewrite !Forall_app in Hst. destruct Hst as (H1 & H2 & H3 & H4 & H5).
  destruct (is_suit_letter c) eqn:Hl.
  - rewrite suit_step_letter by done. unfold buf_add.
    destruct (c =? 109), (c =? 112), (c =? 115); simpl;
      rewrite !Forall_app; repeat split; auto using Forall_app_2.
  - rewrite suit_step_other by done. rewrite orb_false_r in Hc. simpl.
    rewrite !Forall_app; repeat split; auto.
Qed.

Lemma fold_suit_digits s st :
  Forall (fun c => tile_char c = true) s ->
  Forall (fun c => re_digit c = true) (buf_chars st) ->
  Forall (fun c => re_digit c = true) (buf_chars (fold_left suit_step s st)).
Proof.
  intros Hs. revert st. induction Hs as [|c s Hc _ IH]; intros st Hst; [done|].
  apply IH, suit_step_digits; done.
Qed.

(** Text made of digits and suit letters converts without raising. *)
Lemma one_line_ok s :
  Forall (fun c => tile_char c = true) s -> exists l, one_line_string_to_136_array s = inr l.
Proof.
  intros Hs. pose proof (fold_suit_digits s (empty_buf, []) Hs (Forall_nil_2 _)) as Hb.
  unfold one_line_string_to_136_array, string_to_136_array, split_suits, rbind.
  destruct (fold_left suit_step s _) as [b cur]. unfold buf_chars in Hb; simpl in *.
  rewrite !Forall_app in Hb. destruct Hb as (H1 & H2 & H3 & H4 & _).
  destruct (split_string_digits _ 0 H1) as [r1 ->], (split_string_digits _ 36 H2) as [r2 ->],
    (split_string_digits _ 72 H3) as [r3 ->], (split_string_digits _ 108 H4) as [r4 ->].
  eauto.
Qed.

(** A two-character text gives a tile only as a non-letter followed by
    a suit letter. *)
Lemma one_line_two a b t r :
  one_line_string_to_136_array [a; b] = inr (t :: r) ->
  is_suit_letter a = false /\ is_suit_letter b = true.
Proof.
  intros H. pose proof (one_line_length _ _ H) as Hl. revert Hl.
  unfold split_suits. cbn [fold_left].
  destruct (is_suit_letter a) eqn:Ha, (is_suit_letter b) eqn:Hb; suit_simp;
    unfold buf_total, buf_add, empty_buf;
    repeat case_match; simpl; intros; try lia; done.
Qed.

(** The reordering of [format_hand_msg], on a whole text. *)
Lemma one_line_fixup p x y L :
  is_suit_letter x = false -> is_suit_letter y = false -> is_suit_letter L = true ->
  one_line_string_to_136_array (p ++ [x; L; y; L]) = one_line_string_to_136_array (p ++ [x; y; L]).
Proof.
  intros Hx Hy HL. unfold one_line_string_to_136_array, split_suits.
  by rewrite !fold_left_app, suit_fold_fixup.
Qed.

End TilesConverter.
