(* ===== verification/Decimal.v ===== *)
(** Python's [str(int)] and [int(str)] on decimal ASCII text.  The code
    formats numbers into its messages with f-strings (lines 135, 215 and
    221 of [src/handler.py]), that is with [str(n)], modelled in [Tiles]
    as [py_str_Z] with a fuel of [1 + log2 |n|] divisions by 10.  This
    file shows that the fuel is always enough ([fuel_enough]): the
    printer writes every digit, only ASCII digits after an optional
    minus sign, and [int()] reads the number back ([py_int_str]). *)

From Stdlib Require Import ZArith Lia.
From stdpp Require Import base list.
From S2P Require Import Prelude Unicode Tiles.

Open Scope Z_scope.
Import TilesConverter.

Module Decimal.

Definition is_ascii_digit (c : Z) : bool := (48 <=? c) && (c <=? 57).

(** The value of the digits [s] read after the value [acc]. *)
Fixpoint digits_val (acc : Z) (s : pystr) : option Z :=
  match s with
  | [] => Some acc
  | c :: s' => if is_ascii_digit c then digits_val (10 * acc + (c - 48)) s' else None
  end.

(** [int(s)] on ASCII text: an optional minus sign (45) and at least one
    digit; [None] where Python raises [ValueError]. *)
Definition py_int (s : pystr) : option Z :=
  match s with
  | [] => None
  | c :: r =>
      if c =? 45 then match r with [] => None | _ => Z.opp <$> digits_val 0 r end
      else digits_val 0 s
  end.

(** The characters [str(n)] can contain. *)
Definition num_char (c : Z) : bool := (c =? 45) || is_ascii_digit c.

(** ** Lemmas *)

Lemma digits_val_app acc s1 s2 :
  digits_val acc (s1 ++ s2) = digits_val acc s1 ≫= fun v => digits_val v s2.
Proof.
  revert acc. induction s1 as [|c s1 IH]; intros acc; simpl; [done|].
  by destruct (is_ascii_digit c).
Qed.

Lemma is_ascii_digit_of d : 0 <= d <= 9 -> is_ascii_digit (48 + d) = true.
Proof. intros Hd. unfold is_ascii_digit. apply andb_true_iff. rewrite !Z.leb_le. lia. Qed.

(** With fuel [S f] and [n < 10^(S f)], [digits_rev] writes all the
    digits of [n], least significant first. *)
Lemma digits_rev_spec f n :
  0 <= n < 10 ^ Z.of_nat (S f) ->
  digits_rev (S f) n <> [] /\ Forall (fun c => is_ascii_digit c = true) (digits_rev (S f) n) /\
  forall acc, digits_val acc (rev (digits_rev (S f) n)) =
              Some (acc * 10 ^ Z.of_nat (length (digits_rev (S f) n)) + n).
Proof.
  revert n. induction f as [|f IH]; intros n Hn; cbn [digits_rev];
    rewrite Nat2Z.inj_succ, Z.pow_succ_r in Hn by lia.
  - assert (n < 10) as Hlt by (simpl in Hn; lia). rewrite (proj2 (Z.ltb_lt n 10) Hlt).
    split; [done|split; [repeat constructor; apply is_ascii_digit_of; lia|]].
    intros acc. simpl. rewrite is_ascii_digit_of by lia. f_equal. rewrite Z.pow_1_r. lia.
  - destruct (Z.ltb_spec n 10).
    + split; [done|split; [repeat constructor; apply is_ascii_digit_of; lia|]].
      intros acc. simpl. rewrite is_ascii_digit_of by lia. f_equal. rewrite Z.pow_1_r. lia.
    + rewrite Z.quot_div_nonneg by lia.
      destruct (IH (n `div` 10)) as (Hne & Hd & Hv);
        [split; [apply Z.div_pos|apply Z.div_lt_upper_bound]; lia|].
      pose proof (Z.mod_pos_bound n 10 ltac:(lia)).
      split; [done|split; [constructor; [apply is_ascii_digit_of; lia|done]|]].
      intros acc. cbn [rev length]. rewrite digits_val_app, Hv. simpl.
      rewrite is_ascii_digit_of by lia. f_equal.
      rewrite Nat2Z.inj_succ, Z.pow_succ_r by lia. pose proof (Z.div_mod n 10). nia.
Qed.

(** The fuel [1 + log2 n] of [py_str_Z] is enough: [n < 10^(1 + log2 n)]. *)
Lemma fuel_enough n : 0 <= n -> n < 10 ^ Z.of_nat (S (Z.to_nat (Z.log2 n))).
Proof.
  intros Hn. rewrite Nat2Z.inj_succ, Z2Nat.id by apply Z.log2_nonneg.
  destruct (Z.eq_dec n 0) as [->|Hn0]; [done|].
  destruct (Z.log2_spec n) as [_ H]; [lia|].
  eapply Z.lt_le_trans; [exact H|]. apply Z.pow_le_mono_l. lia.
Qed.

Lemma digits_of_abs n :
  let ds := digits_rev (S (Z.to_nat (Z.log2 (Z.abs n)))) (Z.abs n) in
  ds <> [] /\ Forall (fun c => is_ascii_digit c = true) ds /\
  digits_val 0 (rev ds) = Some (Z.abs n).
Proof.
  destruct (digits_rev_spec (Z.to_nat (Z.log2 (Z.abs n))) (Z.abs n)) as (Hne & Hd & Hv).
  { split; [lia|]. apply fuel_enough. lia. }
  split; [done|split; [done|]]. by rewrite Hv.
Qed.

(** [int(str(n)) = n]. *)
Lemma py_int_str n : py_int (py_str_Z n) = Some n.
Proof.
  destruct (digits_of_abs n) as (Hne & Hd & Hv). unfold py_str_Z.
  set (ds := digits_rev _ _) in *.
  destruct (rev ds) as [|c r] eqn:Er; [by destruct Hne; rewrite <- (rev_involutive ds), Er|].
  assert (Hc : is_ascii_digit c = true).
  { apply List.Forall_rev in Hd. rewrite Er in Hd. by inversion Hd. }
  destruct (Z.ltb_spec n 0); cbn [app]; unfold py_int; cbv beta iota.
  - rewrite Z.eqb_refl, Hv. simpl. f_equal. lia.
  - replace (c =? 45) with false
      by (symmetry; apply Z.eqb_neq; intros ->; discriminate Hc).
    rewrite Hv. f_equal. lia.
Qed.

Lemma py_str_chars n : Forall (fun c => num_char c = true) (py_str_Z n).
Proof.
  destruct (digits_of_abs n) as (_ & Hd & _). unfold py_str_Z. apply Forall_app. split.
  - destruct (n <? 0); repeat constructor.
  - apply List.Forall_rev. eapply Forall_impl; [exact Hd|]. intros c Hc. unfold num_char.
    by rewrite Hc, orb_true_r.
Qed.

End Decimal.
