(* ===== verification/TilesSpec.v ===== *)
(** What the converter of the mahjong library ([Tiles]) computes on the
    texts that name real tiles.  On ASCII digits 1-9 with at most four
    copies of each, [_split_string(s, offset)] gives the [i]-th digit [c]
    the index [offset + 4 (c - 1) + k], [k] the number of copies of [c]
    before it ([canon]); from this follow the bounds of the 136-format
    (every index in [[0, 136)], no index twice) and the round trip of
    [to_one_line_string], which writes the tiles that [TC.to_one_line_string]
    names in the images of the feedback (lines 177 and 192 of
    [src/handler.py]) and that the converter reads back as the same
    tiles. *)

From Stdlib Require Import ZArith Lia.
From stdpp Require Import base list strings sorting.
From S2P Require Import Prelude Unicode Tiles.

Open Scope Z_scope.
Import TilesConverter.

Module TilesSpec.

(** Occurrences of [c] in [s]. *)
Fixpoint occ (s : pystr) (c : Z) : nat :=
  match s with
  | [] => 0%nat
  | x :: s' => ((if Z.eqb x c then 1 else 0) + occ s' c)%nat
  end.

(** The first index of the kind of digit [c] in the suit at [off]. *)
Definition base (off c : Z) : Z := off + (c - 49) * 4.

(** The result of [_split_string(s, off)] on well-formed digits. *)
Definition canon (off : Z) (s : pystr) : list Z :=
  imap (fun i c => base off c + Z.of_nat (occ (take i s) c)) s.

(** Digits [1..n], each at most four times. *)
Definition digits_ok (n : Z) (s : pystr) : Prop :=
  Forall (fun c => 49 <= c <= 48 + n) s /\ forall c, (occ s c <= 4)%nat.

(** The same test, executable. *)
Definition digits_okb (n : Z) (s : pystr) : bool :=
  forallb (fun c => (49 <=? c) && (c <=? 48 + n) && (occ s c <=? 4)%nat) s.

(** A text whose suits name real tiles: digits 1-9 in man, pin and sou,
    1-7 in the honours, at most four copies of each. *)
Definition names_tiles (s : pystr) : Prop :=
  digits_ok 9 (buf_man (split_suits s).1) /\ digits_ok 9 (buf_pin (split_suits s).1) /\
  digits_ok 9 (buf_sou (split_suits s).1) /\ digits_ok 7 (buf_honors (split_suits s).1).

(** The character [str(i // 4 + 1)] that [words] writes for the tile
    [i] of a suit shifted to start at 0. *)
Definition digit_of (i : Z) : Z := 49 + i `div` 4.

(** [off <= t < off + w], the test of [to_one_line_string]'s filters. *)
Definition rng (a b t : Z) : bool := (a <=? t) && (t <? b).

(** The tiles of a sorted hand in the block [[off, off + w)]. *)
Definition suit_tiles (off w : Z) (l : list Z) : list Z := List.filter (rng off (off + w)) l.

(** ** Occurrences *)

Lemma occ_app s1 s2 c : occ (s1 ++ s2) c = (occ s1 c + occ s2 c)%nat.
Proof. induction s1 as [|x s1 IH]; simpl; [done|]. rewrite IH. lia. Qed.

Lemma occ_zero s c : c ∉ s -> occ s c = 0%nat.
Proof.
  induction s as [|x s IH]; intros Hc; [done|]. simpl.
  destruct (Z.eqb_spec x c) as [->|]; [by destruct Hc; left|].
  apply IH. intros ?. apply Hc. by right.
Qed.

Lemma occ_take_S s i c : s !! i = Some c -> occ (take (S i) s) c = S (occ (take i s) c).
Proof. intros Hi. rewrite (take_S_r _ _ _ Hi), occ_app. simpl. rewrite Z.eqb_refl. lia. Qed.

Lemma occ_take_mono s a b c : (a <= b)%nat -> (occ (take a s) c <= occ (take b s) c)%nat.
Proof.
  intros Hab. rewrite <- (take_drop a (take b s)), take_take, Nat.min_l by done.
  rewrite occ_app. lia.
Qed.

Lemma occ_take_le s i c : (occ (take i s) c <= occ s c)%nat.
Proof. rewrite <- (take_drop i s) at 2. rewrite occ_app. lia. Qed.

(** The first copy of [c] in [s]. *)
Lemma first_occ s c : c ∈ s -> exists j, s !! j = Some c /\ occ (take j s) c = 0%nat.
Proof.
  induction s as [|x s IH]; [by intros ?%elem_of_nil|]. intros Hc.
  destruct (Z.eqb_spec x c) as [->|Hne]; [by exists 0%nat|].
  apply elem_of_cons in Hc as [->|Hc]; [done|].
  destruct (IH Hc) as (j & Hj & Ho). exists (S j). simpl. split; [done|].
  rewrite Ho. by destruct (Z.eqb_spec x c).
Qed.

Lemma digits_okb_spec n s : digits_okb n s = true <-> digits_ok n s.
Proof.
  unfold digits_okb, digits_ok. rewrite forallb_forall, List.Forall_forall. split.
  - intros H. split.
    + intros c Hc. apply H in Hc. apply andb_true_iff in Hc as [[H1 H2]%andb_true_iff _].
      apply Z.leb_le in H1, H2. lia.
    + intros c. destruct (decide (c ∈ s)) as [Hc|Hc]; [|rewrite occ_zero by done; lia].
      apply list_elem_of_In, H, andb_true_iff in Hc as [_ Hc]. by apply Nat.leb_le.
  - intros [H Ho] c Hc. specialize (H c Hc).
    rewrite !andb_true_iff, Z.leb_le, Z.leb_le, Nat.leb_le. split; [lia|apply Ho].
Qed.

#[export] Instance digits_ok_dec n s : Decision (digits_ok n s).
Proof. refine (cast_if (decide (digits_okb n s = true))); by rewrite <- digits_okb_spec. Defined.

#[export] Instance names_tiles_dec s : Decision (names_tiles s).
Proof. unfold names_tiles. apply _. Defined.

(** ** The canonical indices *)

Lemma canon_snoc off s c :
  canon off (s ++ [c]) = canon off s ++ [base off c + Z.of_nat (occ s c)].
Proof.
  unfold canon. rewrite imap_app. simpl. f_equal.
  - apply imap_ext. intros i x Hi. apply lookup_lt_Some in Hi. by rewrite take_app_le by lia.
  - by rewrite Nat.add_0_r, take_app_length.
Qed.

(** Every index is its kind's first index plus a copy number below 4. *)
Lemma canon_lookup off s i t :
  (forall c, (occ s c <= 4)%nat) -> canon off s !! i = Some t ->
  exists c, s !! i = Some c /\ base off c <= t <= base off c + 3 /\
            t = base off c + Z.of_nat (occ (take i s) c).
Proof.
  intros Hs. unfold canon. rewrite list_lookup_imap.
  destruct (s !! i) as [c|] eqn:Hi; [|done]. intros [= <-]. exists c. split; [done|].
  pose proof (occ_take_S s i c Hi) as H1. pose proof (occ_take_le s (S i) c) as H2.
  specialize (Hs c). split; [lia|done].
Qed.

Lemma canon_base_in off s c :
  (forall c, (occ s c <= 4)%nat) -> base off c ∈ canon off s <-> c ∈ s.
Proof.
  intros Hs. split.
  - intros (i & Hi)%list_elem_of_lookup.
    destruct (canon_lookup off s i _ Hs Hi) as (c' & Hc' & Hr & _).
    unfold base in Hr. assert (c' = c) as <- by lia. by eapply list_elem_of_lookup_2.
  - intros (j & Hj & Ho)%first_occ. apply list_elem_of_lookup. exists j.
    unfold canon. rewrite list_lookup_imap, Hj. simpl. by rewrite Ho, Z.add_0_r.
Qed.

Lemma base_count off s c :
  length (List.filter (fun x => x =? base off c) (map (base off) s)) = occ s c.
Proof.
  induction s as [|x s IH]; [done|]. simpl.
  destruct (Z.eqb_spec x c) as [->|Hne].
  - by rewrite Z.eqb_refl, <- IH.
  - replace (base off x =? base off c) with false by (symmetry; apply Z.eqb_neq; unfold base; lia).
    exact IH.
Qed.

(** One iteration of [_split_string] appends the canonical index. *)
Lemma split_step_canon off s c :
  49 <= c <= 57 -> (forall c, (occ s c <= 4)%nat) ->
  split_step off (inr (canon off s, map (base off) s)) c =
  inr (canon off (s ++ [c]), map (base off) (s ++ [c])).
Proof.
  intros Hc Hs. unfold split_step. rewrite py_int_char_ascii by lia.
  replace (off + (c - 48 - 1) * 4) with (base off c) by (unfold base; lia).
  rewrite canon_snoc, map_app. unfold py_in.
  destruct (decide (c ∈ s)) as [Hin|Hin].
  - rewrite bool_decide_eq_true_2 by (by apply canon_base_in). by rewrite base_count.
  - rewrite bool_decide_eq_false_2 by (by rewrite canon_base_in). by rewrite occ_zero, Z.add_0_r.
Qed.

Lemma split_fold_canon off s0 s :
  Forall (fun c => 49 <= c <= 57) s -> (forall c, (occ (s0 ++ s) c <= 4)%nat) ->
  fold_left (split_step off) s (inr (canon off s0, map (base off) s0)) =
  inr (canon off (s0 ++ s), map (base off) (s0 ++ s)).
Proof.
  intros Hs. revert s0. induction Hs as [|c s Hc _ IH]; intros s0 Ho.
  - by rewrite app_nil_r.
  - cbn [fold_left]. rewrite split_step_canon by (done || (intros x; specialize (Ho x);
      rewrite occ_app in Ho; lia)).
    rewrite IH; [by rewrite <- app_assoc|]. by rewrite <- app_assoc.
Qed.

(** [_split_string] on digits 1-9 with at most four copies of each. *)
Lemma split_string_canon n s off :
  n <= 9 -> digits_ok n s -> split_string s off = inr (canon off s).
Proof.
  intros Hn [Hr Ho]. unfold split_string.
  pose proof (split_fold_canon off [] s) as H. cbn [app map] in H. unfold canon at 1 in H.
  cbn in H. rewrite H; [done| |done].
  eapply Forall_impl; [exact Hr|]. simpl. lia.
Qed.

(** The indices of a suit lie in its block of [4 n] indices. *)
Lemma canon_range off n s :
  n <= 9 -> digits_ok n s -> Forall (fun t => off <= t < off + 4 * n) (canon off s).
Proof.
  intros Hn [Hr Ho]. apply Forall_lookup. intros i t Ht.
  destruct (canon_lookup off s i t Ho Ht) as (c & Hc & Hb & _).
  pose proof (proj1 (Forall_lookup _ _) Hr i c Hc). cbn beta in *. unfold base in Hb. lia.
Qed.

(** No index twice: two positions with the same index hold the same
    digit with as many copies before them. *)
Lemma canon_nodup off s : (forall c, (occ s c <= 4)%nat) -> NoDup (canon off s).
Proof.
  intros Ho. apply NoDup_alt. intros i j t Hi Hj.
  destruct (canon_lookup off s i t Ho Hi) as (ci & Hci & Hbi & Ei).
  destruct (canon_lookup off s j t Ho Hj) as (cj & Hcj & Hbj & Ej).
  unfold base in *. assert (ci = cj) as <- by lia.
  assert (Hk : occ (take i s) ci = occ (take j s) ci) by lia.
  destruct (Nat.lt_total i j) as [Hlt|[?|Hlt]]; [|done|].
  - pose proof (occ_take_mono s (S i) j ci Hlt). rewrite occ_take_S in * by done. lia.
  - pose proof (occ_take_mono s (S j) i ci Hlt). rewrite occ_take_S in * by done. lia.
Qed.

(** A range bound of a list from a narrower one in the context. *)
Ltac forall_lia := eapply Forall_impl; [eassumption|]; simpl; lia.

Lemma nodup_app_below (m : Z) (l1 l2 : list Z) :
  NoDup l1 -> NoDup l2 -> Forall (fun t => t < m) l1 -> Forall (fun t => m <= t) l2 ->
  NoDup (l1 ++ l2).
Proof.
  intros H1 H2 F1 F2. apply NoDup_app. split; [done|split; [|done]].
  intros x Hx1 Hx2. rewrite Forall_forall in F1, F2. apply F1 in Hx1. apply F2 in Hx2. lia.
Qed.

(** [string_to_136_array] on well-formed suit texts. *)
Lemma string_to_136_canon sou pin man honors :
  digits_ok 9 man -> digits_ok 9 pin -> digits_ok 9 sou -> digits_ok 9 honors ->
  string_to_136_array sou pin man honors =
  inr (canon 0 man ++ canon 36 pin ++ canon 72 sou ++ canon 108 honors).
Proof.
  intros Hm Hp Hs Hh. unfold string_to_136_array.
  by rewrite !(split_string_canon 9) by (done || lia).
Qed.

Lemma digits_ok_weaken n s : n <= 9 -> digits_ok n s -> digits_ok 9 s.
Proof. intros Hn [Hr Ho]. split; [|done]. eapply Forall_impl; [exact Hr|]. simpl. lia. Qed.

(** Bounds of the 136-format: on a text that names tiles,
    [one_line_string_to_136_array] returns a list of indices in
    [[0, 136)] with no index twice. *)
Lemma one_line_bounds s :
  names_tiles s ->
  exists l, one_line_string_to_136_array s = inr l /\
            Forall (fun t => 0 <= t < 136) l /\ NoDup l.
Proof.
  intros (Hm & Hp & Hs & Hh). unfold one_line_string_to_136_array.
  rewrite string_to_136_canon by (done || by eapply digits_ok_weaken; [|done]; lia).
  eexists; split; [done|].
  pose proof (canon_range 0 9 _ ltac:(lia) Hm) as Rm.
  pose proof (canon_range 36 9 _ ltac:(lia) Hp) as Rp.
  pose proof (canon_range 72 9 _ ltac:(lia) Hs) as Rs.
  pose proof (canon_range 108 7 _ ltac:(lia) Hh) as Rh.
  split.
  - repeat apply Forall_app_2; forall_lia.
  - apply (nodup_app_below 36); [apply canon_nodup, Hm| |forall_lia|].
    + apply (nodup_app_below 72); [apply canon_nodup, Hp| |forall_lia|].
      * apply (nodup_app_below 108); [apply canon_nodup, Hs|apply canon_nodup, Hh|forall_lia..].
      * repeat apply Forall_app_2; forall_lia.
    + repeat apply Forall_app_2; forall_lia.
Qed.

(** ** Writing the tiles: [words] and the suit buffers *)

Lemma py_str_digit k : 1 <= k <= 9 -> py_str_Z k = [48 + k].
Proof.
  intros Hk. unfold py_str_Z. rewrite Z.abs_eq by lia.
  replace (k <? 0) with false by (symmetry; apply Z.ltb_ge; lia). cbn [app digits_rev].
  by replace (k <? 10) with true by (symmetry; apply Z.ltb_lt; lia).
Qed.

Lemma flat_map_digits l :
  Forall (fun i => 0 <= i < 36) l -> flat_map (fun i => py_str_Z (i `div` 4 + 1)) l = map digit_of l.
Proof.
  induction 1 as [|i l Hi _ IH]; [done|]. cbn [flat_map map].
  rewrite py_str_digit by div_lia. rewrite IH. unfold digit_of. simpl. f_equal. lia.
Qed.

Lemma digit_not_letter i : 0 <= i < 36 -> is_suit_letter (digit_of i) = false.
Proof.
  intros Hi. assert (49 <= digit_of i <= 57) by (unfold digit_of; div_lia).
  unfold is_suit_letter. by rewrite !(proj2 (Z.eqb_neq (digit_of i) _)) by lia.
Qed.

Lemma fold_plain ds b cur :
  Forall (fun c => is_suit_letter c = false) ds ->
  fold_left suit_step ds (b, cur) = (b, cur ++ ds).
Proof.
  intros H. revert cur. induction H as [|c ds Hc _ IH]; intros cur; cbn [fold_left].
  - by rewrite app_nil_r.
  - rewrite suit_step_other, IH by done. by rewrite <- app_assoc.
Qed.

Lemma buf_add_nil c b : buf_add c b [] = b.
Proof. destruct b. unfold buf_add. by destruct (c =? 109), (c =? 112), (c =? 115); simpl; rewrite ?app_nil_r. Qed.

Lemma fold_words b l L :
  Forall (fun i => 0 <= i < 36) l -> is_suit_letter L = true ->
  fold_left suit_step (words l L) (b, []) = (buf_add L b (map digit_of l), []).
Proof.
  intros Hl HL. destruct l as [|x l']; [by rewrite buf_add_nil|]. unfold words.
  rewrite flat_map_digits, fold_left_app by done.
  rewrite fold_plain; cbn [fold_left app].
  - by rewrite suit_step_letter.
  - apply Forall_fmap. eapply Forall_impl; [exact Hl|]. intros i Hi. by apply digit_not_letter.
Qed.

Lemma split_suits_words m p s h :
  Forall (fun i => 0 <= i < 36) m -> Forall (fun i => 0 <= i < 36) p ->
  Forall (fun i => 0 <= i < 36) s -> Forall (fun i => 0 <= i < 36) h ->
  split_suits (words m 109 ++ words p 112 ++ words s 115 ++ words h 122) =
  (mkSuitBuf (map digit_of m) (map digit_of p) (map digit_of s) (map digit_of h), []).
Proof. intros. unfold split_suits. by rewrite !fold_left_app, !fold_words. Qed.

(** ** Reading them back *)

Lemma occ_map l (f : Z -> Z) c : occ (map f l) c = length (List.filter (fun i => f i =? c) l).
Proof. induction l as [|x l IH]; simpl; [done|]. rewrite IH. by destruct (f x =? c). Qed.

(** Distinct tiles of a suit give digits 1-9, at most four of each. *)
Lemma digits_of_suit l :
  NoDup l -> Forall (fun i => 0 <= i < 36) l -> digits_ok 9 (map digit_of l).
Proof.
  intros Hn Hr. split.
  - apply Forall_fmap. eapply Forall_impl; [exact Hr|]. intros i Hi. unfold compose, digit_of. cbn beta in *. div_lia.
  - intros c. rewrite occ_map. set (k := c - 49).
    change 4%nat with (length [4 * k; 4 * k + 1; 4 * k + 2; 4 * k + 3]).
    apply NoDup_incl_length; [by apply List.NoDup_filter, NoDup_ListNoDup|].
    intros x (_ & Hx)%filter_In. apply Z.eqb_eq in Hx. unfold digit_of in Hx. simpl. div_lia.
Qed.

(** The kinds of the canonical indices are the digits' kinds. *)
Lemma canon_kinds off s :
  off `mod` 4 = 0 -> (forall c, (occ s c <= 4)%nat) ->
  map tile_kind (canon off s) = map (fun c => off `div` 4 + (c - 49)) s.
Proof.
  intros Hoff Ho. change (tile_kind <$> canon off s = (fun c => off `div` 4 + (c - 49)) <$> s).
  apply list_eq. intros i. rewrite !list_lookup_fmap.
  destruct (canon off s !! i) as [t|] eqn:Ht.
  - destruct (canon_lookup _ _ _ _ Ho Ht) as (c & Hc & Hb & _). rewrite Hc. simpl. f_equal.
    unfold tile_kind, base in *. div_lia.
  - apply lookup_ge_None in Ht. unfold canon in Ht. rewrite length_imap in Ht.
    by rewrite (proj2 (lookup_ge_None s i) Ht).
Qed.

Lemma suit_tiles_in off w l t : t ∈ suit_tiles off w l -> t ∈ l /\ off <= t < off + w.
Proof.
  unfold suit_tiles, rng. rewrite !list_elem_of_In, filter_In. intros [Hin Ht].
  split; [done|]. apply andb_true_iff in Ht as [H1 H2]. apply Z.leb_le in H1. apply Z.ltb_lt in H2. lia.
Qed.

(** One suit of a hand with distinct tiles: what [words] writes of it
    is read back by [_split_string] as tiles of the same kinds. *)
Lemma suit_block off w l :
  off `mod` 4 = 0 -> 0 <= w <= 36 -> NoDup l ->
  Forall (fun i => 0 <= i < 36) (map (fun t => t - off) (suit_tiles off w l)) /\
  digits_ok 9 (map digit_of (map (fun t => t - off) (suit_tiles off w l))) /\
  map tile_kind (canon off (map digit_of (map (fun t => t - off) (suit_tiles off w l)))) =
  map tile_kind (suit_tiles off w l).
Proof.
  intros Hoff Hw Hn.
  assert (Hr : Forall (fun i => 0 <= i < 36) (map (fun t => t - off) (suit_tiles off w l))).
  { apply Forall_fmap, Forall_forall. intros t (_ & Ht)%suit_tiles_in. unfold compose. lia. }
  assert (Hd : digits_ok 9 (map digit_of (map (fun t => t - off) (suit_tiles off w l)))).
  { apply digits_of_suit; [|done]. apply (NoDup_fmap_2_strong (fun t => t - off)); [intros x y _ _; lia|].
    by apply NoDup_ListNoDup, List.NoDup_filter, NoDup_ListNoDup. }
  split; [done|split; [done|]]. rewrite canon_kinds by (done || apply Hd).
  rewrite !map_map. apply map_ext_in. intros t Hin%list_elem_of_In.
  apply suit_tiles_in in Hin as [_ Ht]. unfold tile_kind, digit_of. div_lia.
Qed.

(** ** Sorted hands split into blocks *)

Lemma filter_nil_ge (p : Z -> bool) m l :
  Forall (fun t => m <= t) l -> (forall t, m <= t -> p t = false) -> List.filter p l = [].
Proof. induction 1 as [|x l Hx _ IH]; intros Hp; simpl; [done|]. rewrite Hp by done. auto. Qed.

Lemma rng_spec a b t : rng a b t = bool_decide (a <= t < b).
Proof.
  unfold rng. case_bool_decide.
  - apply andb_true_iff. rewrite Z.leb_le, Z.ltb_lt. lia.
  - apply not_true_iff_false. rewrite andb_true_iff, Z.leb_le, Z.ltb_lt. lia.
Qed.

(** Two adjacent blocks of a sorted list make the block that joins them. *)
Lemma filter_rng_split a b c l :
  a <= b <= c -> StronglySorted Z.le l ->
  List.filter (rng a b) l ++ List.filter (rng b c) l = List.filter (rng a c) l.
Proof.
  intros Hab Hs. induction Hs as [|x l Hs IH Hx]; [done|]. cbn [List.filter].
  rewrite !(rng_spec _ _ x). repeat case_bool_decide; try lia; simpl; [by f_equal| |done].
  assert (E : List.filter (rng a b) l = []).
  { apply (filter_nil_ge _ b); [eapply Forall_impl; [exact Hx|]; simpl; lia|].
    intros t Ht. rewrite rng_spec. apply bool_decide_eq_false_2. lia. }
  rewrite E in IH |- *. simpl. by f_equal.
Qed.

Lemma filter_all (p : Z -> bool) l : (forall t, t ∈ l -> p t = true) -> List.filter p l = l.
Proof.
  intros Hp. apply forallb_filter_id, forallb_forall. intros t Ht. apply Hp.
  by apply list_elem_of_In.
Qed.

(** A sorted hand of indices in [[0, 136)] is its man, pin, sou and
    honour blocks one after the other. *)
Lemma sorted_blocks l :
  StronglySorted Z.le l -> Forall (fun t => 0 <= t < 136) l ->
  suit_tiles 0 36 l ++ suit_tiles 36 36 l ++ suit_tiles 72 36 l ++ suit_tiles 108 28 l = l.
Proof.
  intros Hs Hr. unfold suit_tiles. simpl.
  rewrite !filter_rng_split by (done || lia). apply filter_all. intros t Ht.
  rewrite rng_spec. apply bool_decide_eq_true_2. by eapply Forall_forall in Hr.
Qed.

(** ** The round trip *)

Lemma map_sub0 l : map (fun t => t - 0) l = l.
Proof. induction l as [|x l IH]; simpl; [done|]. f_equal; [lia|done]. Qed.

(** [to_one_line_string] writes the four blocks of the sorted hand. *)
Lemma to_one_line_blocks ts :
  Forall (fun t => 0 <= t < 136) ts ->
  to_one_line_string ts =
  words (map (fun t => t - 0) (suit_tiles 0 36 (merge_sort Z.le ts))) 109 ++
  words (map (fun t => t - 36) (suit_tiles 36 36 (merge_sort Z.le ts))) 112 ++
  words (map (fun t => t - 72) (suit_tiles 72 36 (merge_sort Z.le ts))) 115 ++
  words (map (fun t => t - 108) (suit_tiles 108 28 (merge_sort Z.le ts))) 122.
Proof.
  intros Hr. assert (Hl : Forall (fun t => 0 <= t < 136) (merge_sort Z.le ts))
    by (by rewrite merge_sort_Permutation).
  rewrite List.Forall_forall in Hl. unfold to_one_line_string, suit_tiles.
  assert (E : forall p a w, (forall t, 0 <= t < 136 -> p t = rng a (a + w) t) ->
            List.filter p (merge_sort Z.le ts) = List.filter (rng a (a + w)) (merge_sort Z.le ts))
    by (intros p a w Hp; apply filter_ext_in; intros t Ht%Hl; by apply Hp).
  rewrite map_sub0, (E (fun t => t <? 36) 0 36), (E (fun t => 108 <=? t) 108 28); [done|..];
    intros t Ht; rewrite rng_spec; case_bool_decide.
  - apply Z.leb_le. lia.
  - apply Z.leb_gt. lia.
  - apply Z.ltb_lt. lia.
  - apply Z.ltb_ge. lia.
Qed.

(** Round trip of the 136-format text: for a hand of distinct indices in
    [[0, 136)], the text that [to_one_line_string] writes is read back by
    [one_line_string_to_136_array] as a hand with the same tile kinds, in
    sorted order. *)
Lemma to_one_line_read_back ts :
  Forall (fun t => 0 <= t < 136) ts -> NoDup ts ->
  exists l, one_line_string_to_136_array (to_one_line_string ts) = inr l /\
            map tile_kind l = map tile_kind (merge_sort Z.le ts).
Proof.
  intros Hr Hn. rewrite to_one_line_blocks by done.
  assert (Hn' : NoDup (merge_sort Z.le ts)) by (by rewrite merge_sort_Permutation).
  assert (Hr' : Forall (fun t => 0 <= t < 136) (merge_sort Z.le ts))
    by (by rewrite merge_sort_Permutation).
  pose proof (StronglySorted_merge_sort Z.le ts) as Hs.
  destruct (suit_block 0 36 _ eq_refl ltac:(lia) Hn') as (R1 & D1 & K1).
  destruct (suit_block 36 36 _ eq_refl ltac:(lia) Hn') as (R2 & D2 & K2).
  destruct (suit_block 72 36 _ eq_refl ltac:(lia) Hn') as (R3 & D3 & K3).
  destruct (suit_block 108 28 _ eq_refl ltac:(lia) Hn') as (R4 & D4 & K4).
  unfold one_line_string_to_136_array. rewrite split_suits_words by done.
  cbn [fst buf_man buf_pin buf_sou buf_honors].
  rewrite string_to_136_canon by done. eexists; split; [done|].
  rewrite !map_app, K1, K2, K3, K4, <- !map_app. by rewrite sorted_blocks.
Qed.

End TilesSpec.
