(* ===== verification/Guess.v ===== *)
(** The guess validator of [src/handler.py]: the glyph table
    [TileAsciiMap] and [TileMap] (lines 19-32), the character filter at
    the top of [HandGuess.guesses_handler] (line 139) and
    [HandGuess.format_hand_msg] (lines 107-118).  The theorems show which
    texts pass the filter, what the normalisation does on every branch
    (including the [IndexError] of short texts), that its one reordering
    step leaves the converted tiles unchanged, and that a guess that gets
    past the win-tile extraction has exactly 13 hand tiles. *)

From Stdlib Require Import ZArith Lia.
From stdpp Require Import base list strings.
From S2P Require Import Prelude Unicode Tiles.

Open Scope Z_scope.
Local Open Scope py_scope.
Import TilesConverter.

Module GuessValidator.

(** [class TileAsciiMap(Enum)]: the member names are CJK glyphs, written
    here by their readings. *)
Inductive TileAsciiMap :=
  | Man      (** 万 = "m" *)
  | Pin      (** 筒 = "p" *)
  | Sou      (** 索 = "s" *)
  | Ton      (** 东 = "1z" *)
  | Nan      (** 南 = "2z" *)
  | Shaa     (** 西 = "3z" *)
  | Pei      (** 北 = "4z" *)
  | Haku     (** 白 = "5z" *)
  | Hatsu    (** 发 = "6z" *)
  | Chun.    (** 中 = "7z" *)

#[export] Instance TileAsciiMap_eq_dec : EqDecision TileAsciiMap.
Proof. solve_decision. Defined.

(** The member's name, the code point of its glyph. *)
Definition name (t : TileAsciiMap) : Z :=
  match t with
  | Man => 19975 | Pin => 31570 | Sou => 32034 | Ton => 19996 | Nan => 21335
  | Shaa => 35199 | Pei => 21271 | Haku => 30333 | Hatsu => 21457 | Chun => 20013
  end.

(** The member's [.value]. *)
Definition value (t : TileAsciiMap) : pystr :=
  match t with
  | Man => u "m" | Pin => u "p" | Sou => u "s"
  | Ton => u "1z" | Nan => u "2z" | Shaa => u "3z" | Pei => u "4z"
  | Haku => u "5z" | Hatsu => u "6z" | Chun => u "7z"
  end.

(** The members in definition order. *)
Definition members : list TileAsciiMap :=
  [Man; Pin; Sou; Ton; Nan; Shaa; Pei; Haku; Hatsu; Chun].

(** [TileAsciiMap[w]]: lookup by member name. *)
Definition getitem (w : Z) : Res TileAsciiMap :=
  match find (fun t => name t =? w) members with
  | Some t => inr t
  | None => inl KeyError
  end.

(** [TileMap = ["万", "筒", "索", "东", "南", "西", "北", "白", "发", "中"]]. *)
Definition TileMap : pystr :=
  [19975; 31570; 32034; 19996; 21335; 35199; 21271; 30333; 21457; 20013].

(** A character of the class [[\dmpszh万筒索东南西北白发中]] of line 139. *)
Definition allowed_char (c : Z) : bool :=
  re_digit c || py_in c (u "mpszh") || py_in c TileMap.

(** [re.search(f"[^\dmpszh{''.join(TileMap)}]", msg)] is not [None]. *)
Definition has_invalid_char (msg : pystr) : bool :=
  existsb (fun c => negb (allowed_char c)) msg.

(** One iteration of the loop of [format_hand_msg] (lines 110-114). *)
Definition translate_step (hand : Res pystr) (w : Z) : Res pystr :=
  let? h := hand in
  if py_in w TileMap then
    let? t := getitem w in inr (h ++ value t)
  else inr (h ++ [w]).

Definition translate (msg : pystr) : Res pystr := fold_left translate_step msg (inr []).

(** [HandGuess.format_hand_msg(msg)]: glyphs become ASCII notation;
    then, when the character before the last two is a digit, the last
    character (the suit letter of the winning tile) is inserted after
    it, once.  [hand[:-2][-1]] raises [IndexError] on a text of fewer
    than three characters. *)
Definition format_hand_msg (msg : pystr) : Res pystr :=
  let? hand := translate msg in
  let? c := py_getitem (py_slice hand None (Some (-2))) (-1) in
  if py_isdigit c then
    let? last := py_getitem hand (-1) in
    inr (py_slice hand None (Some (-2)) ++ [last] ++ py_slice hand (Some (-2)) None)
  else inr hand.

(** ** Lemmas and theorems *)

(** What the loop appends for one character. *)
Definition glyph_text (c : Z) : pystr :=
  if py_in c TileMap then
    match getitem c with inr t => value t | inl _ => [] end
  else [c].

(** Case analysis on membership in a literal list. *)
Ltac in_literal H :=
  rewrite ?py_in_spec, list_elem_of_In in H; simpl in H; repeat destruct H as [<-|H]; [..|done].

Lemma getitem_TileMap c : py_in c TileMap = true -> exists t, getitem c = inr t.
Proof. intros H. in_literal H; eexists; reflexivity. Qed.

Lemma translate_step_app (h : pystr) c :
  translate_step (inr h) c = inr (h ++ glyph_text c).
Proof.
  unfold translate_step, glyph_text, rbind. destruct (py_in c TileMap) eqn:E; [|done].
  by destruct (getitem_TileMap c E) as [t ->].
Qed.

Lemma translate_fold msg (h : pystr) :
  fold_left translate_step msg (inr h) = inr (h ++ flat_map glyph_text msg).
Proof.
  revert h. induction msg as [|c msg IH]; intros h; cbn [fold_left flat_map];
    [by rewrite app_nil_r|].
  by rewrite translate_step_app, IH, <- app_assoc.
Qed.

(** The glyph translation never raises. *)
Lemma translate_spec msg : translate msg = inr (flat_map glyph_text msg).
Proof. apply translate_fold. Qed.

Lemma list_last3 {A} (t : list A) :
  (3 <= length t)%nat -> exists p x y z, t = p ++ [x; y; z].
Proof.
  intros H. destruct (rev t) as [|z [|y [|x r]]] eqn:E;
    try (apply (f_equal length) in E; rewrite length_rev in E; simpl in E; lia).
  exists (rev r), x, y, z. rewrite <- (rev_involutive t), E. simpl. by rewrite <- !app_assoc.
Qed.

(** The normalisation on every branch: fewer than three characters
    raise [IndexError]; otherwise, with the translated text [p x y z],
    the result is [p x z y z] when [x] is a digit and [p x y z] when not. *)
Lemma format_hand_msg_short msg :
  (length (flat_map glyph_text msg) < 3)%nat -> format_hand_msg msg = inl IndexError.
Proof.
  intros H. unfold format_hand_msg. rewrite translate_spec. simpl.
  unfold py_slice, py_bound, py_len.
  destruct (flat_map glyph_text msg) as [|a [|b [|c r]]]; simpl in *; try lia; reflexivity.
Qed.

Lemma format_hand_msg_long msg p x y z :
  flat_map glyph_text msg = p ++ [x; y; z] ->
  format_hand_msg msg = inr (if py_isdigit x then p ++ [x; z; y; z] else p ++ [x; y; z]).
Proof.
  intros Ht. unfold format_hand_msg. rewrite translate_spec, Ht. simpl.
  replace (p ++ [x; y; z]) with ((p ++ [x]) ++ [y; z]) by (by rewrite <- app_assoc).
  rewrite py_slice_drop_last2, py_getitem_last, py_slice_last2. simpl.
  destruct (py_isdigit x); [|done].
  replace ((p ++ [x]) ++ [y; z]) with ((p ++ [x; y]) ++ [z]) by (by rewrite <- !app_assoc).
  rewrite py_getitem_last. simpl. by rewrite <- !app_assoc.
Qed.

Lemma allowed_glyph_text c :
  allowed_char c = true -> Forall (fun c => tile_char c = true) (glyph_text c).
Proof.
  unfold allowed_char, glyph_text. intros Hc.
  destruct (py_in c TileMap) eqn:Hm.
  - apply forallb_Forall. in_literal Hm; vm_compute; reflexivity.
  - rewrite orb_false_r in Hc. apply Forall_singleton.
    apply orb_true_iff in Hc as [Hd|Hl]; [unfold tile_char; by rewrite Hd|].
    change (u "mpszh") with [109; 112; 115; 122; 104] in Hl.
    in_literal Hl; reflexivity.
Qed.

(** Every character of a text that passes the filter of line 139 is a
    digit or a suit letter once the glyphs are translated. *)
Lemma filter_allowed msg :
  has_invalid_char msg = false -> Forall (fun c => allowed_char c = true) msg.
Proof.
  unfold has_invalid_char. induction msg as [|c msg IH]; simpl; [constructor|].
  intros [Hc Hm]%orb_false_iff. constructor; [by destruct (allowed_char c)|auto].
Qed.

Lemma filtered_tile_chars msg :
  has_invalid_char msg = false -> Forall (fun c => tile_char c = true) (flat_map glyph_text msg).
Proof.
  intros H%filter_allowed. apply Forall_flat_map. by eapply Forall_impl; [|apply allowed_glyph_text].
Qed.

Lemma one_line_snoc_tile q y z l w ws :
  (split_suits q).2 = [] -> Forall (fun c => tile_char c = true) q ->
  one_line_string_to_136_array (q ++ [y; z]) = inr l ->
  one_line_string_to_136_array [y; z] = inr (w :: ws) ->
  exists l', one_line_string_to_136_array q = inr l' /\ length l = S (length l').
Proof.
  intros Hq Hc Hl Hw. apply one_line_two in Hw as [Hy Hz].
  destruct (one_line_ok q Hc) as [l' Hl']. exists l'. split; [done|].
  rewrite (one_line_length _ _ Hl), (one_line_length _ _ Hl').
  by apply split_suits_tile.
Qed.

Lemma tile_char_not_digit c :
  tile_char c = true -> py_isdigit c = false -> is_suit_letter c = true.
Proof.
  unfold tile_char. intros Hc Hd. destruct (re_digit c) eqn:Hr; [|done].
  apply re_digit_isdigit in Hr. congruence.
Qed.

(** The conversion of a filtered guess splits at its last two
    characters: when the normalised text converts and its last two
    characters convert to a tile, the hand part converts to one tile
    fewer than the whole. *)
Lemma hand_part_split msg h l w ws :
  has_invalid_char msg = false ->
  format_hand_msg msg = inr h ->
  one_line_string_to_136_array h = inr l ->
  one_line_string_to_136_array (py_slice h (Some (-2)) None) = inr (w :: ws) ->
  exists l', one_line_string_to_136_array (py_slice h None (Some (-2))) = inr l' /\
             length l = S (length l').
Proof.
  intros Hmsg Hf Hl Hw. pose proof (filtered_tile_chars msg Hmsg) as Hc.
  destruct (decide (3 <= length (flat_map glyph_text msg))%nat) as [H3|H3];
    [|rewrite format_hand_msg_short in Hf by lia; discriminate].
  destruct (list_last3 _ H3) as (p & x & y & z & Ht).
  rewrite (format_hand_msg_long msg p x y z Ht) in Hf. injection Hf as <-.
  rewrite Ht, !Forall_app, !Forall_cons in Hc. destruct Hc as (Hp & Hx & Hy & Hz & _).
  destruct (py_isdigit x) eqn:Hdx.
  - replace (p ++ [x; z; y; z]) with ((p ++ [x; z]) ++ [y; z]) in *
      by (by rewrite <- app_assoc).
    rewrite py_slice_last2 in Hw. rewrite py_slice_drop_last2.
    pose proof Hw as [_ Hz']%one_line_two.
    destruct (one_line_snoc_tile (p ++ [x; z]) y z l w ws) as (l' & Hl' & Hn).
    + replace (p ++ [x; z]) with ((p ++ [x]) ++ [z]) by (by rewrite <- app_assoc).
      exact (split_suits_letter _ _ Hz').
    + apply Forall_app_2; [exact Hp|]. exact (Forall_cons_2 _ _ _ Hx (Forall_cons_2 _ _ _ Hz (Forall_nil_2 _))).
    + exact Hl.
    + exact Hw.
    + by exists l'.
  - replace (p ++ [x; y; z]) with ((p ++ [x]) ++ [y; z]) in * by (by rewrite <- app_assoc).
    rewrite py_slice_last2 in Hw. rewrite py_slice_drop_last2.
    destruct (one_line_snoc_tile (p ++ [x]) y z l w ws) as (l' & Hl' & Hn).
    + apply split_suits_letter. exact (tile_char_not_digit x Hx Hdx).
    + apply Forall_app_2; [exact Hp|]. exact (Forall_cons_2 _ _ _ Hx (Forall_nil_2 _)).
    + exact Hl.
    + exact Hw.
    + by exists l'.
Qed.

(** C3. Once the filter of line 139 has passed, the normalised guess
    converts to 14 tiles and its last two characters convert to a
    winning tile, the hand part [msg_hand[:-2]] converts to exactly 13
    tiles: the loop of lines 174-187 never indexes past the 13 tiles of
    the secret hand and always binds [tile]. *)
Theorem guess_hand_has_13_tiles msg h l w ws :
  has_invalid_char msg = false ->
  format_hand_msg msg = inr h ->
  one_line_string_to_136_array h = inr l -> length l = 14%nat ->
  one_line_string_to_136_array (py_slice h (Some (-2)) None) = inr (w :: ws) ->
  exists l', one_line_string_to_136_array (py_slice h None (Some (-2))) = inr l' /\
             length l' = 13%nat.
Proof.
  intros Hmsg Hf Hl Hlen Hw.
  destruct (hand_part_split msg h l w ws Hmsg Hf Hl Hw) as (l' & Hl' & Hn).
  exists l'. split; [exact Hl'|lia].
Qed.

(** C24. The reordering step of [format_hand_msg] never changes the
    tiles: when the translated guess ends [x y z] with [z] a suit letter
    and [y] not one, the normalised text converts to the same 136-array
    as the translated text (the winning tile only gets its own suit
    letter). *)
Theorem format_hand_msg_same_tiles msg p x y z :
  flat_map glyph_text msg = p ++ [x; y; z] ->
  is_suit_letter y = false -> is_suit_letter z = true ->
  exists h, format_hand_msg msg = inr h /\
    one_line_string_to_136_array h = one_line_string_to_136_array (p ++ [x; y; z]).
Proof.
  intros Ht Hy Hz. rewrite (format_hand_msg_long msg p x y z Ht). eexists. split; [done|].
  destruct (py_isdigit x) eqn:Hx; [|done].
  apply one_line_fixup; [|done|done].
  unfold is_suit_letter. destruct (Z.eqb_spec x 109) as [->|]; [done|].
  destruct (Z.eqb_spec x 112) as [->|]; [done|]. destruct (Z.eqb_spec x 115) as [->|]; [done|].
  destruct (Z.eqb_spec x 122) as [->|]; [done|]. destruct (Z.eqb_spec x 104) as [->|]; [done|].
  reflexivity.
Qed.

(** C25. [TileAsciiMap] and [TileMap] form the spec's bidirectional
    glyph table: every member's name is in [TileMap] and
    [TileAsciiMap[name]] gives the member back, every glyph of [TileMap]
    names a member, and no two members have the same value. *)
Theorem tile_map_roundtrip :
  (forall t, getitem (name t) = inr t /\ name t ∈ TileMap) /\
  (forall c, c ∈ TileMap -> exists t, getitem c = inr t /\ name t = c) /\
  (forall t t', value t = value t' -> t = t').
Proof.
  split; [|split].
  - intros t. split; [by destruct t|]. apply list_elem_of_In. destruct t; simpl; tauto.
  - intros c Hc. in_literal Hc; eexists; split; reflexivity.
  - intros [] [] H; try reflexivity; vm_compute in H; discriminate.
Qed.

End GuessValidator.
