(* ===== verification/Evaluator.v ===== *)
(** The interface of the external scorer, [mahjong]'s
    [HandCalculator.estimate_hand_value] with [HandConfig] and the
    [HandResponse] it returns (used at lines 51-56 and 153-159 of
    [src/handler.py]).  The scoring rules are not part of the repository
    and are not modelled: the handler's theorems are proved for every
    instance of the class [HandCalculator].  The law class [KindInvariant]
    states the property of the real scorer that one theorem needs: the
    result depends on the tiles only through their kinds (the library
    converts the 136-array to a 34-count array first).  [table_calculator]
    is a test double that answers from a finite table, for witnesses. *)

From Stdlib Require Import ZArith Lia Permutation.
From stdpp Require Import base list strings.
From S2P Require Import Prelude Unicode Tiles.

Open Scope Z_scope.
Import TilesConverter.

Module Evaluator.

(** [HandConfig(is_riichi=..., is_tsumo=...)], the two options the code sets. *)
Record HandConfig := mkHandConfig { is_riichi : bool; is_tsumo : bool }.

(** A yaku of the result: its [yaku_id] and its [japanese] name. *)
Record Yaku := mkYaku { yaku_id : Z; japanese : pystr }.

(** [HandResponse]: [han] and [fu] are [None] and [cost] and [yaku] are
    [None] when the tiles are not a winning shape; [cost] holds the
    ["main"] and ["additional"] entries. *)
Record HandResponse := mkHandResponse {
  han : option Z; fu : option Z; cost : option (Z * Z); yaku : option (list Yaku) }.

Definition no_win : HandResponse := mkHandResponse None None None None.

(** [HandCalculator().estimate_hand_value(tiles, win_tile, config)]. *)
Class HandCalculator := {
  estimate_hand_value : list Z -> Z -> HandConfig -> HandResponse }.

(** The scorer sees the kinds of the tiles, not their 136-indices. *)
Class KindInvariant `{HandCalculator} := {
  estimate_kinds : forall t1 t2 w1 w2 cfg,
    Permutation (map tile_kind t1) (map tile_kind t2) -> tile_kind w1 = tile_kind w2 ->
    estimate_hand_value t1 w1 cfg = estimate_hand_value t2 w2 cfg }.

(** A scorer given by a table from (sorted kinds, kind of the winning
    tile, tsumo) to a response; [no_win] elsewhere. *)
Definition table_lookup (tbl : list (list Z * Z * bool * HandResponse))
    (tiles : list Z) (w : Z) (cfg : HandConfig) : HandResponse :=
  match find (fun e => let '(ks, k, ts, _) := e in
               bool_decide (Permutation ks (map tile_kind tiles)) && (k =? tile_kind w)
               && Bool.eqb ts (is_tsumo cfg)) tbl with
  | Some (_, _, _, r) => r
  | None => no_win
  end.

Definition table_calculator (tbl : list (list Z * Z * bool * HandResponse)) : HandCalculator :=
  {| estimate_hand_value := table_lookup tbl |}.

End Evaluator.
