(* ===== verification/Corpus.v ===== *)
(** The hand corpus reader [get_hand] of [src/handler.py] (lines 35-60)
    and the record [HandResult] it returns.  The file [hands.txt] is the
    list of its lines (as [linecache.getlines] returns them), and the
    value of [random.randint(0, len(hand_list))] is an input [draw].  The
    theorems show the decoding of a well-formed line (a round trip with
    the line format), the bounds of the secret hand it returns, and two
    defects of the index choice: the draw [len(hand_list)] raises
    [IndexError], and index 0 cannot be asked for. *)

From Stdlib Require Import ZArith Lia.
From stdpp Require Import base list strings sets.
From S2P Require Import Prelude Unicode Tiles TilesSpec Evaluator.

Open Scope Z_scope.
Local Open Scope py_scope.
Import TilesConverter TilesSpec Evaluator.

Module Corpus.

(** [HandResult = namedtuple("HandResult", "tiles win_tile tsumo result hand_index")]. *)
Record HandResult := mkHandResult {
  hr_tiles : list Z;            (** the 13 hand tiles, 136-format *)
  hr_win_tile : pystr;          (** the winning tile as text, e.g. "3p" *)
  hr_tsumo : bool;
  hr_result : HandResponse;     (** the scorer's result for the whole hand *)
  hr_hand_index : Z }.

(** [random.randint(a, b)] returns an integer [N] with [a <= N <= b]:
    both bounds are inclusive. *)
Definition randint_ok (range : Z * Z) (n : Z) : bool := (range.1 <=? n) && (n <=? range.2).

(** The bounds [get_hand] passes to [random.randint] (line 42). *)
Definition draw_range (hand_list : list pystr) : Z * Z := (0, py_len hand_list).

Section GetHand.
Context `{HandCalculator}.

(** [get_hand(hand_index)] on the corpus [hand_list]; [draw] is the value
    [random.randint(0, len(hand_list))] takes when it is called.  ['+']
    is the code point 43. *)
Definition get_hand (hand_list : list pystr) (hand_index : option Z) (draw : Z) : Res HandResult :=
  let hand_index := match hand_index with
                    | Some i => if i =? 0 then draw else i
                    | None => draw
                    end in
  let? line := py_getitem hand_list hand_index in
  let hand_raw := py_slice (py_strip line) None (Some (-3)) in
  let? c26 := py_getitem hand_raw 26 in
  let tsumo := c26 =? 43 in
  let last_tile := if tsumo then py_slice hand_raw (Some 27) (Some 29)
                   else py_slice hand_raw (Some 26) (Some 28) in
  let? tiles := one_line_string_to_136_array (List.filter (fun c => negb (c =? 43)) hand_raw) in
  let? wl := one_line_string_to_136_array last_tile in
  let? win_tile := py_getitem wl 0 in
  let result := estimate_hand_value tiles win_tile (mkHandConfig true tsumo) in
  let? tiles := one_line_string_to_136_array (py_slice hand_raw None (Some 26)) in
  inr (mkHandResult tiles last_tile tsumo result hand_index).

End GetHand.

(** A line of [hands.txt]: the 13 hand tiles in 26 characters, ["+"]
    for a self-draw, the winning tile in 2 characters, 3 characters of
    metadata and the newline. *)
Definition corpus_line (s : pystr) (tsumo : bool) (w meta : pystr) : pystr :=
  s ++ (if tsumo then [43] else []) ++ w ++ meta ++ [10].

Section GetHandTheorems.
Context `{HandCalculator}.

Lemma filter_no_plus (l : pystr) : 43 ∉ l -> List.filter (fun c => negb (c =? 43)) l = l.
Proof.
  induction l as [|c l IH]; simpl; [done|]. intros Hn%not_elem_of_cons.
  destruct Hn as [Hc Hl]. replace (c =? 43) with false by (symmetry; apply Z.eqb_neq; done).
  simpl. by rewrite IH.
Qed.

(** The text [hand_raw] that [get_hand] cuts from a corpus line. *)
Lemma strip_corpus_line s tsumo w meta c d :
  head s = Some c -> py_isspace c = false -> last meta = Some d -> py_isspace d = false ->
  length meta = 3%nat ->
  py_slice (py_strip (corpus_line s tsumo w meta)) None (Some (-3)) =
  s ++ (if tsumo then [43] else []) ++ w.
Proof.
  intros Hs Hc Hm Hd Hl. destruct s as [|c' s']; [done|]. injection Hs as ->.
  destruct meta as [|m0 m] using rev_ind; [done|]. clear IHm.
  rewrite last_snoc in Hm. injection Hm as ->.
  unfold corpus_line. replace ((c :: s') ++ (if tsumo then [43] else []) ++ w ++ (m ++ [d]) ++ [10])
    with (c :: (s' ++ (if tsumo then [43] else []) ++ w ++ m) ++ [d; 10])
    by (simpl; by rewrite <- !app_assoc).
  rewrite py_strip_line by done.
  replace (c :: (s' ++ (if tsumo then [43] else []) ++ w ++ m) ++ [d])
    with (((c :: s') ++ (if tsumo then [43] else []) ++ w) ++ (m ++ [d]))
    by (simpl; by rewrite <- !app_assoc).
  replace (-3) with (- py_len (m ++ [d])) by (unfold py_len; lia).
  apply py_slice_drop_suffix. by destruct m.
Qed.

(** C23. [get_hand] decodes a well-formed corpus line at a requested index
    [i <> 0]: the hand tiles are the conversion of the first 26
    characters, the winning tile is the 2-character text after the
    optional ["+"], the self-draw flag is the presence of ["+"], and the
    scorer is asked about all 14 tiles with the first copy of the
    winning tile, riichi set and the line's self-draw flag. *)
Theorem get_hand_corpus_line (hl : list pystr) i draw s tsumo w meta c d ts tw t ws :
  i <> 0 -> 0 <= i -> hl !! Z.to_nat i = Some (corpus_line s tsumo w meta) ->
  length s = 26%nat -> length w = 2%nat -> length meta = 3%nat ->
  head s = Some c -> py_isspace c = false -> last meta = Some d -> py_isspace d = false ->
  43 ∉ s ++ w ->
  one_line_string_to_136_array s = inr ts ->
  one_line_string_to_136_array (s ++ w) = inr tw ->
  one_line_string_to_136_array w = inr (t :: ws) ->
  get_hand hl (Some i) draw =
  inr (mkHandResult ts w tsumo (estimate_hand_value tw t (mkHandConfig true tsumo)) i).
Proof.
  intros Hi0 Hi Hline Hs Hw Hm Hc Hsp Hd Hdsp Hplus Hts Htw Ht.
  unfold get_hand. replace (i =? 0) with false by (symmetry; by apply Z.eqb_neq).
  rewrite <- (Z2Nat.id i Hi), (py_getitem_nat _ _ _ Hline), (Z2Nat.id i Hi). cbn [rbind].
  rewrite (strip_corpus_line s tsumo w meta c d) by done.
  assert (py_len s = 26) as Hls by (unfold py_len; lia).
  assert (List.filter (fun c => negb (c =? 43)) (s ++ (if tsumo then [43] else []) ++ w) = s ++ w)
    as ->.
  { rewrite elem_of_app in Hplus.
    rewrite !List.filter_app, (filter_no_plus s), (filter_no_plus w) by tauto.
    by destruct tsumo. }
  rewrite Htw.
  replace (py_slice (s ++ (if tsumo then [43] else []) ++ w) None (Some 26)) with s
    by (rewrite <- Hls; symmetry; apply py_slice_prefix).
  rewrite Hts.
  destruct w as [|w0 [|w1 [|]]]; simpl in Hw; try lia.
  destruct tsumo; cbv iota.
  - change ([43] ++ [w0; w1]) with (43 :: [w0; w1]). rewrite <- Hls.
    rewrite py_getitem_at. cbn [rbind]. rewrite Z.eqb_refl. cbv iota.
    replace (s ++ 43 :: [w0; w1]) with ((s ++ [43]) ++ [w0; w1] ++ []) by (by rewrite <- app_assoc).
    replace (Some 27) with (Some (py_len (s ++ [43]))) by (rewrite py_len_app, Hls; done).
    replace (Some 29) with (Some (py_len (s ++ [43]) + py_len [w0; w1]))
      by (rewrite py_len_app, Hls; done).
    rewrite py_slice_mid, Ht. reflexivity.
  - change ([] ++ [w0; w1]) with (w0 :: [w1]). rewrite <- Hls.
    rewrite py_getitem_at. cbn [rbind].
    replace (w0 =? 43) with false by (symmetry; apply Z.eqb_neq; set_solver). cbv iota.
    replace (s ++ [w0; w1]) with (s ++ [w0; w1] ++ []) by (by rewrite app_nil_r).
    replace (Some 28) with (Some (py_len s + py_len [w0; w1])) by (by rewrite Hls).
    rewrite py_slice_mid, Ht. reflexivity.
Qed.

(** C28. The random draw can fall past the end of the corpus: the bounds
    that [get_hand] passes to [random.randint] admit the draw
    [len(hand_list)], since randint includes its upper bound, and at that
    draw [hand_list[hand_index]] raises [IndexError], for every corpus. *)
Theorem get_hand_draw_past_end (hl : list pystr) :
  randint_ok (draw_range hl) (py_len hl) = true /\ get_hand hl None (py_len hl) = inl IndexError.
Proof.
  split; [unfold randint_ok, draw_range, py_len; simpl; apply andb_true_iff; rewrite !Z.leb_le; lia|].
  unfold get_hand. by rewrite py_getitem_len.
Qed.

(** [hand_index or random.randint(...)]: the index 0 is falsy, so asking
    for line 0 draws a random line instead. *)
Lemma get_hand_index_zero (hl : list pystr) draw :
  get_hand hl (Some 0) draw = get_hand hl None draw.
Proof. reflexivity. Qed.

(** C26. Bounds of the secret hand: when [get_hand] returns a hand read
    from the line [line] of the corpus, and the line's 26-character hand
    text [hand_raw[:26]] names real tiles (digits 1-9 in man, pin and
    sou, 1-7 in the honours, at most four copies of each), the hand's
    tiles are distinct 136-indices in [[0, 136)]. *)
Theorem get_hand_bounds hl idx draw hr line :
  get_hand hl idx draw = inr hr -> py_getitem hl (hr_hand_index hr) = inr line ->
  names_tiles (py_slice (py_slice (py_strip line) None (Some (-3))) None (Some 26)) ->
  Forall (fun t => 0 <= t < 136) (hr_tiles hr) /\ NoDup (hr_tiles hr).
Proof.
  intros Hg Hl Hn. destruct (one_line_bounds _ Hn) as (l & Hc & Hb).
  unfold get_hand, rbind in Hg. repeat case_match; simplify_eq/=;
    match goal with E : py_getitem hl ?i = inr _, E' : py_getitem hl ?i = inr _ |- _ =>
      rewrite E in E'; simplify_eq end;
    match goal with E : one_line_string_to_136_array ?x = inr _,
                    E' : one_line_string_to_136_array ?x = inr _ |- _ =>
      rewrite E in E'; by simplify_eq end.
Qed.

End GetHandTheorems.

End Corpus.
