(* ===== verification/Timers.v ===== *)
(** The named timer registry of the plugin's [utils] module,
    [call_later(delay, callback, name)] and [cancel_call_later(name)],
    which [src/handler.py] calls at lines 103 and 132.  The module is not
    under [src/]; it is modelled from the spec (section 9: a process-wide
    registry of timers keyed by a string tag).  The spec does not say
    whether registering a name that is already taken cancels the timer
    registered before, so that choice is the parameter
    [replace_cancels] of every definition: the theorems about timers hold
    for both values.  A timer records the group whose [HandGuess.timeout]
    it will run and its deadline.  The lemmas show that, with the
    cancelling policy, every armed timer is the one last registered under
    its name ([armed_named]), so that a registry used with a single name
    has at most one armed timer. *)

From Stdlib Require Import ZArith Lia.
From stdpp Require Import base list gmap strings.
From S2P Require Import Prelude.

Open Scope Z_scope.

Module Timers.

Record Timer := mkTimer { tm_group : Z; tm_deadline : Z; tm_armed : bool }.

(** The registry: every timer ever scheduled, by handle, and the name
    table from a tag to the handle last registered under it. *)
Record TimerReg := mkTimerReg { tm_list : list Timer; tm_names : gmap string nat }.

Definition empty_reg : TimerReg := mkTimerReg [] ∅.

Definition disarm_timer (t : Timer) : Timer := mkTimer (tm_group t) (tm_deadline t) false.

(** [handle.cancel()] on the timer with handle [id]. *)
Definition disarm (id : nat) (l : list Timer) : list Timer := alter disarm_timer id l.

Section Policy.
Variable replace_cancels : bool.

(** [call_later(delay, HandGuess(qq, group).timeout, name)] at time [now]. *)
Definition call_later (now delay group : Z) (name : string) (r : TimerReg) : TimerReg :=
  let l := match tm_names r !! name with
           | Some old => if replace_cancels then disarm old (tm_list r) else tm_list r
           | None => tm_list r
           end in
  mkTimerReg (l ++ [mkTimer group (now + delay) true])
             (<[name := length (tm_list r)]> (tm_names r)).

(** [cancel_call_later(name)]: cancels the timer last registered under
    [name], if any, and forgets the name. *)
Definition cancel_call_later (name : string) (r : TimerReg) : TimerReg :=
  match tm_names r !! name with
  | Some id => mkTimerReg (disarm id (tm_list r)) (delete name (tm_names r))
  | None => r
  end.

End Policy.

(** The timers still armed for a group. *)
Definition armed_for (g : Z) (r : TimerReg) : list Timer :=
  filter (fun t => tm_armed t = true /\ tm_group t = g) (tm_list r).

(** ** Lemmas *)

(** Every armed timer is the one last registered under [n]. *)
Definition armed_named (n : string) (r : TimerReg) : Prop :=
  forall id t, tm_list r !! id = Some t -> tm_armed t = true -> tm_names r !! n = Some id.

Lemma disarm_lookup id l i t :
  disarm id l !! i = Some t -> tm_armed t = true ->
  i <> id /\ l !! i = Some t.
Proof.
  unfold disarm. destruct (decide (i = id)) as [->|Hne].
  - rewrite list_lookup_alter, decide_True by done. intros Hi Ha.
    destruct (l !! id); simplify_eq/=; discriminate.
  - rewrite list_lookup_alter_ne by done. by split.
Qed.

Lemma length_disarm id l : length (disarm id l) = length l.
Proof. apply length_alter. Qed.

Lemma armed_named_disarm n r id :
  armed_named n r -> armed_named n (mkTimerReg (disarm id (tm_list r)) (tm_names r)).
Proof. intros Hr i t Hi Ha. apply disarm_lookup in Hi as [_ Hi]; [|done]. by apply (Hr i t). Qed.

Lemma armed_named_call_later n now d g r :
  armed_named n r -> armed_named n (call_later true now d g n r).
Proof.
  intros Hr i t. unfold call_later. simpl.
  destruct (tm_names r !! n) as [old|] eqn:Hold; intros Hi Ha;
    (destruct (decide (i < length (tm_list r)))%nat as [Hlt|Hge];
     [rewrite lookup_app_l in Hi by (rewrite ?length_disarm; lia)
     |rewrite lookup_app_r in Hi by (rewrite ?length_disarm; lia);
      rewrite ?length_disarm in Hi;
      apply list_lookup_singleton_Some in Hi as [Hi _];
      rewrite lookup_insert_eq; f_equal; lia]).
  - apply disarm_lookup in Hi as [Hne Hi]; [|done].
    pose proof (Hr i t Hi Ha) as E. congruence.
  - pose proof (Hr i t Hi Ha) as E. congruence.
Qed.

Lemma armed_named_cancel n r : armed_named n r -> armed_named n (cancel_call_later n r).
Proof.
  intros Hr i t. unfold cancel_call_later.
  destruct (tm_names r !! n) as [id|] eqn:Hid; [|apply Hr]. simpl. intros Hi Ha.
  apply disarm_lookup in Hi as [Hne Hi]; [|done].
  pose proof (Hr i t Hi Ha) as E. congruence.
Qed.

Lemma armed_none (l : list Timer) :
  (forall i t, l !! i = Some t -> tm_armed t = true -> False) ->
  filter (fun t => tm_armed t = true) l = [].
Proof.
  induction l as [|t l IH]; intros H; [done|]. rewrite filter_cons.
  destruct (decide (tm_armed t = true)) as [Ha|Ha]; [exfalso; exact (H 0%nat t eq_refl Ha)|].
  apply IH. intros i x Hi. exact (H (S i) x Hi).
Qed.

(** When every armed timer sits at the one index [k], at most one is
    armed. *)
Lemma armed_at_most_one (l : list Timer) k :
  (forall i t, l !! i = Some t -> tm_armed t = true -> i = k) ->
  (length (filter (fun t => tm_armed t = true) l) <= 1)%nat.
Proof.
  revert k. induction l as [|t l IH]; intros k Hk; [simpl; lia|].
  rewrite filter_cons. destruct (decide (tm_armed t = true)) as [Ha|Ha].
  - pose proof (Hk 0%nat t eq_refl Ha) as <-.
    enough (filter (fun t => tm_armed t = true) l = []) as -> by (simpl; lia).
    apply armed_none. intros i x Hi Hax. specialize (Hk (S i) x Hi Hax). lia.
  - apply (IH (pred k)). intros i x Hi Hax. specialize (Hk (S i) x Hi Hax). lia.
Qed.

Lemma armed_named_one n r :
  armed_named n r -> (length (filter (fun t => tm_armed t = true) (tm_list r)) <= 1)%nat.
Proof.
  intros Hr. destruct (tm_names r !! n) as [k|] eqn:Hk.
  - apply (armed_at_most_one _ k). intros i t Hi Ha. pose proof (Hr i t Hi Ha). congruence.
  - apply (armed_at_most_one _ 0). intros i t Hi Ha. pose proof (Hr i t Hi Ha). congruence.
Qed.

(** After [cancel_call_later n], no timer is armed when every armed
    timer was the one last registered under [n]. *)
Lemma armed_named_cancel_none n r i t :
  armed_named n r -> tm_list (cancel_call_later n r) !! i = Some t -> tm_armed t = false.
Proof.
  intros Hr Hi. destruct (tm_armed t) eqn:Ha; [|done].
  pose proof (armed_named_cancel n r Hr i t Hi Ha) as E. unfold cancel_call_later in E.
  destruct (tm_names r !! n) eqn:Hn; simpl in E; [by rewrite lookup_delete_eq in E|congruence].
Qed.

Lemma armed_for_none g r :
  (forall i t, tm_list r !! i = Some t -> tm_armed t = false) -> armed_for g r = [].
Proof.
  destruct r as [l names]. unfold armed_for. simpl. induction l as [|t l IH]; intros H; [done|].
  rewrite filter_cons. destruct (decide (tm_armed t = true /\ tm_group t = g)) as [[Ha _]|_].
  - by rewrite (H 0%nat t eq_refl) in Ha.
  - apply IH. intros i x Hi. exact (H (S i) x Hi).
Qed.

(** The timer [call_later] registers is armed for its group. *)
Lemma call_later_armed rc now d g n r :
  mkTimer g (now + d) true ∈ armed_for g (call_later rc now d g n r).
Proof.
  unfold armed_for, call_later. simpl. apply list_elem_of_filter. split; [done|].
  apply elem_of_app. right. by left.
Qed.

End Timers.
