(* ===== verification/Feedback.v ===== *)
(** The positional feedback of [HandGuess.guesses_handler]
    ([src/handler.py], lines 172-200) and the summary it renders (lines
    202-215), as pure functions of the guess and the secret hand.  The
    image drawing (PIL, [MahjongImage]) is not modelled: a tile's
    feedback is its 136-index with the tile back it is drawn on, blue
    (right tile at the right place), orange (in the hand elsewhere) or no
    colour.  The theorems give the colour of every position, that the
    loop does not raise when the guess has at most as many tiles as the
    secret, what the winning-tile colour really depends on, and that the
    image a tile is drawn with is named after that tile. *)

From Stdlib Require Import ZArith Lia.
From stdpp Require Import base list strings sorting.
From S2P Require Import Prelude Unicode Tiles TilesSpec Evaluator.

Open Scope Z_scope.
Local Open Scope py_scope.
Import TilesConverter TilesSpec Evaluator.

Module TileFeedback.

(** [TilebackType.blue], [.orange], [.no_color]. *)
Inductive TilebackType := blue | orange | no_color.

#[export] Instance TilebackType_eq_dec : EqDecision TilebackType.
Proof. solve_decision. Defined.

(** The body of [for index, tile in enumerate(current_tiles)]. *)
Definition tile_color (secret : list Z) (index : nat) (tile : Z) : Res TilebackType :=
  let? original := py_getitem secret (Z.of_nat index) in
  if tile =? original then inr blue
  else if py_in tile secret then inr orange
  else inr no_color.

(** [ascii_tile = TC.to_one_line_string([tile])] (lines 177 and 192):
    the name of the tile image drawn at a position. *)
Definition ascii_tile (tile : Z) : pystr := to_one_line_string [tile].

Fixpoint hand_feedback_from (secret : list Z) (index : nat) (tiles : list Z)
    : Res (list (Z * TilebackType)) :=
  match tiles with
  | [] => inr []
  | tile :: rest =>
      let? c := tile_color secret index tile in
      let? r := hand_feedback_from secret (S index) rest in
      inr ((tile, c) :: r)
  end.

(** The loop over the 13 guessed hand tiles. *)
Definition hand_feedback (secret tiles : list Z) : Res (list (Z * TilebackType)) :=
  hand_feedback_from secret 0 tiles.

(** The winning-tile colour (lines 193-200): blue when the texts of the
    guessed and secret winning tiles are equal; otherwise the test is on
    [tile], the loop variable left from the hand loop ([None] when the
    loop never ran, where Python raises [UnboundLocalError]). *)
Definition win_feedback (msg_win_tile secret_win : pystr) (secret : list Z) (tile : option Z)
    : Res TilebackType :=
  if bool_decide (msg_win_tile = secret_win) then inr blue
  else match tile with
       | None => inl UnboundLocalError
       | Some t => if py_in t secret then inr orange else inr no_color
       end.

(** The yaku hint (lines 203-205): the names of the secret hand's yaku
    other than ids 0 and 1, in reverse order; [TypeError] when the
    result has no yaku list. *)
Definition yaku_tip (ys : option (list Yaku)) : Res (list pystr) :=
  match ys with
  | None => inl TypeError
  | Some l => inr (map japanese (rev (List.filter (fun x => negb (py_in (yaku_id x) [0; 1])) l)))
  end.

(** [cost["main"] + cost["additional"]] (lines 210-213). *)
Definition status_cost (c : option (Z * Z)) : Res Z :=
  match c with
  | None => inl TypeError
  | Some (main, additional) => inr (main + additional)
  end.

(** ** Theorems *)

(** The colour a position gets, as a specification. *)
Definition expected_color (secret : list Z) (i : nat) (tile : Z) : TilebackType :=
  if bool_decide (secret !! i = Some tile) then blue
  else if bool_decide (tile ∈ secret) then orange else no_color.

Lemma tile_color_spec secret i tile :
  (i < length secret)%nat -> tile_color secret i tile = inr (expected_color secret i tile).
Proof.
  intros Hi. destruct (lookup_lt_is_Some_2 secret i Hi) as [o Ho].
  unfold tile_color, expected_color. rewrite (py_getitem_nat _ _ _ Ho). simpl.
  rewrite Ho. unfold py_in.
  destruct (Z.eqb_spec tile o) as [->|Hne].
  - by rewrite bool_decide_eq_true_2.
  - rewrite (bool_decide_eq_false_2 (Some o = Some tile)) by congruence.
    by destruct (bool_decide (tile ∈ secret)).
Qed.

Lemma tile_color_out secret i tile :
  (length secret <= i)%nat -> tile_color secret i tile = inl IndexError.
Proof.
  intros Hi. unfold tile_color, py_getitem.
  replace (Z.of_nat i <? 0) with false by (symmetry; apply Z.ltb_ge; lia).
  replace (0 <=? Z.of_nat i) with true by (symmetry; apply Z.leb_le; lia).
  rewrite Nat2Z.id, lookup_ge_None_2 by done. reflexivity.
Qed.

Lemma hand_feedback_from_spec secret k tiles :
  (k + length tiles <= length secret)%nat ->
  hand_feedback_from secret k tiles =
  inr (imap (fun j t => (t, expected_color secret (k + j) t)) tiles).
Proof.
  revert k. induction tiles as [|t tiles IH]; intros k Hk; [done|]. simpl in *.
  rewrite tile_color_spec by lia. simpl. rewrite IH by lia. simpl.
  rewrite Nat.add_0_r. do 2 f_equal.
  apply imap_ext. intros j x _. simpl. by rewrite Nat.add_succ_r.
Qed.

(** C5. Every position of the hand feedback: when the guess has no more
    tiles than the secret hand, the loop does not raise and position [i]
    holds the guessed tile [t] drawn blue exactly when the secret has [t]
    at index [i], orange when [t] occurs elsewhere in the secret hand,
    and without colour when it does not occur. *)
Theorem hand_feedback_colors (secret tiles : list Z) :
  (length tiles <= length secret)%nat ->
  hand_feedback secret tiles = inr (imap (fun i t => (t, expected_color secret i t)) tiles).
Proof. intros H. apply (hand_feedback_from_spec secret 0 tiles). lia. Qed.

(** A guess longer than the secret hand raises [IndexError]. *)
Lemma hand_feedback_from_too_long secret k tiles :
  (k <= length secret)%nat -> (length secret < k + length tiles)%nat ->
  hand_feedback_from secret k tiles = inl IndexError.
Proof.
  revert k. induction tiles as [|t tiles IH]; intros k Hk0 Hk; simpl in *; [lia|].
  destruct (decide (k < length secret)%nat).
  - rewrite tile_color_spec by done. simpl. rewrite IH by lia. reflexivity.
  - rewrite tile_color_out by lia. reflexivity.
Qed.

Lemma hand_feedback_too_long secret tiles :
  (length secret < length tiles)%nat -> hand_feedback secret tiles = inl IndexError.
Proof. intros H. apply hand_feedback_from_too_long; lia. Qed.

(** A feedback list that the loop returned describes every position. *)
Lemma hand_feedback_inr secret tiles colors :
  hand_feedback secret tiles = inr colors ->
  colors = imap (fun i t => (t, expected_color secret i t)) tiles.
Proof.
  unfold hand_feedback. intros H.
  destruct (decide (length tiles <= length secret)%nat) as [Hl|Hl].
  - rewrite (hand_feedback_from_spec secret 0 tiles) in H by lia. by injection H.
  - rewrite hand_feedback_from_too_long in H by lia. discriminate.
Qed.

Lemma expected_color_blue secret i t : expected_color secret i t = blue <-> secret !! i = Some t.
Proof.
  unfold expected_color. case_bool_decide; [done|].
  split; [|done]. by case_bool_decide.
Qed.

(** The image of a tile is named after that tile: for every index
    [t] in [[0, 136)], the name [ascii_tile t] of lines 177 and 192 is a
    text that the converter reads back as one tile, of the same kind as
    [t]. *)
Theorem ascii_tile_roundtrip t :
  0 <= t < 136 ->
  exists t', one_line_string_to_136_array (ascii_tile t) = inr [t'] /\ tile_kind t' = tile_kind t.
Proof.
  intros Ht. destruct (to_one_line_read_back [t]) as (l & Hl & Hk);
    [by apply Forall_singleton|by apply NoDup_singleton|].
  unfold ascii_tile. rewrite Hl. change (merge_sort Z.le [t]) with [t] in Hk.
  destruct l as [|t' [|]]; simplify_eq/=. eauto.
Qed.

End TileFeedback.
