(* ===== verification/Session.v ===== *)
(** The game session of [src/handler.py]: the process-wide
    [HandGuessProcess] (a [defaultdict] from group to [GroupState],
    lines 63-66) and the methods of [class HandGuess] (lines 69-245):
    [status], [is_start], [reset_game], [timeout], [start],
    [inc_user_count], [is_win], [win_game] and [guesses_handler].  The
    state they share is the record [World]: the group table, the timer
    registry of [Timers], the points ledger of the external [User] class,
    the clock and the group messages sent.  Every method is a computation
    of the monad [PyM World] of the prelude, so an exception keeps the
    mutations made before it, as in Python.  Reading a [defaultdict]
    inserts the default entry, and that insertion is modelled.

    The section parameters are the scorer (any [HandCalculator]), the
    timer policy of [Timers] and the corpus [hand_list]. *)

From Stdlib Require Import ZArith Lia.
From stdpp Require Import base list gmap strings sets.
From S2P Require Import Prelude Unicode Tiles Guess Evaluator Corpus Timers Feedback.

Open Scope Z_scope.
Local Open Scope py_scope.
Import TilesConverter GuessValidator Evaluator Corpus Timers TileFeedback.

Module HandGuess.

Definition MAX_GUESS : Z := 6.
Definition TIMEOUT : Z := 5 * 60.
Definition TIMER_NAME : string := "HandGuessGame".

(** [UserState = namedtuple("UserState", "hit_count")]. *)
Record UserState := mkUserState { hit_count : Z }.

(** The [users] field: the plain [{}] of an idle group, or the
    [defaultdict(lambda: UserState(0))] of a started one. *)
Inductive UsersDict :=
  | PlainDict (m : gmap Z UserState)
  | DefaultDict (m : gmap Z UserState).

(** [GroupState = namedtuple("GroupState", "start hand users")]. *)
Record GroupState := mkGroupState {
  gs_start : bool; gs_hand : option HandResult; gs_users : UsersDict }.

(** [GroupState(False, None, {})], the default of [HandGuessProcess]. *)
Definition default_group : GroupState := mkGroupState false None (PlainDict ∅).

Record World := mkWorld {
  w_proc : gmap Z GroupState;   (** [HandGuessProcess] *)
  w_timers : TimerReg;          (** the registry of [utils.call_later] *)
  w_points : gmap Z Z;          (** [User(qq).points] *)
  w_now : Z;                    (** the event loop's clock, in seconds *)
  w_sent : list Z }.            (** groups sent the timeout message, in order *)

Definition set_proc (p : gmap Z GroupState) (w : World) : World :=
  mkWorld p (w_timers w) (w_points w) (w_now w) (w_sent w).
Definition set_timers (r : TimerReg) (w : World) : World :=
  mkWorld (w_proc w) r (w_points w) (w_now w) (w_sent w).
Definition set_points (p : gmap Z Z) (w : World) : World :=
  mkWorld (w_proc w) (w_timers w) p (w_now w) (w_sent w).
Definition set_sent (s : list Z) (w : World) : World :=
  mkWorld (w_proc w) (w_timers w) (w_points w) (w_now w) s.
Definition set_now (t : Z) (w : World) : World :=
  mkWorld (w_proc w) (w_timers w) (w_points w) t (w_sent w).

Definition set_users (st : GroupState) (u : UsersDict) : GroupState :=
  mkGroupState (gs_start st) (gs_hand st) u.

Section Methods.
Context `{HandCalculator}.
Variable replace_cancels : bool.
Variable hand_list : list pystr.

(** [self.status], i.e. [HandGuessProcess[self.group]]. *)
Definition status (g : Z) : PyM World GroupState :=
  fun w => match w_proc w !! g with
           | Some st => (w, inr st)
           | None => (set_proc (<[g := default_group]> (w_proc w)) w, inr default_group)
           end.

Definition set_group (g : Z) (st : GroupState) : PyM World unit :=
  fun w => (set_proc (<[g := st]> (w_proc w)) w, inr tt).

(** [is_start]. *)
Definition is_start (g : Z) : PyM World bool :=
  let! st := status g in pret (gs_start st).

(** [reset_game]. *)
Definition reset_game (g : Z) : PyM World unit := set_group g default_group.

(** [timeout], up to its [await]: the message to the group. *)
Definition timeout_notify (g : Z) : PyM World unit :=
  fun w => (set_sent (w_sent w ++ [g]) w, inr tt).

(** [timeout], after its [await]: [self.reset_game()]. *)
Definition timeout_resume (g : Z) : PyM World unit := reset_game g.

Definition arm_timeout (g : Z) : PyM World unit :=
  fun w => (set_timers (call_later replace_cancels (w_now w) TIMEOUT g TIMER_NAME (w_timers w)) w,
            inr tt).

Definition cancel_timeout : PyM World unit :=
  fun w => (set_timers (cancel_call_later TIMER_NAME (w_timers w)) w, inr tt).

Inductive StartReply := StartOk | StartAlready.

(** [start]; [draw] is the value of [random.randint] in [get_hand]. *)
Definition start (g : Z) (draw : Z) : PyM World StartReply :=
  let! started := is_start g in
  if started then pret StartAlready
  else
    let! hand_res := plift (get_hand hand_list None draw) in
    set_group g (mkGroupState true (Some hand_res) (DefaultDict ∅)) ;;
    arm_timeout g ;;
    pret StartOk.

(** [self.status.users[self.qq]]: a missing key raises [KeyError] in the
    plain dict and inserts [UserState(0)] in the defaultdict. *)
Definition users_get (g qq : Z) : PyM World UserState :=
  let! st := status g in
  match gs_users st with
  | PlainDict m =>
      match m !! qq with Some u => pret u | None => praise KeyError end
  | DefaultDict m =>
      match m !! qq with
      | Some u => pret u
      | None => set_group g (set_users st (DefaultDict (<[qq := mkUserState 0]> m))) ;;
                pret (mkUserState 0)
      end
  end.

(** [self.status.users[self.qq] = u]. *)
Definition users_set (g qq : Z) (u : UserState) : PyM World unit :=
  let! st := status g in
  match gs_users st with
  | PlainDict m => set_group g (set_users st (PlainDict (<[qq := u]> m)))
  | DefaultDict m => set_group g (set_users st (DefaultDict (<[qq := u]> m)))
  end.

(** [inc_user_count]. *)
Definition inc_user_count (g qq : Z) : PyM World unit :=
  let! info := users_get g qq in
  let count := hit_count info + 1 in
  users_set g qq (mkUserState count).

(** [is_win(tiles)]: list equality of 136-arrays. *)
Definition is_win (g : Z) (tiles : list Z) : PyM World bool :=
  let! st := status g in
  match gs_hand st with
  | None => praise AttributeError
  | Some hand =>
      let! wind_tile := plift (one_line_string_to_136_array (hr_win_tile hand)) in
      pret (bool_decide (hr_tiles hand ++ wind_tile = tiles))
  end.

(** [User(qq).add_points(points)] and [user.points] (external ledger). *)
Definition add_points (qq points : Z) : PyM World unit :=
  fun w => (set_points (<[qq := default 0 (w_points w !! qq) + points]> (w_points w)) w, inr tt).
Definition user_points (qq : Z) : PyM World Z :=
  fun w => (w, inr (default 0 (w_points w !! qq))).

(** [win_game(points)]: the message carries the points won and the new
    total. *)
Definition win_game (g qq points : Z) : PyM World (Z * Z) :=
  reset_game g ;;
  cancel_timeout ;;
  add_points qq points ;;
  let! total := user_points qq in
  pret (points, total).

(** The error replies of [guesses_handler], by their messages. *)
Inductive GuessError :=
  | ErrBadChar      (** [msg=""]: a character outside the alphabet *)
  | ErrNoGuesses    (** "你已经没有次数了!" *)
  | ErrNot14        (** "不是, 说好的14张牌呢" *)
  | ErrNoWin        (** "你这牌都没胡啊": [han is None] *)
  | ErrNoYaku.      (** "你无役了": [han == 0] *)

(** What the rendered image shows (lines 168-237). *)
Record Render := mkRender {
  rd_hand : list (Z * TilebackType);   (** the 13 hand positions *)
  rd_win : Z * TilebackType;           (** the winning-tile position *)
  rd_last : Z;                         (** "剩余{last}回" *)
  rd_tip : list pystr;                 (** the yaku hint *)
  rd_han : option Z; rd_fu : option Z; rd_cost : Z; rd_tsumo : bool }.

(** [dict(error=True, msg=...)] or [dict(error=False, img=..., msg=...)];
    the message of a win carries the points won and the new total. *)
Inductive Reply :=
  | RError (e : GuessError)
  | ROk (r : Render) (win : option (Z * Z)).

Definition hand_of (st : GroupState) : PyM World HandResult :=
  match gs_hand st with Some h => pret h | None => praise AttributeError end.

(** [guesses_handler(msg)]. *)
Definition guesses_handler (g qq : Z) (msg : pystr) : PyM World Reply :=
  if has_invalid_char msg then pret (RError ErrBadChar) else
  let! info := users_get g qq in
  if MAX_GUESS <=? hit_count info then pret (RError ErrNoGuesses) else
  let! msg_hand := plift (format_hand_msg msg) in
  let msg_win_tile := py_slice msg_hand (Some (-2)) None in
  let! msg_tiles := plift (one_line_string_to_136_array msg_hand) in
  if negb (Nat.eqb (length msg_tiles) 14) then pret (RError ErrNot14) else
  let! wl := plift (one_line_string_to_136_array msg_win_tile) in
  let! win_tile := plift (py_getitem wl 0) in
  let! st := status g in
  let! hand := hand_of st in
  let result := estimate_hand_value msg_tiles win_tile (mkHandConfig true (hr_tsumo hand)) in
  match han result with
  | None => pret (RError ErrNoWin)
  | Some h =>
  if h =? 0 then pret (RError ErrNoYaku) else
  let! current_tiles := plift (one_line_string_to_136_array (py_slice msg_hand None (Some (-2)))) in
  let! colors := plift (hand_feedback (hr_tiles hand) current_tiles) in
  let! wcolor := plift (win_feedback msg_win_tile (hr_win_tile hand) (hr_tiles hand)
                                     (last current_tiles)) in
  let! tip := plift (yaku_tip (yaku (hr_result hand))) in
  let! cost := plift (status_cost (cost (hr_result hand))) in
  let! info' := users_get g qq in
  let rd := mkRender colors (win_tile, wcolor) (MAX_GUESS - hit_count info' - 1) tip
                     (han (hr_result hand)) (fu (hr_result hand)) cost (hr_tsumo hand) in
  let! won := is_win g (current_tiles ++ [win_tile]) in
  if won then
    let! m := win_game g qq cost in pret (ROk rd (Some m))
  else
    inc_user_count g qq ;; pret (ROk rd None)
  end.

End Methods.

(** ** Observations of a world, and the effect of each primitive *)

Definition group_of (w : World) (g : Z) : GroupState := default default_group (w_proc w !! g).

Definition users_map (u : UsersDict) : gmap Z UserState :=
  match u with PlainDict m | DefaultDict m => m end.

(** [users[qq].hit_count] in a group state, 0 where absent. *)
Definition count_in (st : GroupState) (qq : Z) : Z :=
  default 0 (hit_count <$> users_map (gs_users st) !! qq).

(** [HandGuessProcess[g].users[qq].hit_count], 0 where absent. *)
Definition count_of (w : World) (g qq : Z) : Z := count_in (group_of w g) qq.

(** A group after [self.status.users[self.qq]] has been read. *)
Definition touched_group (st : GroupState) (qq : Z) : GroupState :=
  match gs_users st with
  | DefaultDict m =>
      match m !! qq with
      | Some _ => st
      | None => set_users st (DefaultDict (<[qq := mkUserState 0]> m))
      end
  | PlainDict _ => st
  end.

(** The world after that read (the group entry is then present). *)
Definition touch_user (g qq : Z) (w : World) : World :=
  set_proc (<[g := touched_group (group_of w g) qq]> (w_proc w)) w.

(** The value of that read. *)
Definition user_read (st : GroupState) (qq : Z) : Res UserState :=
  match gs_users st with
  | PlainDict m => match m !! qq with Some u => inr u | None => inl KeyError end
  | DefaultDict m => inr (default (mkUserState 0) (m !! qq))
  end.

(** The world after [inc_user_count] on a group whose user is present. *)
Definition bump_user (g qq : Z) (w : World) : World :=
  let st := group_of w g in
  let u := mkUserState (count_in st qq + 1) in
  set_proc (<[g := set_users st (match gs_users st with
                                 | PlainDict m => PlainDict (<[qq := u]> m)
                                 | DefaultDict m => DefaultDict (<[qq := u]> m)
                                 end)]> (w_proc w)) w.

(** The world after [win_game(points)]. *)
Definition win_world (g qq points : Z) (w : World) : World :=
  set_points (<[qq := default 0 (w_points w !! qq) + points]> (w_points w))
    (set_timers (cancel_call_later TIMER_NAME (w_timers w))
       (set_proc (<[g := default_group]> (w_proc w)) w)).

Section Runs.
Context `{HandCalculator}.

Lemma set_proc_insert_id g w st : w_proc w !! g = Some st -> set_proc (<[g := st]> (w_proc w)) w = w.
Proof. intros E. destruct w; unfold set_proc; simpl in *. by rewrite insert_id. Qed.

Lemma status_present g w st : w_proc w !! g = Some st -> status g w = (w, inr st).
Proof. unfold status. by intros ->. Qed.

(** Reading [self.status] returns the group's state, whether or not it
    had to be inserted. *)
Lemma status_run g w : status g w = ((status g w).1, inr (group_of w g)).
Proof. unfold status, group_of. by destruct (w_proc w !! g). Qed.

Lemma group_of_present g w st : w_proc w !! g = Some st -> group_of w g = st.
Proof. unfold group_of. by intros ->. Qed.

Lemma group_of_set_proc_eq g st w : group_of (set_proc (<[g := st]> (w_proc w)) w) g = st.
Proof. unfold group_of; simpl. by rewrite lookup_insert_eq. Qed.

Lemma touched_group_idem st qq : touched_group (touched_group st qq) qq = touched_group st qq.
Proof.
  unfold touched_group. destruct (gs_users st) as [m|m] eqn:Eu; [by rewrite Eu|].
  destruct (m !! qq) eqn:E; simpl; [by rewrite Eu, E|]. by rewrite lookup_insert_eq.
Qed.

Lemma user_read_touched st qq : user_read (touched_group st qq) qq = user_read st qq.
Proof.
  unfold user_read, touched_group. destruct (gs_users st) as [m|m] eqn:Eu; [by rewrite Eu|].
  destruct (m !! qq) eqn:E; simpl; [by rewrite Eu, E|]. by rewrite lookup_insert_eq.
Qed.

Lemma users_get_run g qq w :
  users_get g qq w = (touch_user g qq w, user_read (group_of w g) qq).
Proof.
  unfold users_get, touch_user, user_read, touched_group, status, group_of. py_unfold.
  destruct (w_proc w !! g) as [st|] eqn:Eg; simpl.
  - destruct (gs_users st) as [m|m]; destruct (m !! qq) eqn:E; simpl;
      rewrite ?set_proc_insert_id by done; done.
  - rewrite lookup_empty. unfold set_group. done.
Qed.

Lemma touch_user_present g qq w :
  w_proc (touch_user g qq w) !! g = Some (touched_group (group_of w g) qq).
Proof. apply lookup_insert_eq. Qed.

Lemma group_of_touch_user g qq w :
  group_of (touch_user g qq w) g = touched_group (group_of w g) qq.
Proof. apply group_of_set_proc_eq. Qed.

Lemma touch_user_idem g qq w : touch_user g qq (touch_user g qq w) = touch_user g qq w.
Proof.
  unfold touch_user at 1. rewrite group_of_touch_user, touched_group_idem.
  unfold touch_user; simpl. by rewrite insert_insert_eq.
Qed.

Lemma win_game_run g qq p w :
  win_game g qq p w = (win_world g qq p w, inr (p, default 0 (w_points w !! qq) + p)).
Proof.
  unfold win_game, win_world, reset_game, set_group, cancel_timeout, add_points, user_points.
  py_unfold. simpl. by rewrite lookup_insert_eq.
Qed.

Lemma inc_user_count_run g qq w st u :
  w_proc w !! g = Some st -> user_read st qq = inr u -> touched_group st qq = st ->
  inc_user_count g qq w = (bump_user g qq w, inr tt).
Proof.
  intros Hg Hu Ht. unfold inc_user_count, users_set. py_unfold.
  rewrite users_get_run, (group_of_present _ _ _ Hg), Hu.
  unfold touch_user. rewrite (group_of_present _ _ _ Hg), Ht, set_proc_insert_id by done.
  rewrite (status_present _ _ _ Hg).
  unfold bump_user, count_in, set_group. rewrite (group_of_present _ _ _ Hg).
  unfold user_read in Hu. unfold touched_group in Ht.
  destruct (gs_users st) as [m|m] eqn:Eu; destruct (m !! qq) as [u'|] eqn:E; cbn in Hu; try done.
  - injection Hu as ->. cbn. by rewrite E.
  - injection Hu as ->. cbn. by rewrite E.
  - apply (f_equal gs_users) in Ht. rewrite Eu in Ht. simpl in Ht. injection Ht as Ht.
    apply (f_equal (lookup qq)) in Ht. by rewrite lookup_insert_eq, E in Ht.
Qed.

(** ** The handler as a pure judgement followed by its effect

    [judge] is the decision [guesses_handler] takes, read off the group
    state before the call: the refinement theorem below shows that the
    handler performs exactly the effect this decision calls for. *)
Inductive Verdict :=
  | VError (e : GuessError)          (** an error reply *)
  | VMiss (rd : Render)              (** feedback, no win: the count grows *)
  | VWin (rd : Render) (points : Z). (** feedback and a win worth [points] *)

Definition judge (st : GroupState) (qq : Z) (msg : pystr) : Res Verdict :=
  let? info := user_read st qq in
  if MAX_GUESS <=? hit_count info then inr (VError ErrNoGuesses) else
  let? msg_hand := format_hand_msg msg in
  let msg_win_tile := py_slice msg_hand (Some (-2)) None in
  let? msg_tiles := one_line_string_to_136_array msg_hand in
  if negb (Nat.eqb (length msg_tiles) 14) then inr (VError ErrNot14) else
  let? wl := one_line_string_to_136_array msg_win_tile in
  let? win_tile := py_getitem wl 0 in
  let? hand := match gs_hand st with Some h => inr h | None => inl AttributeError end in
  match han (estimate_hand_value msg_tiles win_tile (mkHandConfig true (hr_tsumo hand))) with
  | None => inr (VError ErrNoWin)
  | Some h =>
  if h =? 0 then inr (VError ErrNoYaku) else
  let? current_tiles := one_line_string_to_136_array (py_slice msg_hand None (Some (-2))) in
  let? colors := hand_feedback (hr_tiles hand) current_tiles in
  let? wcolor := win_feedback msg_win_tile (hr_win_tile hand) (hr_tiles hand) (last current_tiles) in
  let? tip := yaku_tip (yaku (hr_result hand)) in
  let? cost := status_cost (cost (hr_result hand)) in
  let rd := mkRender colors (win_tile, wcolor) (MAX_GUESS - hit_count info - 1) tip
                     (han (hr_result hand)) (fu (hr_result hand)) cost (hr_tsumo hand) in
  let? wind_tile := one_line_string_to_136_array (hr_win_tile hand) in
  if bool_decide (hr_tiles hand ++ wind_tile = current_tiles ++ [win_tile])
  then inr (VWin rd cost) else inr (VMiss rd)
  end.

(** The effect of a verdict on the world [w1] left by the first read. *)
Definition apply_verdict (g qq : Z) (w1 : World) (v : Res Verdict) : World * Res Reply :=
  match v with
  | inl e => (w1, inl e)
  | inr (VError err) => (w1, inr (RError err))
  | inr (VMiss rd) => (bump_user g qq w1, inr (ROk rd None))
  | inr (VWin rd c) => (win_world g qq c w1, inr (ROk rd (Some (c, default 0 (w_points w1 !! qq) + c))))
  end.

Local Ltac verdict_case := py_red; try done.
Local Ltac nope := intros ?; discriminate.
Local Ltac nope2 := intros [[? ?]|?]; discriminate.

(** C1. [MAX_GUESS] is enforced: once a user has [MAX_GUESS] counted
    attempts in a group, a guess with valid characters is answered
    "no attempts left" and changes nothing at all. *)
Theorem guess_exhausted g qq msg w :
  has_invalid_char msg = false -> MAX_GUESS <= count_of w g qq ->
  guesses_handler g qq msg w = (w, inr (RError ErrNoGuesses)).
Proof.
  intros Hc Hcount. unfold count_of, count_in, group_of in Hcount.
  destruct (w_proc w !! g) as [st|] eqn:Hg;
    [|cbn in Hcount; rewrite lookup_empty in Hcount; cbn in Hcount; unfold MAX_GUESS in Hcount; lia].
  cbn in Hcount. destruct (users_map (gs_users st) !! qq) as [u|] eqn:Hu;
    [|cbn in Hcount; unfold MAX_GUESS in Hcount; lia].
  cbn in Hcount.
  assert (touched_group st qq = st /\ user_read st qq = inr u) as [Ht Hr].
  { unfold touched_group, user_read. unfold users_map in Hu.
    destruct (gs_users st); by rewrite Hu. }
  unfold guesses_handler. rewrite Hc. py_red. rewrite users_get_run.
  unfold touch_user. rewrite (group_of_present _ _ _ Hg), Ht, set_proc_insert_id, Hr by done.
  py_red. replace (MAX_GUESS <=? hit_count u) with true by lia. done.
Qed.

(** [guesses_handler] is the pure judgement [judge] of
    the group state it starts from, followed by its effect.  A text with
    a character outside the alphabet changes nothing; otherwise the read
    of [users[qq]] happens first, every error and exception leaves the
    world as that read left it, a miss increments the guesser's count,
    and a win resets the group, cancels the timer and pays the points. *)
Lemma guesses_handler_judge g qq msg w :
  guesses_handler g qq msg w =
  if has_invalid_char msg then (w, inr (RError ErrBadChar))
  else apply_verdict g qq (touch_user g qq w) (judge (group_of w g) qq msg).
Proof.
  unfold guesses_handler, judge, apply_verdict.
  destruct (has_invalid_char msg); py_red; [done|].
  rewrite users_get_run. py_red.
  pose proof (touch_user_present g qq w) as Hp.
  rewrite <- (user_read_touched (group_of w g) qq) at 1 2.
  set (st0 := group_of w g) in *. set (st := touched_group st0 qq) in *.
  set (w1 := touch_user g qq w) in *.
  destruct (user_read st qq) as [e|info] eqn:Hr; verdict_case.
  destruct (MAX_GUESS <=? hit_count info); verdict_case.
  destruct (format_hand_msg msg) as [e|msg_hand]; verdict_case.
  destruct (one_line_string_to_136_array msg_hand) as [e|msg_tiles]; verdict_case.
  destruct (negb _); verdict_case.
  destruct (one_line_string_to_136_array (py_slice msg_hand (Some (-2)) None)) as [e|wl];
    verdict_case.
  destruct (py_getitem wl 0) as [e|win_tile]; verdict_case.
  rewrite (status_present _ _ _ Hp). py_red.
  assert (gs_hand st = gs_hand st0) as Hh.
  { unfold st, touched_group. destruct (gs_users st0) as [m|m]; [done|]. by destruct (m !! qq). }
  unfold hand_of. rewrite Hh. destruct (gs_hand st0) as [hand|] eqn:Hh0; verdict_case.
  destruct (han _) as [h|]; verdict_case.
  destruct (h =? 0); verdict_case.
  destruct (one_line_string_to_136_array (py_slice msg_hand None (Some (-2)))) as [e|cur];
    verdict_case.
  destruct (hand_feedback _ _) as [e|colors]; verdict_case.
  destruct (win_feedback _ _ _ _) as [e|wc]; verdict_case.
  destruct (yaku_tip _) as [e|tip]; verdict_case.
  destruct (status_cost _) as [e|c]; verdict_case.
  rewrite users_get_run.
  replace (touch_user g qq w1) with w1 by (unfold w1; by rewrite touch_user_idem).
  rewrite (group_of_present _ _ _ Hp), Hr. py_red.
  unfold is_win. py_red. rewrite (status_present _ _ _ Hp), Hh. py_red.
  destruct (one_line_string_to_136_array (hr_win_tile hand)) as [e|wt]; verdict_case.
  destruct (bool_decide _); py_red.
  - by rewrite win_game_run.
  - by rewrite (inc_user_count_run g qq w1 st info Hp Hr) by apply touched_group_idem.
Qed.

(** ** Attempt counters *)

Lemma count_in_touched st qq qq' : count_in (touched_group st qq) qq' = count_in st qq'.
Proof.
  unfold count_in, touched_group. destruct (gs_users st) as [m|m] eqn:Eu; [by rewrite Eu|].
  destruct (m !! qq) eqn:E; [by rewrite Eu|]. simpl.
  destruct (decide (qq = qq')) as [<-|Hne].
  - by rewrite lookup_insert_eq, E.
  - by rewrite lookup_insert_ne.
Qed.

Lemma count_touch g qq w g' qq' : count_of (touch_user g qq w) g' qq' = count_of w g' qq'.
Proof.
  unfold count_of, touch_user, group_of at 1; simpl.
  destruct (decide (g = g')) as [<-|Hne].
  - rewrite lookup_insert_eq. apply count_in_touched.
  - rewrite lookup_insert_ne by done. reflexivity.
Qed.

Lemma user_read_count st qq u : user_read st qq = inr u -> hit_count u = count_in st qq.
Proof.
  unfold user_read, count_in. destruct (gs_users st) as [m|m]; simpl;
    destruct (m !! qq); intros; simplify_eq; done.
Qed.

Lemma count_bump g qq w g' qq' :
  count_of (bump_user g qq w) g' qq' =
  if bool_decide (g = g' /\ qq = qq') then count_of w g qq + 1 else count_of w g' qq'.
Proof.
  unfold count_of, bump_user, group_of at 1; simpl.
  destruct (decide (g = g')) as [<-|Hne].
  - rewrite lookup_insert_eq. unfold count_in at 1; simpl.
    destruct (gs_users (group_of w g)) as [m|m] eqn:Eu; simpl;
      (destruct (decide (qq = qq')) as [<-|Hq];
       [rewrite lookup_insert_eq, bool_decide_eq_true_2 by done; done
       |rewrite lookup_insert_ne, bool_decide_eq_false_2 by (done || by intros [_ ?]);
        unfold count_in; by rewrite Eu]).
  - rewrite lookup_insert_ne, bool_decide_eq_false_2 by (done || by intros [? _]). reflexivity.
Qed.

Lemma group_of_win g qq p w : group_of (win_world g qq p w) g = default_group.
Proof. unfold group_of, win_world; simpl. by rewrite lookup_insert_eq. Qed.

Lemma group_of_win_ne g qq p w g' : g <> g' -> group_of (win_world g qq p w) g' = group_of w g'.
Proof. intros Hne. unfold group_of, win_world; simpl. by rewrite lookup_insert_ne. Qed.

Lemma group_of_touch_ne g qq w g' : g <> g' -> group_of (touch_user g qq w) g' = group_of w g'.
Proof. intros Hne. unfold group_of, touch_user; simpl. by rewrite lookup_insert_ne. Qed.

Lemma group_of_bump_ne g qq w g' : g <> g' -> group_of (bump_user g qq w) g' = group_of w g'.
Proof. intros Hne. unfold group_of, bump_user; simpl. by rewrite lookup_insert_ne. Qed.

Lemma touched_group_fields st qq :
  gs_start (touched_group st qq) = gs_start st /\ gs_hand (touched_group st qq) = gs_hand st.
Proof. unfold touched_group. destruct (gs_users st) as [m|m]; [done|]. by destruct (m !! qq). Qed.

Lemma touch_fields g qq w g' :
  gs_start (group_of (touch_user g qq w) g') = gs_start (group_of w g') /\
  gs_hand (group_of (touch_user g qq w) g') = gs_hand (group_of w g').
Proof.
  destruct (decide (g = g')) as [<-|Hne].
  - rewrite group_of_touch_user. apply touched_group_fields.
  - by rewrite group_of_touch_ne.
Qed.

(** Every verdict other than an error is reached with a count below
    [MAX_GUESS] and renders the attempts left before this one counts. *)
Lemma judge_render st qq msg v :
  judge st qq msg = inr v ->
  match v with
  | VError _ => True
  | VMiss rd | VWin rd _ =>
      count_in st qq < MAX_GUESS /\ rd_last rd = MAX_GUESS - count_in st qq - 1 /\
      is_Some (gs_hand st)
  end.
Proof.
  destruct v as [e|rd|rd c]; [done| |];
  unfold judge; destruct (user_read st qq) as [e|info] eqn:Hr; py_red;
    try (intros ?; discriminate);
  rewrite <- (user_read_count _ _ _ Hr);
  (destruct (MAX_GUESS <=? hit_count info) eqn:Hm; [intros ?; discriminate|]);
  apply Z.leb_gt in Hm;
  repeat (case_match; try (intros ?; discriminate)).
  all: intros ?; simplify_eq; split; [lia|split; [done|eauto]].
Qed.

(** The winning-tile colour of a verdict with feedback is the one
    [win_feedback] computes from the guessed winning tile's text and the
    last tile of the guessed hand. *)
Lemma judge_win_color st qq msg v msg_hand hand :
  judge st qq msg = inr v -> format_hand_msg msg = inr msg_hand -> gs_hand st = Some hand ->
  match v with
  | VError _ => True
  | VMiss rd | VWin rd _ =>
      exists cur, one_line_string_to_136_array (py_slice msg_hand None (Some (-2))) = inr cur /\
        win_feedback (py_slice msg_hand (Some (-2)) None) (hr_win_tile hand) (hr_tiles hand)
          (last cur) = inr (rd_win rd).2
  end.
Proof.
  intros Hj Hf Hh. destruct v as [e|rd|rd c]; [done| |]; revert Hj;
    unfold judge; rewrite Hf, Hh; py_red;
    repeat (case_match; try (intros ?; discriminate)); intros ?; simplify_eq/=; eauto.
Qed.

(** ** Theorems on [guesses_handler] *)

(** C6. Error paths change no session: when [guesses_handler] returns an
    error reply or raises, every attempt counter, every group's [start]
    flag and hand, the timers and the points are as before (only the
    default entries of the [defaultdict] reads may have been added). *)
Theorem guess_error_keeps_session g qq msg w w' r :
  guesses_handler g qq msg w = (w', r) -> (forall rd p, r <> inr (ROk rd p)) ->
  forall g' qq',
    count_of w' g' qq' = count_of w g' qq' /\
    gs_start (group_of w' g') = gs_start (group_of w g') /\
    gs_hand (group_of w' g') = gs_hand (group_of w g') /\
    w_timers w' = w_timers w /\ w_points w' = w_points w.
Proof.
  rewrite guesses_handler_judge. intros Hrun Hr g' qq'.
  destruct (has_invalid_char msg); [by injection Hrun as <- <-|].
  unfold apply_verdict in Hrun.
  destruct (judge _ _ _) as [e|[err|rd|rd c]]; injection Hrun as <- <-;
    [| |by edestruct Hr|by edestruct Hr].
  all: rewrite count_touch; destruct (touch_fields g qq w g') as [-> ->]; done.
Qed.

(** C7. A guess that is evaluated and does not win is counted: it was
    allowed because the guesser had fewer than [MAX_GUESS] attempts, the
    image shows [MAX_GUESS - count - 1] attempts left, the guesser's
    count grows by one and no other counter changes. *)
Theorem guess_miss_counts g qq msg w w' rd :
  guesses_handler g qq msg w = (w', inr (ROk rd None)) ->
  count_of w g qq < MAX_GUESS /\ rd_last rd = MAX_GUESS - count_of w g qq - 1 /\
  count_of w' g qq = count_of w g qq + 1 /\
  (forall g' qq', (g', qq') <> (g, qq) -> count_of w' g' qq' = count_of w g' qq').
Proof.
  rewrite guesses_handler_judge. intros Hrun.
  destruct (has_invalid_char msg); [done|]. unfold apply_verdict in Hrun.
  destruct (judge _ _ _) as [e|[err|rd'|rd' c]] eqn:Hj; try done.
  injection Hrun as <- <-. apply judge_render in Hj as (Hlt & Hlast & _).
  split; [done|]. split; [done|].
  split.
  - rewrite count_bump, bool_decide_eq_true_2 by done. by rewrite count_touch.
  - intros g' qq' Hne. rewrite count_bump, bool_decide_eq_false_2 by (intros [-> ->]; done).
    apply count_touch.
Qed.



(** The payout of a win is the secret hand's [cost["main"] +
    cost["additional"]]. *)
Lemma judge_win_cost st qq msg rd c :
  judge st qq msg = inr (VWin rd c) ->
  exists hand main additional, gs_hand st = Some hand /\
    cost (hr_result hand) = Some (main, additional) /\ c = main + additional.
Proof.
  unfold judge.
  destruct (user_read st qq) as [e|info]; py_red; [nope|].
  destruct (MAX_GUESS <=? hit_count info); py_red; [nope|].
  destruct (format_hand_msg msg) as [e|msg_hand]; py_red; [nope|].
  destruct (one_line_string_to_136_array msg_hand) as [e|msg_tiles]; py_red; [nope|].
  destruct (negb _); py_red; [nope|].
  destruct (one_line_string_to_136_array (py_slice msg_hand (Some (-2)) None)) as [e|wl];
    py_red; [nope|].
  destruct (py_getitem wl 0) as [e|t]; py_red; [nope|].
  destruct (gs_hand st) as [hand|]; py_red; [|nope].
  destruct (han _) as [h|]; py_red; [|nope].
  destruct (h =? 0); py_red; [nope|].
  destruct (one_line_string_to_136_array _) as [e|cur]; py_red; [nope|].
  destruct (hand_feedback _ _) as [e|colors]; py_red; [nope|].
  destruct (win_feedback _ _ _ _) as [e|wc]; py_red; [nope|].
  destruct (yaku_tip _) as [e|tip]; py_red; [nope|].
  destruct (cost (hr_result hand)) as [[main additional]|] eqn:Hc; py_red; [|nope].
  repeat (case_match; py_red; try nope).
  match goal with H : status_cost _ = inr _ |- _ => injection H as <- end.
  intros [= <- <-]. by exists hand, main, additional.
Qed.

(** C17. The character filter of line 139 comes first: a message with
    any character outside the class [[\dmpszh万筒索东南西北白发中]] is
    answered with the bad-character error, and nothing changes, no
    counter being read or touched. *)
Theorem guess_bad_char_rejected g qq msg w c :
  c ∈ msg -> allowed_char c = false ->
  guesses_handler g qq msg w = (w, inr (RError ErrBadChar)).
Proof.
  intros Hc Ha. unfold guesses_handler.
  replace (has_invalid_char msg) with true; [reflexivity|].
  symmetry. apply existsb_exists. exists c. split; [by apply list_elem_of_In|]. by rewrite Ha.
Qed.

(** A reply announcing a win comes from a winning verdict, applied to
    the world after the read of the user's counter. *)
Lemma handler_win g qq msg w w' rd p total :
  guesses_handler g qq msg w = (w', inr (ROk rd (Some (p, total)))) ->
  judge (group_of w g) qq msg = inr (VWin rd p) /\
  w' = win_world g qq p (touch_user g qq w) /\ total = default 0 (w_points w !! qq) + p.
Proof.
  rewrite guesses_handler_judge. intros Hrun.
  destruct (has_invalid_char msg); [done|]. unfold apply_verdict in Hrun.
  destruct (judge _ _ _) as [e|[err|rd'|rd' c]] eqn:Hj; try done.
  by injection Hrun as <- <- <- <-.
Qed.

(** C4. A winning guess ends the game: the group is back to the default
    idle state, the timer registered under ["HandGuessGame"] is
    cancelled, and the guesser is paid the secret hand's cost
    ([cost["main"] + cost["additional"]]), the reply carrying the new
    total. *)
Theorem guess_win_resets g qq msg w w' rd p total :
  guesses_handler g qq msg w = (w', inr (ROk rd (Some (p, total)))) ->
  group_of w' g = default_group /\
  w_timers w' = cancel_call_later TIMER_NAME (w_timers w) /\
  (exists hand main additional, gs_hand (group_of w g) = Some hand /\
     cost (hr_result hand) = Some (main, additional) /\ p = main + additional) /\
  total = default 0 (w_points w !! qq) + p /\ w_points w' !! qq = Some total.
Proof.
  intros (Hj & -> & ->)%handler_win. rewrite group_of_win. split; [done|].
  unfold win_world; simpl. split; [done|]. split; [by apply judge_win_cost in Hj|].
  split; [done|]. by rewrite lookup_insert_eq.
Qed.

(** C18. What a win really requires: with a secret hand of 13 tiles, a
    guess wins only if its hand part converts to exactly the secret's
    136-array (the same tiles in the same order within each suit, not
    merely the same multiset), its last tile converts to the secret
    winning tile, and the scorer gave it a positive han. *)
Theorem judge_win_exact st qq msg rd c hand :
  gs_hand st = Some hand -> length (hr_tiles hand) = 13%nat ->
  has_invalid_char msg = false ->
  judge st qq msg = inr (VWin rd c) ->
  exists msg_hand msg_tiles t ws h,
    format_hand_msg msg = inr msg_hand /\
    one_line_string_to_136_array msg_hand = inr msg_tiles /\
    one_line_string_to_136_array (py_slice msg_hand None (Some (-2))) = inr (hr_tiles hand) /\
    one_line_string_to_136_array (py_slice msg_hand (Some (-2)) None) = inr (t :: ws) /\
    one_line_string_to_136_array (hr_win_tile hand) = inr [t] /\
    han (estimate_hand_value msg_tiles t (mkHandConfig true (hr_tsumo hand))) = Some h /\ h <> 0.
Proof.
  intros Hh Hlen Hc. unfold judge. rewrite Hh.
  destruct (user_read st qq) as [e|info]; py_red; [nope|].
  destruct (MAX_GUESS <=? hit_count info); py_red; [nope|].
  destruct (format_hand_msg msg) as [e|msg_hand] eqn:Hf; py_red; [nope|].
  destruct (one_line_string_to_136_array msg_hand) as [e|msg_tiles] eqn:Ht; py_red; [nope|].
  destruct (Nat.eqb_spec (length msg_tiles) 14) as [H14|]; py_red; [|nope].
  destruct (one_line_string_to_136_array (py_slice msg_hand (Some (-2)) None)) as [e|wl] eqn:Hw;
    py_red; [nope|].
  destruct wl as [|t ws]; [rewrite py_getitem_nil; py_red; nope|].
  replace (py_getitem (t :: ws) 0) with (@inr PyExc Z t) by reflexivity. py_red.
  destruct (han _) as [h|] eqn:Hhan; py_red; [|nope].
  destruct (Z.eqb_spec h 0); py_red; [nope|].
  destruct (hand_part_split msg msg_hand msg_tiles t ws Hc Hf Ht Hw)
    as (cur & Hcur & H13). rewrite Hcur. py_red.
  repeat (case_match; py_red; try nope).
  intros _. match goal with H : bool_decide _ = true |- _ =>
    apply bool_decide_eq_true_1, app_inj_1 in H as [<- ->]; [|lia] end.
  exists msg_hand, msg_tiles, t, ws, h. by repeat split.
Qed.

(** The feedback of a reply with feedback: the secret hand is present,
    the guessed hand part has 13 tiles, and the colours are what the
    loop of lines 174-187 computed on it. *)
Lemma judge_feedback st qq msg rd :
  has_invalid_char msg = false ->
  (exists c, judge st qq msg = inr (VWin rd c)) \/ judge st qq msg = inr (VMiss rd) ->
  exists hand cur, gs_hand st = Some hand /\ length cur = 13%nat /\
    hand_feedback (hr_tiles hand) cur = inr (rd_hand rd).
Proof.
  intros Hc. unfold judge.
  destruct (user_read st qq) as [e|info]; py_red; [nope2|].
  destruct (MAX_GUESS <=? hit_count info); py_red; [nope2|].
  destruct (format_hand_msg msg) as [e|msg_hand] eqn:Hf; py_red; [nope2|].
  destruct (one_line_string_to_136_array msg_hand) as [e|msg_tiles] eqn:Ht; py_red; [nope2|].
  destruct (Nat.eqb_spec (length msg_tiles) 14) as [H14|]; py_red; [|nope2].
  destruct (one_line_string_to_136_array (py_slice msg_hand (Some (-2)) None)) as [e|wl] eqn:Hw;
    py_red; [nope2|].
  destruct wl as [|t ws]; [rewrite py_getitem_nil; py_red; nope2|].
  replace (py_getitem (t :: ws) 0) with (@inr PyExc Z t) by reflexivity. py_red.
  destruct (gs_hand st) as [hand|]; py_red; [|nope2].
  destruct (han _) as [h|]; py_red; [|nope2].
  destruct (h =? 0); py_red; [nope2|].
  destruct (hand_part_split msg msg_hand msg_tiles t ws Hc Hf Ht Hw) as (cur & Hcur & H13).
  rewrite Hcur. py_red.
  destruct (hand_feedback (hr_tiles hand) cur) as [e|colors] eqn:Hfb; py_red; [nope2|].
  repeat (case_match; py_red; try nope2).
  all: intros [[? Hv]|Hv]; simplify_eq; exists hand, cur; (split; [done|split; [lia|done]]).
Qed.

(** C11. The feedback of every reply with feedback is positional: it
    has one entry per tile of the 13-tile hand part, and an entry is
    drawn blue exactly when its tile is the secret hand's tile at the
    same index (so at most 13 tiles are marked Correct, each at its
    exact index). *)
Theorem reply_feedback_exact g qq msg w w' rd p :
  guesses_handler g qq msg w = (w', inr (ROk rd p)) ->
  exists hand, gs_hand (group_of w g) = Some hand /\ length (rd_hand rd) = 13%nat /\
    forall i t c, rd_hand rd !! i = Some (t, c) -> (c = blue <-> hr_tiles hand !! i = Some t).
Proof.
  rewrite guesses_handler_judge. intros Hrun.
  destruct (has_invalid_char msg) eqn:Hc; [done|]. unfold apply_verdict in Hrun.
  assert (Hv : (exists c, judge (group_of w g) qq msg = inr (VWin rd c)) \/
               judge (group_of w g) qq msg = inr (VMiss rd)).
  { destruct (judge _ _ _) as [e|[err|rd'|rd' c]]; try done; injection Hrun as _ <-; eauto. }
  destruct (judge_feedback _ _ _ _ Hc Hv) as (hand & cur & Hh & Hlen & Hfb).
  apply hand_feedback_inr in Hfb. exists hand. split; [done|].
  rewrite Hfb, length_imap. split; [done|].
  intros i t c Hi. rewrite list_lookup_imap in Hi.
  destruct (cur !! i) as [t'|]; simplify_eq/=. apply expected_color_blue.
Qed.

(** C16. A guess that is read, has attempts left and normalises to a
    number of tiles other than 14 is answered with the tile-count error,
    and only the read of the guesser's counter touched the world. *)
Theorem guess_wrong_count g qq msg w m h l :
  has_invalid_char msg = false -> gs_users (group_of w g) = DefaultDict m ->
  count_of w g qq < MAX_GUESS ->
  format_hand_msg msg = inr h -> one_line_string_to_136_array h = inr l -> length l <> 14%nat ->
  guesses_handler g qq msg w = (touch_user g qq w, inr (RError ErrNot14)).
Proof.
  intros Hc Hu Hn Hf Hl H14. rewrite guesses_handler_judge, Hc. unfold judge.
  destruct (user_read (group_of w g) qq) as [e|info] eqn:Hr;
    [unfold user_read in Hr; by rewrite Hu in Hr|].
  apply user_read_count in Hr. unfold count_of in Hn. py_red.
  replace (MAX_GUESS <=? hit_count info) with false by lia.
  rewrite Hf, Hl. py_red. by destruct (Nat.eqb_spec (length l) 14).
Qed.

(** C30. A guess that passes the 14-tile check but whose last two
    characters name no tile (a hand ending in two suit letters, such as
    "...5p6p7pp") gets no reply: [TC.one_line_string_to_136_array(
    msg_win_tile)[0]] raises [IndexError] (line 152), and only the read
    of the guesser's counter touched the world. *)
Theorem guess_empty_win_tile_raises g qq msg w m h l :
  has_invalid_char msg = false -> gs_users (group_of w g) = DefaultDict m ->
  count_of w g qq < MAX_GUESS ->
  format_hand_msg msg = inr h -> one_line_string_to_136_array h = inr l -> length l = 14%nat ->
  one_line_string_to_136_array (py_slice h (Some (-2)) None) = inr [] ->
  guesses_handler g qq msg w = (touch_user g qq w, inl IndexError).
Proof.
  intros Hc Hu Hn Hf Hl H14 Hw. rewrite guesses_handler_judge, Hc. unfold judge.
  destruct (user_read (group_of w g) qq) as [e|info] eqn:Hr;
    [unfold user_read in Hr; by rewrite Hu in Hr|].
  apply user_read_count in Hr. unfold count_of in Hn. py_red.
  replace (MAX_GUESS <=? hit_count info) with false by lia.
  rewrite Hf, Hl, H14. py_red. by rewrite Hw.
Qed.

(** C29. [guesses_handler] does not check that a game is running: on an
    idle group (its default state) a guess with valid characters raises
    [KeyError] at [self.status.users[self.qq]], the plain [{}] of the
    default state having no entry. *)
Theorem guess_on_idle_group_raises g qq msg w :
  group_of w g = default_group -> has_invalid_char msg = false ->
  guesses_handler g qq msg w = (touch_user g qq w, inl KeyError).
Proof.
  intros Hg Hc. rewrite guesses_handler_judge, Hc, Hg. unfold judge, user_read. simpl.
  by rewrite lookup_empty.
Qed.

(** ** Theorems on [start] *)

Section StartTheorems.
Variable replace_cancels : bool.
Variable hand_list : list pystr.

(** C19. [start] on a started group answers "already started" and
    changes nothing: the hand, the counters and the timers stay. *)
Theorem start_when_active g draw w :
  gs_start (group_of w g) = true ->
  start replace_cancels hand_list g draw w = (w, inr StartAlready).
Proof.
  unfold group_of. destruct (w_proc w !! g) as [st|] eqn:Hg; [|done]. simpl. intros Hs.
  unfold start, is_start. py_red. rewrite (status_present _ _ _ Hg). py_red. by rewrite Hs.
Qed.

(** The run of [start] on an idle group whose corpus read succeeds. *)
Lemma start_idle_run g draw w h :
  gs_start (group_of w g) = false ->
  get_hand hand_list None draw = inr h ->
  exists w',
    start replace_cancels hand_list g draw w = (w', inr StartOk) /\
    group_of w' g = mkGroupState true (Some h) (DefaultDict ∅) /\
    (forall qq, count_of w' g qq = 0) /\
    w_timers w' = call_later replace_cancels (w_now w) TIMEOUT g TIMER_NAME (w_timers w) /\
    (forall g', g' <> g -> group_of w' g' = group_of w g') /\
    w_now w' = w_now w.
Proof.
  intros Hs Hh. unfold start, is_start. py_red. unfold status, group_of in *.
  destruct (w_proc w !! g) as [st|] eqn:Hg; simpl in Hs; py_red; rewrite ?Hs;
    cbn [default_group gs_start]; py_red;
    rewrite Hh; unfold set_group, arm_timeout; py_red;
    (eexists; split; [reflexivity|]); simpl; rewrite lookup_insert_eq;
    (split; [done|]);
    (split; [intros qq; unfold count_of, count_in, group_of; simpl; by rewrite lookup_insert_eq|]);
    (split; [done|]); (split; [|done]); intros g' Hne; simpl; by rewrite !lookup_insert_ne by done.
Qed.

(** C20. [start] on an idle group whose corpus read succeeds stores a
    started state with the drawn hand and an empty [defaultdict] of
    counters, arms a timer of [TIMEOUT] seconds for the group under the
    name ["HandGuessGame"], and leaves every other group as it was. *)
Theorem start_when_idle g draw w h :
  gs_start (group_of w g) = false ->
  get_hand hand_list None draw = inr h ->
  exists w',
    start replace_cancels hand_list g draw w = (w', inr StartOk) /\
    group_of w' g = mkGroupState true (Some h) (DefaultDict ∅) /\
    (forall qq, count_of w' g qq = 0) /\
    w_timers w' = call_later replace_cancels (w_now w) TIMEOUT g TIMER_NAME (w_timers w) /\
    (forall g', g' <> g -> group_of w' g' = group_of w g').
Proof.
  intros Hs Hh. destruct (start_idle_run g draw w h Hs Hh) as (w' & ? & ? & ? & ? & ? & _).
  by exists w'.
Qed.

End StartTheorems.

End Runs.

End HandGuess.
