(* ===== verification/Attempts.v ===== *)
(** How many answers a user can get in one game.  [guess_run] sends a
    list of messages of one user to [HandGuess.guesses_handler], one
    after the other, threading the world.  The variant is the user's
    budget: [MAX_GUESS - count] while the counter can be read, 0 once
    the read raises (after a win, the group is back to the plain [{}]).
    Every answered guess (feedback, with or without a win) lowers it by
    at least one and nothing raises it, so the answers a user gets are
    bounded, whatever the messages. *)

From Stdlib Require Import ZArith Lia.
From stdpp Require Import base list gmap strings.
From S2P Require Import Prelude Unicode Tiles Guess Evaluator Corpus Timers Feedback Session.

Open Scope Z_scope.
Local Open Scope py_scope.
Import GuessValidator Evaluator Corpus HandGuess.

Module Attempts.

Section Run.
Context `{HandCalculator}.

(** The messages [msgs] of user [qq] in group [g], handled in order. *)
Fixpoint guess_run (g qq : Z) (msgs : list pystr) (w : World) : World * list (Res Reply) :=
  match msgs with
  | [] => (w, [])
  | m :: ms =>
      let '(w1, r) := guesses_handler g qq m w in
      let '(w2, rs) := guess_run g qq ms w1 in (w2, r :: rs)
  end.

(** A reply with feedback. *)
Definition answered (r : Res Reply) : bool :=
  match r with inr (ROk _ _) => true | _ => false end.

(** The variant. *)
Definition budget (g qq : Z) (w : World) : nat :=
  match user_read (group_of w g) qq with
  | inl _ => 0
  | inr _ => Z.to_nat (MAX_GUESS - count_of w g qq)
  end.

(** ** Lemmas *)

Lemma budget_le g qq w : (budget g qq w <= Z.to_nat (MAX_GUESS - count_of w g qq))%nat.
Proof. unfold budget. destruct (user_read _ _); lia. Qed.

Lemma budget_touch g qq w : budget g qq (touch_user g qq w) = budget g qq w.
Proof.
  unfold budget. rewrite group_of_touch_user, user_read_touched.
  unfold count_of. rewrite group_of_touch_user, count_in_touched. done.
Qed.

Lemma user_read_bump g qq w :
  user_read (group_of (bump_user g qq w) g) qq = inr (mkUserState (count_of w g qq + 1)).
Proof.
  unfold bump_user, group_of at 1, user_read. simpl. rewrite lookup_insert_eq. simpl.
  by destruct (gs_users (group_of w g)); simpl; rewrite lookup_insert_eq.
Qed.

Lemma judge_read st qq msg v :
  judge st qq msg = inr v -> exists u, user_read st qq = inr u.
Proof. unfold judge. destruct (user_read st qq) as [e|u]; [done|by eauto]. Qed.

(** One guess: its answer, if any, is paid for by the variant. *)
Lemma handler_budget g qq m w :
  ((if answered (guesses_handler g qq m w).2 then 1 else 0) +
   budget g qq (guesses_handler g qq m w).1 <= budget g qq w)%nat.
Proof.
  rewrite guesses_handler_judge. destruct (has_invalid_char m); [simpl; lia|].
  unfold apply_verdict. rewrite <- (budget_touch g qq w).
  destruct (judge (group_of w g) qq m) as [e|[err|rd|rd c]] eqn:Hj; simpl; [lia|lia| |].
  - pose proof (judge_render _ _ _ _ Hj) as (Hlt & _ & _).
    destruct (judge_read _ _ _ _ Hj) as [u Hu].
    unfold budget. rewrite user_read_bump, group_of_touch_user, user_read_touched, Hu.
    pose proof (count_bump g qq (touch_user g qq w) g qq) as Hc.
    rewrite bool_decide_eq_true_2 in Hc by done. rewrite Hc, count_touch.
    unfold count_of. lia.
  - pose proof (judge_render _ _ _ _ Hj) as (Hlt & _ & _).
    destruct (judge_read _ _ _ _ Hj) as [u Hu].
    unfold budget at 1. rewrite group_of_win.
    replace (user_read default_group qq) with (@inl PyExc UserState KeyError)
      by (unfold user_read; simpl; by rewrite lookup_empty).
    unfold budget. rewrite group_of_touch_user, user_read_touched, Hu, count_touch.
    unfold count_of. lia.
Qed.

Lemma guess_run_budget g qq msgs w :
  (length (List.filter answered (guess_run g qq msgs w).2) <= budget g qq w)%nat.
Proof.
  revert w. induction msgs as [|m ms IH]; intros w; simpl; [lia|].
  pose proof (handler_budget g qq m w) as Hb.
  destruct (guesses_handler g qq m w) as [w1 r]. simpl in Hb.
  pose proof (IH w1) as Hr. destruct (guess_run g qq ms w1) as [w2 rs]. simpl in *.
  destruct (answered r); simpl; lia.
Qed.

(** C10. Termination of a user's guessing in a game: whatever messages
    user [qq] sends to group [g], one after the other, at most
    [MAX_GUESS - count] of them are answered with feedback (misses and
    the winning guess together), [count] being the user's counter when
    the run starts; every other message gets an error or an exception. *)
Theorem guesses_bounded g qq msgs w :
  (length (List.filter answered (guess_run g qq msgs w).2) <=
   Z.to_nat (MAX_GUESS - count_of w g qq))%nat.
Proof. etrans; [apply guess_run_budget|apply budget_le]. Qed.

End Run.

End Attempts.
