(* ===== verification/Interleave.v ===== *)
(** The interleaving of guesses in different groups.  Every group has its
    own entry of [HandGuessProcess], and a guess that does not win reads
    and writes only the entry of its group ([touch_user], [bump_user]):
    [guess_local] is that effect as a function of the group's state
    alone.  Hence two such guesses in different groups commute: in either
    order they give the same replies and the same world.  A win is not
    local: it cancels the timer registered under the name shared by all
    groups and adds to the user's points, which are shared too. *)

From Stdlib Require Import ZArith Lia.
From stdpp Require Import base list gmap strings.
From S2P Require Import Prelude Unicode Tiles Guess Evaluator Corpus Timers Feedback Session.

Open Scope Z_scope.
Local Open Scope py_scope.
Import GuessValidator Evaluator HandGuess.

Module Interleave.

(** An update of the entry of group [g] by a function of its state. *)
Definition update_group (g : Z) (f : GroupState -> GroupState) (w : World) : World :=
  set_proc (<[g := f (group_of w g)]> (w_proc w)) w.

(** The entry of [inc_user_count]: the user's counter plus one. *)
Definition bumped (qq : Z) (st : GroupState) : GroupState :=
  let u := mkUserState (count_in st qq + 1) in
  set_users st (match gs_users st with
                | PlainDict m => PlainDict (<[qq := u]> m)
                | DefaultDict m => DefaultDict (<[qq := u]> m)
                end).

(** A reply that does not announce a win. *)
Definition nonwin (r : Res Reply) : Prop :=
  match r with inr (ROk _ (Some _)) => False | _ => True end.

Section Local.
Context `{HandCalculator}.

(** What [guesses_handler] does to the entry of its group and what it
    answers, computed from that entry alone; [None] leaves the world
    untouched.  The win case is not local and is left out ([nonwin]). *)
Definition guess_local (qq : Z) (msg : pystr) (st : GroupState)
    : option (GroupState -> GroupState) * Res Reply :=
  if has_invalid_char msg then (None, inr (RError ErrBadChar)) else
  match judge st qq msg with
  | inl e => (Some (fun s => touched_group s qq), inl e)
  | inr (VError err) => (Some (fun s => touched_group s qq), inr (RError err))
  | inr (VMiss rd) => (Some (fun s => bumped qq (touched_group s qq)), inr (ROk rd None))
  | inr (VWin rd c) => (None, inr (ROk rd (Some (c, c))))
  end.

Definition apply_local (g : Z) (o : option (GroupState -> GroupState)) (w : World) : World :=
  match o with None => w | Some f => update_group g f w end.

(** ** Lemmas *)

Lemma group_of_update g f w g' :
  group_of (update_group g f w) g' = if bool_decide (g = g') then f (group_of w g) else group_of w g'.
Proof.
  unfold update_group, group_of. simpl. case_bool_decide as E.
  - subst. by rewrite lookup_insert_eq.
  - by rewrite lookup_insert_ne.
Qed.

Lemma group_of_apply_ne g o w g' : g <> g' -> group_of (apply_local g o w) g' = group_of w g'.
Proof.
  intros Hne. destruct o as [f|]; [|done]. simpl. rewrite group_of_update.
  by rewrite bool_decide_eq_false_2.
Qed.

Lemma update_group_comm g1 g2 f1 f2 w :
  g1 <> g2 -> update_group g1 f1 (update_group g2 f2 w) = update_group g2 f2 (update_group g1 f1 w).
Proof.
  intros Hne. unfold update_group, set_proc, group_of. simpl.
  rewrite !lookup_insert_ne by congruence. f_equal. by apply insert_insert_ne.
Qed.

Lemma apply_local_comm g1 g2 o1 o2 w :
  g1 <> g2 -> apply_local g1 o1 (apply_local g2 o2 w) = apply_local g2 o2 (apply_local g1 o1 w).
Proof. intros Hne. destruct o1, o2; simpl; [by apply update_group_comm|done..]. Qed.

Lemma update_group_twice g f1 f2 w :
  update_group g f2 (update_group g f1 w) = update_group g (fun s => f2 (f1 s)) w.
Proof.
  unfold update_group at 1. rewrite group_of_update, bool_decide_eq_true_2 by done.
  unfold update_group, set_proc. simpl. by rewrite insert_insert_eq.
Qed.

(** The read of the counter followed by [inc_user_count]. *)
Lemma bump_touch g qq w :
  bump_user g qq (touch_user g qq w) = update_group g (fun s => bumped qq (touched_group s qq)) w.
Proof.
  change (bump_user g qq (touch_user g qq w))
    with (update_group g (bumped qq) (update_group g (fun s => touched_group s qq) w)).
  apply update_group_twice.
Qed.

(** A guess whose local answer is not a win is its local effect. *)
Lemma handler_local g qq msg w :
  nonwin (guess_local qq msg (group_of w g)).2 ->
  guesses_handler g qq msg w =
  (apply_local g (guess_local qq msg (group_of w g)).1 w, (guess_local qq msg (group_of w g)).2).
Proof.
  rewrite guesses_handler_judge. unfold guess_local.
  destruct (has_invalid_char msg); [done|]. unfold apply_verdict.
  destruct (judge _ _ _) as [e|[err|rd|rd c]]; simpl; try done.
  by rewrite bump_touch.
Qed.

(** A reply without a win comes from a local answer without a win. *)
Lemma handler_nonwin g qq msg w :
  nonwin (guesses_handler g qq msg w).2 -> nonwin (guess_local qq msg (group_of w g)).2.
Proof.
  rewrite guesses_handler_judge. unfold guess_local.
  destruct (has_invalid_char msg); [done|]. unfold apply_verdict.
  by destruct (judge _ _ _) as [e|[err|rd|rd c]].
Qed.

(** C15. Guesses in different groups commute when neither wins: if a
    guess in [g1] then a guess in [g2] give the replies [r1] and [r2],
    neither announcing a win, then the guess in [g2] first gives [r2] on
    the initial world, the guess in [g1] after it gives [r1], and the
    world at the end is the same. *)
Theorem guesses_commute g1 g2 qq1 qq2 m1 m2 w w1 w12 r1 r2 :
  g1 <> g2 ->
  guesses_handler g1 qq1 m1 w = (w1, r1) -> guesses_handler g2 qq2 m2 w1 = (w12, r2) ->
  nonwin r1 -> nonwin r2 ->
  exists w2, guesses_handler g2 qq2 m2 w = (w2, r2) /\ guesses_handler g1 qq1 m1 w2 = (w12, r1).
Proof.
  intros Hne H1 H2 N1 N2.
  assert (L1 := handler_nonwin g1 qq1 m1 w). rewrite H1 in L1. specialize (L1 N1).
  rewrite handler_local in H1 by done. injection H1 as <- <-.
  assert (L2 := handler_nonwin g2 qq2 m2 (apply_local g1 (guess_local qq1 m1 (group_of w g1)).1 w)).
  rewrite H2 in L2. specialize (L2 N2).
  rewrite handler_local in H2 by done. injection H2 as <- <-.
  rewrite !group_of_apply_ne in * by done.
  eexists. rewrite handler_local by done. split; [done|].
  rewrite handler_local by (by rewrite group_of_apply_ne). rewrite group_of_apply_ne by done.
  f_equal. by apply apply_local_comm.
Qed.

End Local.

End Interleave.
