(* ===== verification/SessionSpec.v ===== *)
(** The session machine of the spec (sections 4.1 and 7) and the
    refinement of [HandGuess.guesses_handler] to it.  A group is [AIdle]
    or [AActive] with its secret hand and a count of attempts per user;
    a guess leaves it unchanged on an error, counts a miss for the
    guesser and makes it idle on a win.  The code's [GroupState] is
    mapped to it by [abs_group]; the map forgets the zero entries that
    the defaultdict reads insert, so abstract states are compared up to
    [≡], equality of the hand and of every user's count, an equivalence
    that the machine's transitions respect ([Proper] instances). *)

From Stdlib Require Import ZArith Lia.
From stdpp Require Import base list gmap strings.
From S2P Require Import Prelude Unicode Tiles Guess Evaluator Corpus Timers Feedback Session.

Open Scope Z_scope.
Import GuessValidator Evaluator Corpus HandGuess.

Module SessionSpec.

(** Attempts per user; a user absent from the map has made none. *)
Definition count (c : gmap Z Z) (qq : Z) : Z := default 0 (c !! qq).

(** An active group records the hand it stored, [None] only in states
    that no run reaches ([Game.reachable_wf]). *)
Inductive AbsGroup := AIdle | AActive (hand : option HandResult) (counts : gmap Z Z).

#[export] Instance AbsGroup_equiv : Equiv AbsGroup := fun a b =>
  match a, b with
  | AIdle, AIdle => True
  | AActive h1 c1, AActive h2 c2 => h1 = h2 /\ forall qq, count c1 qq = count c2 qq
  | _, _ => False
  end.

#[export] Instance AbsGroup_equivalence : Equivalence (≡@{AbsGroup}).
Proof.
  split.
  - by intros [|h c].
  - intros [|h1 c1] [|h2 c2]; simpl; try done. intros [-> H]. by split.
  - intros [|h1 c1] [|h2 c2] [|h3 c3]; simpl; try done.
    intros [-> H1] [-> H2]. split; [done|]. intros qq. by rewrite H1.
Qed.

(** What a guess did, as the spec classifies it. *)
Inductive Outcome := OError | OMiss | OWin.

(** The spec's transition on a guess by [qq]: a user has [MAX_GUESS]
    attempts, and a guess of a user who has used them all changes
    nothing; otherwise a miss counts one more attempt and a win ends the
    game. *)
Definition abs_guess (a : AbsGroup) (qq : Z) (o : Outcome) : AbsGroup :=
  match a, o with
  | AActive h c, OMiss =>
      if count c qq <? MAX_GUESS then AActive h (<[qq := count c qq + 1]> c) else a
  | AActive h c, OWin => if count c qq <? MAX_GUESS then AIdle else a
  | _, _ => a
  end.

(** The spec's transition on "start" with the drawn hand [h]. *)
Definition abs_start (a : AbsGroup) (h : HandResult) : AbsGroup :=
  match a with AIdle => AActive (Some h) ∅ | AActive _ _ => a end.

(** The class of a reply of [guesses_handler]: feedback without a win
    message is a counted miss, with one a win, anything else an error. *)
Definition outcome (r : Res Reply) : Outcome :=
  match r with
  | inr (ROk _ None) => OMiss
  | inr (ROk _ (Some _)) => OWin
  | _ => OError
  end.

(** The abstraction of the code's group state. *)
Definition abs_group (st : GroupState) : AbsGroup :=
  if gs_start st then AActive (gs_hand st) (hit_count <$> users_map (gs_users st)) else AIdle.

(** ** Lemmas *)

Lemma count_insert c qq qq' v :
  count (<[qq := v]> c) qq' = if bool_decide (qq = qq') then v else count c qq'.
Proof.
  unfold count. case_bool_decide as E.
  - subst. by rewrite lookup_insert_eq.
  - by rewrite lookup_insert_ne.
Qed.

#[export] Instance abs_guess_proper : Proper ((≡) ==> (=) ==> (=) ==> (≡)) abs_guess.
Proof.
  intros [|h1 c1] [|h2 c2] Ha qq ? <- o ? <-; try done.
  destruct Ha as [-> Hc]. destruct o; simpl; rewrite ?Hc; try done.
  - destruct (count c2 qq <? MAX_GUESS); [|done].
    split; [done|]. intros qq'. rewrite !count_insert, Hc. by case_bool_decide.
  - by destruct (count c2 qq <? MAX_GUESS).
Qed.

#[export] Instance abs_start_proper : Proper ((≡) ==> (=) ==> (≡)) abs_start.
Proof. intros [|h1 c1] [|h2 c2] Ha h ? <-; done. Qed.

Lemma abs_guess_error a qq : abs_guess a qq OError = a.
Proof. by destruct a. Qed.


Lemma count_abs st qq : count (hit_count <$> users_map (gs_users st)) qq = count_in st qq.
Proof. unfold count, count_in. by rewrite lookup_fmap. Qed.

(** Two group states with the same flag, hand and counts have the same
    abstraction. *)
Lemma abs_group_ext st st' :
  gs_start st' = gs_start st -> gs_hand st' = gs_hand st ->
  (forall qq, count_in st' qq = count_in st qq) -> abs_group st' ≡ abs_group st.
Proof.
  intros Hs Hh Hc. unfold abs_group. rewrite Hs, Hh.
  destruct (gs_start st); [|done].
  split; [done|]. intros qq. by rewrite !count_abs.
Qed.

Lemma abs_touched st qq : abs_group (touched_group st qq) ≡ abs_group st.
Proof.
  destruct (touched_group_fields st qq) as [Hs Hh].
  apply abs_group_ext; [done|done|]. apply count_in_touched.
Qed.

(** A win of a user who still has attempts ends the game. *)
Lemma abs_guess_win st qq : count_in st qq < MAX_GUESS -> abs_guess (abs_group st) qq OWin = AIdle.
Proof.
  intros Hc. unfold abs_group. destruct (gs_start st); [|done]. simpl.
  rewrite count_abs. by rewrite (proj2 (Z.ltb_lt _ _) Hc).
Qed.

Lemma abs_bump g qq w :
  count_of w g qq < MAX_GUESS ->
  abs_group (group_of (bump_user g qq w) g) ≡ abs_guess (abs_group (group_of w g)) qq OMiss.
Proof.
  assert (Hg : group_of (bump_user g qq w) g =
    set_users (group_of w g) (match gs_users (group_of w g) with
      | PlainDict m => PlainDict (<[qq := mkUserState (count_in (group_of w g) qq + 1)]> m)
      | DefaultDict m => DefaultDict (<[qq := mkUserState (count_in (group_of w g) qq + 1)]> m)
      end)) by apply group_of_set_proc_eq.
  assert (gs_start (group_of (bump_user g qq w) g) = gs_start (group_of w g) /\
          gs_hand (group_of (bump_user g qq w) g) = gs_hand (group_of w g)) as [Hs Hh]
    by (rewrite Hg; by destruct (gs_users (group_of w g))).
  intros Hlt. unfold abs_group at 1. rewrite Hs, Hh. unfold abs_group.
  destruct (gs_start (group_of w g)); [|done]. cbn [abs_guess].
  unfold count_of in Hlt. rewrite count_abs, (proj2 (Z.ltb_lt _ _) Hlt).
  split; [done|]. intros qq'. rewrite count_insert, !count_abs.
  pose proof (count_bump g qq w g qq') as Hc. unfold count_of in Hc. rewrite Hc.
  destruct (decide (qq = qq')) as [<-|Hne].
  - by rewrite !bool_decide_eq_true_2.
  - rewrite !bool_decide_eq_false_2 by (done || by intros [_ ?]). done.
Qed.

(** ** Refinement *)

Section Refinement.
Context `{HandCalculator}.

(** Refinement of the spec's session machine by the handler: the state of the
    guessed group after [guesses_handler] is the machine's transition on
    the reply's outcome (unchanged on any error reply or exception, the
    guesser's count plus one on feedback without a win, idle after a
    win, each only while the guesser has attempts left), up to the zero entries the defaultdict reads add; no other
    group changes at all. *)
Lemma guesses_handler_refines g qq msg w :
  abs_group (group_of (guesses_handler g qq msg w).1 g) ≡
    abs_guess (abs_group (group_of w g)) qq (outcome (guesses_handler g qq msg w).2) /\
  forall g', g' <> g -> group_of (guesses_handler g qq msg w).1 g' = group_of w g'.
Proof.
  rewrite guesses_handler_judge.
  destruct (has_invalid_char msg); [simpl; by rewrite abs_guess_error|].
  unfold apply_verdict. destruct (judge _ _ _) as [e|[err|rd|rd c]] eqn:Hj; simpl.
  1,2: rewrite abs_guess_error, group_of_touch_user; split; [apply abs_touched|];
       intros g' Hne; by apply group_of_touch_ne.
  - split; [|intros g' Hne; rewrite group_of_bump_ne by done; by apply group_of_touch_ne].
    apply judge_render in Hj as (Hlt & _).
    rewrite abs_bump by (rewrite count_touch; exact Hlt).
    rewrite group_of_touch_user, abs_touched. done.
  - apply judge_render in Hj as (Hlt & _).
    rewrite abs_guess_win, group_of_win by done. split; [done|].
    intros g' Hne. rewrite group_of_win_ne by done. by apply group_of_touch_ne.
Qed.

End Refinement.

End SessionSpec.
