(* ===== verification/Game.v ===== *)
(** The plugin as an event loop: the commands "start" and "guess" of the
    bot layer, the clock, the firing of the timers of [utils.call_later]
    and the two halves of the [HandGuess.timeout] coroutine, whose
    [await get_bot().send_group_msg(...)] lets other events run between
    the message and the reset (asyncio, [src/handler.py] lines 89-91).
    The step relation [step] over configurations (the [World] of
    [Session] and the suspended timeout coroutines) describes every
    interleaving; [reachable] is its closure from the initial
    configuration.  The bot layer that dispatches the commands is not in
    [src/]: [guess_cmd] models, from the spec, its check that a game is
    running before [guesses_handler] is called.

    The theorems: the reachable configurations keep every group in one of
    two shapes (idle default, or started with a hand and a defaultdict of
    counters) and every counter within [0, MAX_GUESS]; a due timer ends
    its game; a timeout on an idle group changes no state but sends its
    message; with a registry that cancels on a reused name, at most one
    timer is armed in the whole bot, and a win in any group disarms every
    group's timer; a timeout suspended at its [await] ends the next game
    its group starts, while that game's own timer is not yet due. *)

From Stdlib Require Import ZArith Lia.
From stdpp Require Import base list gmap strings sets.
From S2P Require Import Prelude Unicode Tiles Guess Evaluator Corpus Timers Feedback Session.

Open Scope Z_scope.
Local Open Scope py_scope.
Import GuessValidator Evaluator Corpus Timers HandGuess.

Module Game.

Record Config := mkConfig {
  c_world : World;
  c_pending : list Z }.   (** groups whose [timeout] waits at its [await] *)

Definition init_world : World := mkWorld ∅ empty_reg ∅ 0 [].
Definition init_config : Config := mkConfig init_world [].

Inductive Event :=
  | EStart (g draw : Z)             (** "start" in group [g]; [draw] feeds [randint] *)
  | EGuess (g qq : Z) (msg : pystr) (** a guess by [qq] in [g] *)
  | ETick (d : Z)                   (** [d] seconds pass *)
  | EFire (id : nat)                (** the timer with handle [id] fires *)
  | EResume (i : nat).              (** the [i]-th suspended [timeout] resumes *)

Inductive GuessCmdReply :=
  | NoActiveGame
  | Handled (r : Res Reply).

Section Loop.
Context `{HandCalculator}.
Variable replace_cancels : bool.
Variable hand_list : list pystr.

(** The bot layer's "guess" command: only a started game is handed to
    [guesses_handler]; an exception of the handler is caught by the bot
    framework and is the command's outcome. *)
Definition guess_cmd (g qq : Z) (msg : pystr) : PyM World GuessCmdReply :=
  let! started := is_start g in
  if started then
    fun w => let '(w', r) := guesses_handler g qq msg w in (w', inr (Handled r))
  else pret NoActiveGame.

Definition fire_timer (id : nat) (w : World) : World :=
  set_timers (mkTimerReg (disarm id (tm_list (w_timers w))) (tm_names (w_timers w))) w.

Inductive step : Config -> Event -> Config -> Prop :=
  | StepStart c g draw w' r :
      start replace_cancels hand_list g draw (c_world c) = (w', r) ->
      step c (EStart g draw) (mkConfig w' (c_pending c))
  | StepGuess c g qq msg w' r :
      guess_cmd g qq msg (c_world c) = (w', r) ->
      step c (EGuess g qq msg) (mkConfig w' (c_pending c))
  | StepTick c d :
      0 <= d ->
      step c (ETick d) (mkConfig (set_now (w_now (c_world c) + d) (c_world c)) (c_pending c))
  | StepFire c id t :
      tm_list (w_timers (c_world c)) !! id = Some t -> tm_armed t = true ->
      tm_deadline t <= w_now (c_world c) ->
      step c (EFire id)
        (mkConfig ((timeout_notify (tm_group t) (fire_timer id (c_world c))).1)
                  (c_pending c ++ [tm_group t]))
  | StepResume c i g :
      c_pending c !! i = Some g ->
      step c (EResume i) (mkConfig ((timeout_resume g (c_world c)).1) (delete i (c_pending c))).

Inductive reachable : Config -> Prop :=
  | reach_init : reachable init_config
  | reach_step c e c' : reachable c -> step c e c' -> reachable c'.

End Loop.

(** ** The invariant of reachable configurations *)

Definition counts_ok (m : gmap Z UserState) : Prop :=
  map_Forall (fun _ u => 0 <= hit_count u <= MAX_GUESS) m.

(** A group is idle in its default state, or started with a hand and a
    defaultdict of counters within [0, MAX_GUESS]. *)
Definition wf_group (st : GroupState) : Prop :=
  st = default_group \/
  exists h m, st = mkGroupState true (Some h) (DefaultDict m) /\ counts_ok m.

Definition wf_world (w : World) : Prop := map_Forall (fun _ st => wf_group st) (w_proc w).

Lemma wf_group_default : wf_group default_group.
Proof. by left. Qed.

Lemma wf_group_of w g : wf_world w -> wf_group (group_of w g).
Proof.
  unfold group_of. destruct (w_proc w !! g) eqn:E; simpl; [|intros; apply wf_group_default].
  intros Hw. exact (Hw _ _ E).
Qed.

Lemma wf_set_proc w g st : wf_world w -> wf_group st -> wf_world (set_proc (<[g := st]> (w_proc w)) w).
Proof. intros Hw Hst. by apply map_Forall_insert_2. Qed.

Lemma wf_touched st qq : wf_group st -> wf_group (touched_group st qq).
Proof.
  intros [->|(h & m & -> & Hm)]; [by left|]. right. unfold touched_group; simpl.
  destruct (m !! qq); [by eauto|]. exists h, (<[qq := mkUserState 0]> m). split; [done|].
  apply map_Forall_insert_2; [simpl; unfold MAX_GUESS; lia|done].
Qed.

Lemma wf_touch_user w g qq : wf_world w -> wf_world (touch_user g qq w).
Proof. intros Hw. apply wf_set_proc; [done|]. by apply wf_touched, wf_group_of. Qed.

Lemma wf_bump_user w g qq :
  wf_world w -> is_Some (gs_hand (group_of w g)) -> count_of w g qq < MAX_GUESS ->
  wf_world (bump_user g qq w).
Proof.
  intros Hw Hh Hc. unfold bump_user. apply wf_set_proc; [done|].
  pose proof (wf_group_of w g Hw) as [Hd|(h & m & Hst & Hm)].
  - rewrite Hd in Hh. by destruct Hh.
  - unfold count_of in Hc. rewrite Hst in Hc |- *. right. simpl. eexists _, _. split; [done|].
    apply map_Forall_insert_2; [|done]. simpl.
    unfold count_in in *; simpl in *. destruct (m !! qq) as [u|] eqn:E; simpl in *.
    + pose proof (Hm _ _ E) as Hu. simpl in Hu. lia.
    + unfold MAX_GUESS in *. lia.
Qed.

Lemma wf_win_world w g qq p : wf_world w -> wf_world (win_world g qq p w).
Proof.
  intros Hw. unfold win_world, wf_world; simpl.
  apply map_Forall_insert_2; [apply wf_group_default|done].
Qed.

Lemma wf_status w g : wf_world w -> wf_world (status g w).1.
Proof.
  unfold status. intros Hw. destruct (w_proc w !! g); [done|].
  apply wf_set_proc; [done|apply wf_group_default].
Qed.

Section Preservation.
Context `{HandCalculator}.
Variable replace_cancels : bool.
Variable hand_list : list pystr.

Lemma wf_guesses_handler g qq msg w : wf_world w -> wf_world (guesses_handler g qq msg w).1.
Proof.
  intros Hw. rewrite guesses_handler_judge. destruct (has_invalid_char msg); [done|].
  unfold apply_verdict. destruct (judge _ _ _) as [e|[err|rd|rd c]] eqn:Hj; simpl;
    try by apply wf_touch_user.
  - apply judge_render in Hj as (Hc & _ & Hh). apply wf_bump_user.
    + by apply wf_touch_user.
    + rewrite group_of_touch_user. by destruct (touched_group_fields (group_of w g) qq) as [_ ->].
    + by rewrite count_touch.
  - by apply wf_win_world, wf_touch_user.
Qed.

Lemma wf_start g draw w : wf_world w -> wf_world (start replace_cancels hand_list g draw w).1.
Proof.
  intros Hw. unfold start, is_start. py_red.
  pose proof (wf_status w g Hw) as Hw1. destruct (status g w) as [w1 [e|st]]; py_red; [done|].
  destruct (gs_start st); py_red; [done|].
  destruct (get_hand hand_list None draw) as [e|hr]; py_red; [done|].
  unfold set_group, arm_timeout; py_red. simpl.
  apply (wf_set_proc w1 g (mkGroupState true (Some hr) (DefaultDict ∅))); [done|].
  right. eexists _, _. split; [done|]. apply map_Forall_empty.
Qed.

Lemma wf_guess_cmd g qq msg w : wf_world w -> wf_world (guess_cmd g qq msg w).1.
Proof.
  intros Hw. unfold guess_cmd, is_start. py_red.
  pose proof (wf_status w g Hw) as Hw1. destruct (status g w) as [w1 [e|st]]; py_red; [done|].
  destruct (gs_start st); py_red; [|done].
  pose proof (wf_guesses_handler g qq msg w1 Hw1) as Hw2.
  destruct (guesses_handler g qq msg w1). done.
Qed.

End Preservation.

Lemma wf_counts w g qq : wf_world w -> 0 <= count_of w g qq <= MAX_GUESS.
Proof.
  intros Hw. pose proof (wf_group_of _ g Hw) as [Hd|(h & m & Hst & Hm)];
    unfold count_of; [rewrite Hd|rewrite Hst]; unfold count_in; simpl.
  - rewrite lookup_empty. simpl. unfold MAX_GUESS. lia.
  - destruct (m !! qq) as [u|] eqn:E; simpl; [exact (Hm _ _ E)|unfold MAX_GUESS; lia].
Qed.

(** The shape invariant holds in every reachable configuration. *)
Lemma reachable_wf_world `{HandCalculator} replace_cancels hand_list c :
  reachable replace_cancels hand_list c -> wf_world (c_world c).
Proof.
  intros Hr.
  induction Hr as [|c e c' Hr IH Hs].
  - intros g st. simpl. by rewrite lookup_empty.
  - inversion Hs as [? g draw w' r Hst|? g qq msg w' r Hg|? d Hd|? id t Ht Ha Hdl|? i g Hp];
      subst; simpl.
    + change w' with (w', r).1. rewrite <- Hst. by apply wf_start.
    + change w' with (w', r).1. rewrite <- Hg. by apply wf_guess_cmd.
    + done.
    + done.
    + unfold timeout_resume, reset_game, set_group. simpl.
      apply wf_set_proc; [done|apply wf_group_default].
Qed.

(** C8. Every reachable configuration keeps every group either idle in
    its default state or started with a hand and a defaultdict of
    counters, and every attempt counter of every user in every group
    lies between 0 and [MAX_GUESS], whatever the order of commands,
    clock ticks, timer firings and timeout resumptions. *)
Theorem reachable_wf `{HandCalculator} replace_cancels hand_list c :
  reachable replace_cancels hand_list c ->
  wf_world (c_world c) /\ forall g qq, 0 <= count_of (c_world c) g qq <= MAX_GUESS.
Proof.
  intros Hr. pose proof (reachable_wf_world _ _ _ Hr) as Hw.
  split; [done|]. intros g qq. by apply wf_counts.
Qed.

(** ** An executable semantics, sound for [step] *)

Section Exec.
Context `{HandCalculator}.
Variable replace_cancels : bool.
Variable hand_list : list pystr.

(** One event, when it is enabled. *)
Definition exec_event (e : Event) (c : Config) : option Config :=
  match e with
  | EStart g draw =>
      Some (mkConfig (start replace_cancels hand_list g draw (c_world c)).1 (c_pending c))
  | EGuess g qq msg => Some (mkConfig (guess_cmd g qq msg (c_world c)).1 (c_pending c))
  | ETick d =>
      if 0 <=? d then Some (mkConfig (set_now (w_now (c_world c) + d) (c_world c)) (c_pending c))
      else None
  | EFire id =>
      match tm_list (w_timers (c_world c)) !! id with
      | Some t =>
          if tm_armed t && (tm_deadline t <=? w_now (c_world c)) then
            Some (mkConfig ((timeout_notify (tm_group t) (fire_timer id (c_world c))).1)
                           (c_pending c ++ [tm_group t]))
          else None
      | None => None
      end
  | EResume i =>
      match c_pending c !! i with
      | Some g => Some (mkConfig ((timeout_resume g (c_world c)).1) (delete i (c_pending c)))
      | None => None
      end
  end.

Fixpoint exec_events (es : list Event) (c : Config) : option Config :=
  match es with
  | [] => Some c
  | e :: es' => match exec_event e c with Some c' => exec_events es' c' | None => None end
  end.

Lemma exec_event_step e c c' :
  exec_event e c = Some c' -> step replace_cancels hand_list c e c'.
Proof.
  destruct e as [g draw|g qq msg|d|id|i]; simpl.
  - intros [= <-]. eapply StepStart. by rewrite <- surjective_pairing.
  - intros [= <-]. eapply StepGuess. by rewrite <- surjective_pairing.
  - destruct (Z.leb_spec 0 d); [intros [= <-]|done]. by constructor.
  - destruct (_ !! id) as [t|] eqn:Ht; [|done].
    destruct (tm_armed t) eqn:Ha, (Z.leb_spec (tm_deadline t) (w_now (c_world c))); try done.
    intros [= <-]. by econstructor.
  - destruct (_ !! i) as [g|] eqn:Hp; [|done]. intros [= <-]. by econstructor.
Qed.

(** Running a list of enabled events from a reachable configuration
    reaches its result. *)
Lemma exec_events_reachable es c c' :
  reachable replace_cancels hand_list c -> exec_events es c = Some c' ->
  reachable replace_cancels hand_list c'.
Proof.
  revert c. induction es as [|e es IH]; intros c Hc; simpl; [by intros [= <-]|].
  destruct (exec_event e c) as [c1|] eqn:He; [|done].
  intros Hrun. apply (IH c1); [|done]. eapply reach_step; [done|]. by apply exec_event_step.
Qed.

End Exec.

(** ** The timeout *)

Section Timeout.
Context `{HandCalculator}.
Variable replace_cancels : bool.
Variable hand_list : list pystr.

Lemma guess_cmd_idle g qq msg w :
  w_proc w !! g = Some default_group -> guess_cmd g qq msg w = (w, inr NoActiveGame).
Proof. intros Hg. unfold guess_cmd, is_start. py_red. by rewrite (status_present _ _ _ Hg). Qed.

(** C21. A due timer ends its game: when an armed timer's deadline has
    passed, it can fire, and once its [timeout] coroutine resumes after
    sending the timeout message to the group, the group is idle and a
    guess there is answered "no active game" without being evaluated. *)
Theorem due_timeout_ends_game c id t qq msg :
  tm_list (w_timers (c_world c)) !! id = Some t -> tm_armed t = true ->
  tm_deadline t <= w_now (c_world c) ->
  exists c1 c2, step replace_cancels hand_list c (EFire id) c1 /\
    step replace_cancels hand_list c1 (EResume (length (c_pending c))) c2 /\
    group_of (c_world c2) (tm_group t) = default_group /\
    guess_cmd (tm_group t) qq msg (c_world c2) = (c_world c2, inr NoActiveGame) /\
    w_sent (c_world c2) = w_sent (c_world c) ++ [tm_group t].
Proof.
  intros Ht Ha Hd. eexists _, _. split; [by econstructor|].
  split; [apply StepResume; simpl; by rewrite lookup_app_r, Nat.sub_diag|].
  unfold timeout_resume, reset_game, set_group, group_of. simpl.
  rewrite lookup_insert_eq. split; [done|]. split; [|done].
  apply guess_cmd_idle. simpl. by rewrite lookup_insert_eq.
Qed.

(** C31. A timeout that runs for an idle group changes no group's state
    but still sends the group the message that its game has timed out
    (the spec asks for a no-op). *)
Theorem timeout_on_idle_group g w :
  group_of w g = default_group ->
  (forall g', group_of (timeout_resume g (timeout_notify g w).1).1 g' = group_of w g') /\
  w_sent (timeout_resume g (timeout_notify g w).1).1 = w_sent w ++ [g].
Proof.
  intros Hg. split; [|done]. intros g'.
  unfold timeout_resume, reset_game, set_group, group_of. simpl.
  destruct (decide (g = g')) as [<-|Hne].
  - rewrite lookup_insert_eq. symmetry. exact Hg.
  - by rewrite lookup_insert_ne.
Qed.

End Timeout.

(** ** The timers of reachable configurations *)

Section TimerEffects.
Context `{HandCalculator}.
Variable replace_cancels : bool.
Variable hand_list : list pystr.

Lemma status_timers g w : w_timers (status g w).1 = w_timers w.
Proof. unfold status. by destruct (w_proc w !! g). Qed.

Lemma guesses_handler_timers g qq msg w :
  w_timers (guesses_handler g qq msg w).1 = w_timers w \/
  w_timers (guesses_handler g qq msg w).1 = cancel_call_later TIMER_NAME (w_timers w).
Proof.
  rewrite guesses_handler_judge. destruct (has_invalid_char msg); [by left|].
  unfold apply_verdict. destruct (judge _ _ _) as [e|[err|rd|rd c]]; [by left|by left|by left|by right].
Qed.

Lemma guess_cmd_timers g qq msg w :
  w_timers (guess_cmd g qq msg w).1 = w_timers w \/
  w_timers (guess_cmd g qq msg w).1 = cancel_call_later TIMER_NAME (w_timers w).
Proof.
  unfold guess_cmd, is_start. py_red.
  rewrite status_run.
  py_red. rewrite <- (status_timers g w).
  destruct (gs_start (group_of w g)); py_red; [|by left].
  destruct (guesses_handler g qq msg (status g w).1) as [w' r] eqn:Hr. simpl.
  pose proof (guesses_handler_timers g qq msg (status g w).1) as Ht. by rewrite Hr in Ht.
Qed.

Lemma start_timers g draw w :
  w_timers (start replace_cancels hand_list g draw w).1 = w_timers w \/
  w_timers (start replace_cancels hand_list g draw w).1 =
    call_later replace_cancels (w_now w) TIMEOUT g TIMER_NAME (w_timers w).
Proof.
  unfold start, is_start, status. py_red.
  destruct (w_proc w !! g) as [st|]; py_red; simpl.
  - destruct (gs_start st); py_red; [by left|].
    destruct (get_hand hand_list None draw); py_red; [by left|by right].
  - destruct (get_hand hand_list None draw); py_red; [by left|by right].
Qed.

End TimerEffects.

Lemma guess_cmd_win_timers `{HandCalculator} g qq msg w w' rd pc :
  guess_cmd g qq msg w = (w', inr (Handled (inr (ROk rd (Some pc))))) ->
  w_timers w' = cancel_call_later TIMER_NAME (w_timers w).
Proof.
  unfold guess_cmd, is_start. py_red. rewrite status_run. py_red.
  destruct (gs_start (group_of w g)); py_red; [|done].
  destruct (guesses_handler g qq msg (status g w).1) as [w1 r] eqn:Hr. intros [= <- ->].
  destruct pc as [p total]. apply handler_win in Hr as (_ & -> & _).
  unfold win_world. simpl. by rewrite <- (status_timers g w).
Qed.

(** With the cancelling registry, every armed timer of a reachable
    configuration is the one last registered under "HandGuessGame". *)
Lemma reachable_armed_named `{HandCalculator} hand_list c :
  reachable true hand_list c -> armed_named TIMER_NAME (w_timers (c_world c)).
Proof.
  induction 1 as [|c e c' Hr IH Hs].
  - intros i t. simpl. by rewrite lookup_nil.
  - inversion Hs as [? g draw w' r Hst|? g qq msg w' r Hg|? d Hd|? id t Ht Ha Hdl|? i g Hp];
      subst; simpl.
    + change w' with (w', r).1. rewrite <- Hst.
      destruct (start_timers true hand_list g draw (c_world c)) as [->| ->]; [done|].
      by apply armed_named_call_later.
    + change w' with (w', r).1. rewrite <- Hg.
      destruct (guess_cmd_timers g qq msg (c_world c)) as [->| ->]; [done|].
      by apply armed_named_cancel.
    + done.
    + by apply armed_named_disarm.
    + done.
Qed.

(** With a registry that cancels the timer registered under a name when
    the name is registered again, at most one timeout is armed in the
    whole bot at any time, however many groups have a game running. *)
Lemma cancelling_registry_one_timeout `{HandCalculator} hand_list c :
  reachable true hand_list c ->
  (length (filter (fun t => tm_armed t = true) (tm_list (w_timers (c_world c)))) <= 1)%nat.
Proof. intros Hr. apply (armed_named_one TIMER_NAME). by apply (reachable_armed_named hand_list). Qed.

(** C22. A win in one group disarms the timeouts of every group: with the
    cancelling registry, after a guess that wins in any reachable
    configuration, no group has an armed timer left, so the game that
    another group is running has lost its timeout (spec 9 gives each
    game its own timeout; the code shares the name "HandGuessGame"). *)
Theorem win_disarms_every_timer `{HandCalculator} hand_list c g qq msg w' rd pc :
  reachable true hand_list c ->
  guess_cmd g qq msg (c_world c) = (w', inr (Handled (inr (ROk rd (Some pc))))) ->
  forall g', armed_for g' (w_timers w') = [].
Proof.
  intros Hr Hw g'. apply armed_for_none. rewrite (guess_cmd_win_timers _ _ _ _ _ _ _ Hw).
  intros i t. apply armed_named_cancel_none. by apply (reachable_armed_named hand_list).
Qed.

(** C27. A timeout that waits at its [await] ends the next game of its
    group: when a group with a suspended timeout is idle, a "start" that
    draws a hand starts a new game, and the suspended timeout, resumed
    next, resets the group, although the new game's own timer is armed
    and not yet due (the spec's timeout ends the game that timed out). *)
Theorem stale_timeout_ends_new_game `{HandCalculator} rc hand_list c i g draw h c1 c2 :
  c_pending c !! i = Some g ->
  gs_start (group_of (c_world c) g) = false ->
  get_hand hand_list None draw = inr h ->
  step rc hand_list c (EStart g draw) c1 ->
  step rc hand_list c1 (EResume i) c2 ->
  gs_start (group_of (c_world c1) g) = true /\
  group_of (c_world c2) g = default_group /\
  exists t, t ∈ armed_for g (w_timers (c_world c2)) /\ w_now (c_world c2) < tm_deadline t.
Proof.
  intros Hp Hs Hh H1 H2.
  destruct (start_idle_run rc hand_list g draw (c_world c) h Hs Hh) as (w' & Hrun & Hg & _ & Ht & _ & Hn).
  inversion H1 as [? ? ? w1 r Hst| | | |]; subst. rewrite Hrun in Hst. injection Hst as <- _.
  inversion H2 as [| | | |? ? g0 Hp0]; subst. simpl in *. rewrite Hp in Hp0. injection Hp0 as <-.
  split; [by rewrite Hg|]. unfold timeout_resume, reset_game, set_group, group_of. simpl.
  rewrite lookup_insert_eq. split; [done|].
  exists (mkTimer g (w_now (c_world c) + TIMEOUT) true). rewrite Ht, Hn.
  split; [apply call_later_armed|]. simpl. unfold TIMEOUT. lia.
Qed.

End Game.
