(* ===== verification/GameSpec.v ===== *)
(** The whole plugin refines the spec's per-group session machine, in
    lockstep.  Every event of [Game.step] is seen by each group as one
    event of the machine ([abs_event]): its own guesses with the outcome
    of their reply, its own starts with the hand they draw, the
    resumption of a timeout coroutine of its own, or nothing.  The
    machine [spec_next] is a function: the group's abstract state
    ([SessionSpec.abs_group]) after the step is determined by the state
    before and that event.  The theorems: every step moves every group
    exactly by [spec_next] (up to [≡]), and a step never lowers a counter
    of a game that is running before and after it. *)

From Stdlib Require Import ZArith Lia.
From stdpp Require Import base list gmap strings.
From S2P Require Import Prelude Unicode Tiles Guess Evaluator Corpus Timers Feedback Session SessionSpec Game.

Open Scope Z_scope.
Local Open Scope py_scope.
Import GuessValidator Evaluator Corpus Timers HandGuess SessionSpec Game.

Module GameSpec.

(** An event as one group sees it, with what the code answered: the
    outcome of a guess read from its reply, and the hand a start draws
    ([None] when [get_hand] raises). *)
Inductive AbsEvent :=
  | AEGuess (qq : Z) (o : Outcome)
  | AEStart (hand : option HandResult)
  | AETimeout
  | AENone.

(** The machine, deterministic: a guess moves by [abs_guess] on its
    outcome; a start activates an idle group with the drawn hand and
    leaves a running game alone; a timeout makes the group idle. *)
Definition spec_next (ev : AbsEvent) (a : AbsGroup) : AbsGroup :=
  match ev with
  | AEGuess qq o => abs_guess a qq o
  | AEStart (Some h) => abs_start a h
  | AEStart None => a
  | AETimeout => AIdle
  | AENone => a
  end.

(** The outcome of the bot's "guess" command: the outcome of the
    handler's reply; no game running, or an exception, is an error. *)
Definition cmd_outcome (r : Res GuessCmdReply) : Outcome :=
  match r with inr (Handled r) => outcome r | _ => OError end.

Definition drawn_hand `{HandCalculator} (hand_list : list pystr) (draw : Z) : option HandResult :=
  match get_hand hand_list None draw with inr h => Some h | inl _ => None end.

Definition abs_event `{HandCalculator} (hand_list : list pystr) (c : Config) (e : Event) (g : Z)
    : AbsEvent :=
  match e with
  | EGuess g' qq msg =>
      if bool_decide (g' = g) then AEGuess qq (cmd_outcome (guess_cmd g' qq msg (c_world c)).2)
      else AENone
  | EStart g' draw => if bool_decide (g' = g) then AEStart (drawn_hand hand_list draw) else AENone
  | EResume i => if bool_decide (c_pending c !! i = Some g) then AETimeout else AENone
  | ETick _ | EFire _ => AENone
  end.

Definition abs_config (c : Config) (g : Z) : AbsGroup := abs_group (group_of (c_world c) g).

(** ** Lemmas on the machine *)

#[export] Instance spec_next_proper ev : Proper ((≡) ==> (≡)) (spec_next ev).
Proof.
  intros a1 a2 Ha. destruct ev as [qq o|[h|]| |]; simpl; try done.
  - by rewrite Ha.
  - by rewrite Ha.
Qed.

Lemma spec_next_active_mono ev h cs h' cs' qq :
  spec_next ev (AActive h cs) ≡ AActive h' cs' -> count cs qq <= count cs' qq.
Proof.
  destruct ev as [qq0 o|[h0|]| |]; simpl; try done; try (intros [_ Hc]; rewrite Hc; lia).
  destruct o; simpl; [intros [_ Hc]; rewrite Hc; lia|..];
    destruct (count cs qq0 <? MAX_GUESS); try done; intros [_ Hc]; rewrite <- Hc; [|lia..].
  rewrite count_insert. case_bool_decide; [subst|]; lia.
Qed.

(** ** What each event does to one group *)

Section Events.
Context `{HandCalculator}.
Variable replace_cancels : bool.
Variable hand_list : list pystr.

Lemma group_of_status g w g' : group_of (status g w).1 g' = group_of w g'.
Proof.
  unfold status, group_of. destruct (w_proc w !! g) eqn:Hg; [done|]. simpl.
  destruct (decide (g = g')) as [<-|Hne].
  - by rewrite lookup_insert_eq, Hg.
  - by rewrite lookup_insert_ne.
Qed.

Lemma start_group_of g draw w g' :
  group_of (start replace_cancels hand_list g draw w).1 g' =
  if bool_decide (g = g') && negb (gs_start (group_of w g)) then
    match get_hand hand_list None draw with
    | inr h => mkGroupState true (Some h) (DefaultDict ∅)
    | inl _ => group_of w g'
    end
  else group_of w g'.
Proof.
  unfold start, is_start, status, group_of. py_red.
  destruct (w_proc w !! g) as [st|] eqn:Hg; py_red; simpl.
  - destruct (gs_start st); py_red; [by rewrite andb_false_r|]. rewrite andb_true_r.
    destruct (get_hand hand_list None draw) as [e|h]; py_red; [by case_bool_decide|].
    unfold set_group, arm_timeout; py_red; simpl.
    case_bool_decide as E; [subst; by rewrite lookup_insert_eq|by rewrite lookup_insert_ne].
  - destruct (get_hand hand_list None draw) as [e|h]; py_red; simpl;
      case_bool_decide as E; try subst g'.
    + by rewrite lookup_insert_eq, Hg.
    + by rewrite lookup_insert_ne.
    + unfold set_group, arm_timeout; py_red; simpl. by rewrite lookup_insert_eq.
    + unfold set_group, arm_timeout; py_red; simpl. by rewrite !lookup_insert_ne.
Qed.

Lemma guess_cmd_abs g qq msg w :
  abs_group (group_of (guess_cmd g qq msg w).1 g) ≡
    abs_guess (abs_group (group_of w g)) qq (cmd_outcome (guess_cmd g qq msg w).2) /\
  forall g', g' <> g -> group_of (guess_cmd g qq msg w).1 g' = group_of w g'.
Proof.
  unfold guess_cmd, is_start. py_red.
  rewrite status_run.
  py_red. set (w0 := (status g w).1).
  assert (Hw0 : forall g', group_of w0 g' = group_of w g') by apply group_of_status.
  destruct (gs_start (group_of w g)) eqn:Hs; py_red.
  - destruct (guesses_handler g qq msg w0) as [w' r] eqn:Hr. simpl.
    destruct (guesses_handler_refines g qq msg w0) as [Ha Ho]. rewrite Hr in Ha, Ho. simpl in *.
    split; [by rewrite Ha, Hw0|]. intros g' Hne. by rewrite Ho, Hw0.
  - split; [by rewrite abs_guess_error, Hw0|]. intros g' _. apply Hw0.
Qed.

(** One step, seen by one group: the transition of the machine on the
    event as the group sees it. *)
Lemma step_abs c e c' g :
  step replace_cancels hand_list c e c' ->
  abs_config c' g ≡ spec_next (abs_event hand_list c e g) (abs_config c g).
Proof.
  unfold abs_config, abs_event. intros Hs.
  inversion Hs as [? g0 draw w' r Hst|? g0 qq msg w' r Hg|? d Hd|? id t Ht Ha Hdl|? i g0 Hp];
    subst; simpl.
  - change w' with (w', r).1. rewrite <- Hst, start_group_of.
    case_bool_decide as E; simpl; [subst g0|done].
    unfold drawn_hand. destruct (gs_start (group_of (c_world c) g)) eqn:Hst0; simpl.
    + unfold abs_group. rewrite Hst0. by destruct (get_hand hand_list None draw).
    + destruct (get_hand hand_list None draw) as [e|h]; [done|].
      unfold abs_group at 2. rewrite Hst0. simpl. split; [done|]. intros qq.
      unfold count. simpl. by rewrite lookup_fmap, !lookup_empty.
  - change w' with (w', r).1. rewrite <- Hg.
    destruct (guess_cmd_abs g0 qq msg (c_world c)) as [Ho Hne].
    case_bool_decide as E; [subst g0; exact Ho|]. simpl. by rewrite Hne.
  - done.
  - done.
  - unfold timeout_resume, reset_game, set_group, group_of. simpl.
    case_bool_decide as E.
    + rewrite Hp in E. injection E as ->. by rewrite lookup_insert_eq.
    + rewrite lookup_insert_ne by (intros ->; done). done.
Qed.

End Events.

(** ** Theorems *)

(** C2. Refinement of the spec's session machine, in lockstep: every
    step of the plugin (commands, clock, timer firings and timeout
    resumptions, in any interleaving) moves each group's state (its
    flag, its hand and the attempt count of every user) exactly as the
    spec's deterministic machine moves on the event as the group sees it:
    a guess in the group by its reply (unchanged on an error, the
    guesser's count plus one on a miss, Idle on a win, and unchanged when
    the guesser has no attempt left), a start by the hand it draws
    (activating an idle group with no attempts, leaving a running game
    alone), a resumed timeout of the group to Idle, any other event not
    at all. *)
Theorem step_refines_spec `{HandCalculator} replace_cancels hand_list c e c' g :
  step replace_cancels hand_list c e c' ->
  abs_config c' g ≡ spec_next (abs_event hand_list c e g) (abs_config c g).
Proof. apply step_abs. Qed.

(** C9. Attempt counters never decrease within a game: a step from any
    configuration after which a group's game that was running is still
    running leaves every user's counter in that group at least as high. *)
Theorem step_counts_monotone `{HandCalculator} replace_cancels hand_list c e c' g qq :
  step replace_cancels hand_list c e c' ->
  gs_start (group_of (c_world c) g) = true -> gs_start (group_of (c_world c') g) = true ->
  count_of (c_world c) g qq <= count_of (c_world c') g qq.
Proof.
  intros Hs H1 H2. pose proof (step_abs _ _ _ _ _ g Hs) as Heq.
  unfold abs_config, abs_group in Heq. rewrite H1, H2 in Heq.
  pose proof (spec_next_active_mono _ _ _ _ _ qq (symmetry Heq)) as Hm.
  unfold count_of. by rewrite !count_abs in Hm.
Qed.

End GameSpec.
