(* ===== verification/Replies.v ===== *)
(** The shape of the data a feedback reply hands to the renderer (spec
    section 6, "renderer contract"): the per-tile classification of the
    13 hand positions and the number of attempts left, which the code
    draws as "剩余{last}回" (line 221).  The theorem: in every reachable
    configuration, every reply of the "guess" command that carries
    feedback is well-formed, 13 entries and an attempt count between 0
    and [MAX_GUESS - 1]; and the colour of the winning tile in every
    such reply, which the code decides by the guessed winning tile's text
    and, when it differs from the secret's, by the last tile of the
    guessed hand (lines 193-200). *)

From Stdlib Require Import ZArith Lia.
From stdpp Require Import base list gmap strings.
From S2P Require Import Prelude Unicode Tiles Guess Evaluator Corpus Timers Feedback Session Game.

Open Scope Z_scope.
Local Open Scope py_scope.
Import TilesConverter GuessValidator Evaluator Corpus Timers TileFeedback HandGuess Game.

Module Replies.

(** A well-formed rendering: one entry per hand position and a number of
    attempts left that the image can show. *)
Definition render_wf (rd : Render) : Prop :=
  length (rd_hand rd) = 13%nat /\ 0 <= rd_last rd < MAX_GUESS.

Section Shape.
Context `{HandCalculator}.

(** A reply with feedback comes from a verdict with that rendering. *)
Lemma handler_verdict g qq msg w w' rd p :
  guesses_handler g qq msg w = (w', inr (ROk rd p)) ->
  has_invalid_char msg = false /\
  ((exists c, judge (group_of w g) qq msg = inr (VWin rd c)) \/
   judge (group_of w g) qq msg = inr (VMiss rd)).
Proof.
  rewrite guesses_handler_judge. destruct (has_invalid_char msg); [done|].
  unfold apply_verdict. intros Hrun. split; [done|].
  destruct (judge _ _ _) as [e|[err|rd'|rd' c]]; try done; injection Hrun as _ <-; eauto.
Qed.

(** What a reply with feedback tells about the world it was computed on. *)
Lemma handler_render g qq msg w w' rd p :
  guesses_handler g qq msg w = (w', inr (ROk rd p)) ->
  length (rd_hand rd) = 13%nat /\ rd_last rd = MAX_GUESS - count_of w g qq - 1 /\
  count_of w g qq < MAX_GUESS.
Proof.
  intros (Hc & Hv)%handler_verdict.
  destruct (judge_feedback _ _ _ _ Hc Hv) as (hand & cur & _ & Hlen & Hfb).
  apply hand_feedback_inr in Hfb. rewrite Hfb, length_imap. unfold count_of.
  destruct Hv as [[c Hj]|Hj]; apply judge_render in Hj as (Hlt & Hlast & _); lia.
Qed.

Lemma guess_cmd_handled g qq msg w w' r :
  guess_cmd g qq msg w = (w', inr (Handled r)) -> guesses_handler g qq msg (status g w).1 = (w', r).
Proof.
  unfold guess_cmd, is_start. py_red.
  rewrite status_run.
  py_red. destruct (gs_start (group_of w g)); py_red; [|done].
  cbn [fst]. destruct (guesses_handler g qq msg (status g w).1). by intros [= -> ->].
Qed.

End Shape.

(** C12. The renderer's input is well-formed in every run: in every
    reachable configuration, whatever the interleaving before it, a
    "guess" command answered with feedback gives one classification per
    hand position (13) and a number of attempts left between 0 and
    [MAX_GUESS - 1]. *)
Theorem guess_reply_wf `{HandCalculator} replace_cancels hand_list c g qq msg w' rd p :
  reachable replace_cancels hand_list c ->
  guess_cmd g qq msg (c_world c) = (w', inr (Handled (inr (ROk rd p)))) ->
  render_wf rd.
Proof.
  intros Hr Hg. apply guess_cmd_handled, handler_render in Hg as (Hlen & Hlast & Hlt).
  pose proof (wf_counts _ g qq (wf_status _ g (reachable_wf_world _ _ _ Hr))) as Hb.
  split; [done|lia].
Qed.

(** C13. The colour of the winning tile in every reply with feedback:
    blue when the guessed winning tile's text (the last two characters of
    the normalised guess) equals the secret's; otherwise it is decided by
    [t], the last tile of the guessed hand and not the winning tile:
    orange when [t] is among the secret's tiles, no colour when it is
    not. *)
Theorem reply_win_color `{HandCalculator} g qq msg w w' rd p msg_hand hand :
  guesses_handler g qq msg w = (w', inr (ROk rd p)) ->
  format_hand_msg msg = inr msg_hand -> gs_hand (group_of w g) = Some hand ->
  exists cur, one_line_string_to_136_array (py_slice msg_hand None (Some (-2))) = inr cur /\
    (py_slice msg_hand (Some (-2)) None = hr_win_tile hand -> (rd_win rd).2 = blue) /\
    (py_slice msg_hand (Some (-2)) None <> hr_win_tile hand ->
     exists t, last cur = Some t /\
       (rd_win rd).2 = if bool_decide (t ∈ hr_tiles hand) then orange else no_color).
Proof.
  intros (_ & Hv)%handler_verdict Hf Hh.
  assert (Hw : exists cur, one_line_string_to_136_array (py_slice msg_hand None (Some (-2))) = inr cur /\
      win_feedback (py_slice msg_hand (Some (-2)) None) (hr_win_tile hand) (hr_tiles hand)
        (last cur) = inr (rd_win rd).2)
    by (destruct Hv as [[c Hj]|Hj]; exact (judge_win_color _ _ _ _ _ _ Hj Hf Hh)).
  destruct Hw as (cur & Hcur & Hwf). exists cur. split; [done|].
  unfold win_feedback, py_in in Hwf. case_bool_decide as E; split; intros; try done.
  - by simplify_eq.
  - destruct (last cur) as [t|]; [|done]. exists t. split; [done|].
    by case_bool_decide; simplify_eq.
Qed.

End Replies.
