(* ===== verification/Texts.v ===== *)
(** The texts the plugin sends and draws, as code points: the [msg] of
    the [dict] that [guesses_handler] returns (the error messages of
    lines 140-164, the win message that [win_game] formats on line 135,
    the empty [ret_msg] of a miss, lines 239-245), and the three lines of
    text drawn on the feedback image: the attempts left (line 221), the
    yaku hint (line 205) and the value of the hand (lines 214-215).  The
    f-strings format numbers with [str(n)] ([py_str_Z], read back by
    [Decimal.py_int]).  The theorem: the message of a winning reply
    reads back as the points credited and the user's new total in the
    ledger.  The pixels (PIL) are not modelled; the answer that [start]
    prints on the console (line 102) is [start_log]. *)

From Stdlib Require Import ZArith Lia.
From stdpp Require Import base list gmap strings.
From S2P Require Import Prelude Unicode Tiles Decimal Guess Evaluator Corpus Timers Feedback Session Replies.

Open Scope Z_scope.
Import TilesConverter Decimal Evaluator Corpus HandGuess Replies.

Module Texts.

(** ** The messages of the reply *)

(** "你已经没有次数了!" (line 143) *)
Definition txt_no_guesses : pystr := [20320; 24050; 32463; 27809; 26377; 27425; 25968; 20102; 33].
(** "不是, 说好的14张牌呢" (line 150) *)
Definition txt_not14 : pystr :=
  [19981; 26159; 44; 32; 35828; 22909; 30340; 49; 52; 24352; 29260; 21602].
(** "你这牌都没胡啊" (line 162) *)
Definition txt_no_win : pystr := [20320; 36825; 29260; 37117; 27809; 32993; 21834].
(** "你无役了" (line 164) *)
Definition txt_no_yaku : pystr := [20320; 26080; 24441; 20102].

(** The [msg] of each error [dict]; a bad character gets [msg=""]. *)
Definition error_text (e : GuessError) : pystr :=
  match e with
  | ErrBadChar => []
  | ErrNoGuesses => txt_no_guesses
  | ErrNot14 => txt_not14
  | ErrNoWin => txt_no_win
  | ErrNoYaku => txt_no_yaku
  end.

(** "恭喜你, 猜对了, 积分增加 " and " 点, 当前积分 ". *)
Definition win_pre : pystr :=
  [24685; 21916; 20320; 44; 32; 29468; 23545; 20102; 44; 32; 31215; 20998; 22686; 21152; 32].
Definition win_mid : pystr := [32; 28857; 44; 32; 24403; 21069; 31215; 20998; 32].

(** [f"恭喜你, 猜对了, 积分增加 {points} 点, 当前积分 {user.points}"]. *)
Definition win_text (points total : Z) : pystr :=
  win_pre ++ py_str_Z points ++ win_mid ++ py_str_Z total.

(** The [error] flag and the [msg] of the returned [dict]: [ret_msg] is
    [""] on a miss and the win message on a win. *)
Definition reply_dict (r : Reply) : bool * pystr :=
  match r with
  | RError e => (true, error_text e)
  | ROk _ None => (false, [])
  | ROk _ (Some (p, total)) => (false, win_text p total)
  end.

(** The [dict] [start] returns: [dict(error=True, msg="当前游戏已经开始")]
    on a running game (line 95), [dict(error=False)] otherwise. *)
Definition start_dict (r : StartReply) : bool * pystr :=
  match r with
  | StartAlready => (true, [24403; 21069; 28216; 25103; 24050; 32463; 24320; 22987])
  | StartOk => (false, [])
  end.

(** The message [timeout] sends to the group (line 90):
    "游戏已超时, 请重新开始". *)
Definition timeout_text : pystr :=
  [28216; 25103; 24050; 36229; 26102; 44; 32; 35831; 37325; 26032; 24320; 22987].

(** ** The text drawn on the image *)

(** An optional int in an f-string: [None] prints as "None". *)
Definition py_str_opt (o : option Z) : pystr :=
  match o with Some n => py_str_Z n | None => u "None" end.

(** [sep.join(l)]. *)
Definition py_join (sep : pystr) (l : list pystr) : pystr :=
  match l with [] => [] | x :: xs => x ++ flat_map (fun y => sep ++ y) xs end.

(** [tip = "提示: " + " ".join([x.japanese for x in yaku])] (line 205). *)
Definition tip_text (names : list pystr) : pystr := [25552; 31034; 58; 32] ++ py_join [32] names.

(** [tsumo_tip = ("", ",自摸")[tsumo]] (line 214). *)
Definition tsumo_tip (tsumo : bool) : pystr := if tsumo then [44; 33258; 25720] else [].

(** [f"{status_han}番{status_fu}符 {status_cost}点 (包括立直{tsumo_tip})"] (line 215). *)
Definition han_tip (rd : Render) : pystr :=
  py_str_opt (rd_han rd) ++ [30058] ++ py_str_opt (rd_fu rd) ++ [31526; 32] ++
  py_str_Z (rd_cost rd) ++ [28857; 32; 40; 21253; 25324; 31435; 30452] ++
  tsumo_tip (rd_tsumo rd) ++ [41].

(** [f"剩余{last}回"] (line 221). *)
Definition last_text (last : Z) : pystr := [21097; 20313] ++ py_str_Z last ++ [22238].

(** The three lines of text of the image, top left, top right, middle. *)
Definition image_texts (rd : Render) : list pystr := [last_text (rd_last rd); tip_text (rd_tip rd); han_tip rd].

(** ** The console *)

(** [print(TC.to_one_line_string(hand_res.tiles) + hand_res.win_tile)]
    (line 102): the answer [start] prints when a game starts. *)
Definition start_log (hand_res : HandResult) : pystr :=
  to_one_line_string (hr_tiles hand_res) ++ hr_win_tile hand_res.

(** ** Reading the win message *)

Fixpoint strip_prefix (p s : pystr) : option pystr :=
  match p, s with
  | [], _ => Some s
  | c :: p', d :: s' => if c =? d then strip_prefix p' s' else None
  | _ :: _, [] => None
  end.

(** The longest prefix of characters of a number. *)
Fixpoint span_num (s : pystr) : pystr * pystr :=
  match s with
  | c :: s' => if num_char c then let '(a, b) := span_num s' in (c :: a, b) else ([], s)
  | [] => ([], [])
  end.

(** The points and the total a win message announces. *)
Definition parse_win_text (s : pystr) : option (Z * Z) :=
  r ← strip_prefix win_pre s;
  let '(a, r2) := span_num r in
  r3 ← strip_prefix win_mid r2;
  p ← py_int a;
  t ← py_int r3;
  Some (p, t).

Lemma strip_prefix_app p s : strip_prefix p (p ++ s) = Some s.
Proof. induction p as [|c p IH]; simpl; [done|]. by rewrite Z.eqb_refl. Qed.

Lemma span_num_app a b :
  Forall (fun c => num_char c = true) a -> (forall c b', b = c :: b' -> num_char c = false) ->
  span_num (a ++ b) = (a, b).
Proof.
  intros Ha Hb. induction Ha as [|c a Hc _ IH]; cbn [app span_num].
  - destruct b as [|c b']; [done|]. cbn [span_num]. by rewrite (Hb c b').
  - by rewrite Hc, IH.
Qed.

Lemma parse_win_text_correct p t : parse_win_text (win_text p t) = Some (p, t).
Proof.
  unfold parse_win_text, win_text. rewrite strip_prefix_app.
  cbn -[strip_prefix py_int span_num py_str_Z win_mid].
  rewrite span_num_app by (apply py_str_chars || (intros c b' [= <- _]; done)).
  rewrite strip_prefix_app. cbn -[py_int py_str_Z]. by rewrite !py_int_str.
Qed.

(** The attempts-left line of a well-formed rendering shows one digit. *)
Lemma last_text_digit rd :
  render_wf rd -> exists d, 0 <= d <= 5 /\ last_text (rd_last rd) = [21097; 20313; 48 + d; 22238].
Proof.
  intros [_ Hb]. exists (rd_last rd). split; [unfold MAX_GUESS in Hb; lia|].
  unfold last_text, py_str_Z. rewrite Z.abs_eq by lia.
  replace (rd_last rd <? 0) with false by (symmetry; apply Z.ltb_ge; lia).
  cbn [app digits_rev]. by replace (rd_last rd <? 10) with true
    by (symmetry; apply Z.ltb_lt; unfold MAX_GUESS in Hb; lia).
Qed.

(** C14. The win message reads back as what the ledger holds: when
    [guesses_handler] answers with a win, the [msg] of its [dict] is a
    text that the decoder reads as the points credited and the user's
    total in the ledger afterwards, which is the total before plus
    those points. *)
Theorem win_message_roundtrip `{HandCalculator} g qq msg w w' rd p total :
  guesses_handler g qq msg w = (w', inr (ROk rd (Some (p, total)))) ->
  parse_win_text (reply_dict (ROk rd (Some (p, total)))).2 =
    Some (p, default 0 (w_points w' !! qq)) /\
  default 0 (w_points w' !! qq) = default 0 (w_points w !! qq) + p.
Proof.
  intros (_ & -> & ->)%handler_win. unfold win_world. simpl.
  rewrite lookup_insert_eq. simpl. split; [|done]. apply parse_win_text_correct.
Qed.

End Texts.
