(* ===== verification/Scenario.v ===== *)
(** Concrete runs of the plugin: the scenario of the spec (section 8), a
    secret hand [1m..9m 1p1p1p 2p] won on [3p] by discard, served from a
    one-line corpus, with a scorer answering from a table that knows this
    hand (in any order of its tiles: it is [KindInvariant]).  The lemmas
    run the model on it where the code departs from the spec (a permuted
    guess does not win; six guesses are answered; the winning-tile
    colour reads the last hand tile) and on the runs behind the timer
    findings (a game left without a timeout; a stale timeout resetting a
    newer game), as concrete instances of the general theorems of the
    other files; [Witnesses] uses its definitions. *)

From Stdlib Require Import ZArith Lia Permutation.
From stdpp Require Import base list gmap strings sets.
From S2P Require Import Prelude Unicode Tiles Guess Evaluator Corpus Timers Feedback Session Game Texts.

Open Scope Z_scope.
Local Open Scope py_scope.
Import TilesConverter GuessValidator Evaluator Corpus Timers TileFeedback HandGuess Game Texts.

Module Scenario.

(** The secret of the spec's scenario as a corpus line. *)
Definition secret_tiles : pystr := u "1m2m3m4m5m6m7m8m9m1p1p1p2p".
Definition secret_line : pystr := corpus_line secret_tiles false (u "3p") (u "abc").
Definition hand_list : list pystr := [secret_line].

(** The scorer's answer for that hand: 3 han 40 fu, 5200 points, riichi
    and ittsu. *)
Definition secret_response : HandResponse :=
  mkHandResponse (Some 3) (Some 40) (Some (5200, 0))
    (Some [mkYaku 1 (u "Riichi"); mkYaku 10 (u "Ittsu")]).

(** The value of [123456789m 11p 222p] won on 2p: riichi and ittsu. *)
Definition pung_response : HandResponse :=
  mkHandResponse (Some 3) (Some 40) (Some (5200, 0))
    (Some [mkYaku 1 (u "Riichi"); mkYaku 10 (u "Ittsu")]).

#[local] Instance calc : HandCalculator :=
  table_calculator
    [([0; 1; 2; 3; 4; 5; 6; 7; 8; 9; 9; 9; 10; 11], 11, false, secret_response);
     ([0; 1; 2; 3; 4; 5; 6; 7; 8; 9; 9; 9; 10; 11], 10, false, secret_response);
     ([0; 1; 2; 3; 4; 5; 6; 7; 8; 9; 9; 10; 10; 10], 10, false, pung_response)].

Definition group_a : Z := 5.
Definition group_b : Z := 6.
Definition player : Z := 77.

(** The exact secret, typed in notation and in glyphs. *)
Definition exact_guess : pystr := u "123456789m1112p3p".
(** The secret with its 2p swapped for 9p, as in the spec's scenario. *)
Definition nine_p_guess : pystr := u "123456789m1119p3p".
(** Fourteen tiles followed by two suit letters. *)
Definition two_letter_guess : pystr := u "12345678912345mp".
(** A complete hand with two 2p in the hand part and a third as the
    winning tile. *)
Definition two_copy_guess : pystr := u "123456789m1122p2p".
(** The same tiles with 1m and 2m swapped. *)
Definition swapped_guess : pystr := u "213456789m1112p3p".

(** The same fourteen tiles with 2p as the winning tile: the scorer
    knows this reading too (an 1m..9m 1p1p1p 3p wait on 2p). *)
Definition other_wait_guess : pystr := u "123456789m1113p2p".

(** The world after "start" in group A. *)
Definition started (rc : bool) : World := (start rc hand_list group_a 0 init_world).1.

(** [n] further guesses of [msg] by [player] in group A. *)
Definition guess_times (n : nat) (msg : pystr) (w : World) : World :=
  Nat.iter n (fun w => (guesses_handler group_a player msg w).1) w.

(** Runs of the bot from the initial configuration. *)
Definition run (rc : bool) (es : list Event) : option Config :=
  exec_events rc hand_list es init_config.

Definition final (rc : bool) (es : list Event) : Config := default init_config (run rc es).

(** A win in group A while a game also runs in group B. *)
Definition two_games : list Event :=
  [EStart group_a 0; EStart group_b 0; EGuess group_a player exact_guess].

(** A game whose timeout fires and suspends on its notification; meanwhile
    it is won and started again. *)
Definition restart_during_timeout : list Event :=
  [EStart group_a 0; ETick TIMEOUT; EFire 0; EGuess group_a player exact_guess;
   EStart group_a 0].

(** The configuration after the suspended timeout resumes. *)
Definition resumed (rc : bool) : Config :=
  let c := final rc restart_during_timeout in default c (exec_event rc hand_list (EResume 0) c).

(** With a registry that keeps a timer registered under a reused name:
    group A's win cancels group B's timer and not its own, which then
    fires on the idle group A (after [TIMEOUT] seconds). *)
Definition own_timer_outlives_win : list Event := two_games ++ [ETick TIMEOUT].

(** The same, with group A starting a new game before the timer fires. *)
Definition restart_after_win : list Event := two_games ++ [EStart group_a 0].

Lemma run_reachable rc es c : run rc es = Some c -> reachable rc hand_list c.
Proof. apply exec_events_reachable, reach_init. Qed.

Lemma final_reachable rc es : is_Some (run rc es) -> reachable rc hand_list (final rc es).
Proof. intros [c Hc]. unfold final. rewrite Hc. by apply (run_reachable rc es). Qed.

(** The console line printed by "start" in group A (line 102) is the
    text of the exact guess: the corpus writes the secret's tiles in
    sorted order, and [to_one_line_string] sorts. *)
Lemma scenario_start_log :
  option_map start_log (gs_hand (group_of (started false) group_a)) = Some exact_guess.
Proof. by vm_compute. Qed.

(** ** Behaviour of the code on the scenario *)

(** A win in one group cancels the timeout of the game running in
    another: [win_game] cancels the timer registered under the name
    [TIMER_NAME], which every group shares, so after group A's win the
    game of group B is still running with no timer armed for it, whatever
    the registry does with a name registered twice. *)
Theorem timer_name_collision (rc : bool) :
  exists c, reachable rc hand_list c /\
    gs_start (group_of (c_world c) group_b) = true /\
    armed_for group_b (w_timers (c_world c)) = [].
Proof.
  exists (final rc two_games).
  split; [apply final_reachable; by destruct rc|]. by destruct rc; vm_compute.
Qed.

(** A timeout that is suspended on its notification when its game is
    won and restarted resets the new game on resuming: the group becomes
    idle while the new game's timer is still armed and not due. *)
Theorem stale_timeout_resets_new_game (rc : bool) :
  exists c c', reachable rc hand_list c /\ step rc hand_list c (EResume 0) c' /\
    gs_start (group_of (c_world c) group_a) = true /\
    gs_start (group_of (c_world c') group_a) = false /\
    exists t, t ∈ armed_for group_a (w_timers (c_world c')) /\
      w_now (c_world c') < tm_deadline t.
Proof.
  exists (final rc restart_during_timeout), (resumed rc). split; [|split].
  - apply final_reachable. by destruct rc.
  - apply exec_event_step. by destruct rc; vm_compute.
  - destruct rc; vm_compute; (split; [done|split; [done|]]);
      (eexists; split; [by left|]); reflexivity.
Qed.

(** A guess wins only when its tiles are typed in the secret's
    order: [is_win] compares the 136-arrays as lists.  Typing the secret
    with 1m and 2m swapped converts to a permutation of the same tiles,
    which the scorer values as the same hand, and yet the guess is a miss
    with feedback while the exact text wins the 5200 points. *)
Theorem permuted_guess_does_not_win (rc : bool) :
  exists t1 t2, one_line_string_to_136_array exact_guess = inr t1 /\
    one_line_string_to_136_array swapped_guess = inr t2 /\ t1 ≡ₚ t2 /\ t1 <> t2 /\
    (exists w rd, guesses_handler group_a player exact_guess (started rc) =
                  (w, inr (ROk rd (Some (5200, 5200))))) /\
    (exists w rd, guesses_handler group_a player swapped_guess (started rc) =
                  (w, inr (ROk rd None))).
Proof.
  do 2 eexists. split; [vm_compute; reflexivity|]. split; [vm_compute; reflexivity|].
  split; [apply (bool_decide_unpack _); vm_compute; reflexivity|].
  split; [vm_compute; discriminate|].
  by destruct rc; vm_compute; split; eexists _, _.
Qed.

(** With [MAX_GUESS = 6] a user gets six guesses that are answered:
    the fifth miss shows 1 attempt left, the sixth shows 0, and only the
    seventh guess is refused with the exhausted-attempts error. *)
Theorem guess_limit_scenario (rc : bool) :
  (exists w rd, guesses_handler group_a player swapped_guess
                  (guess_times 4 swapped_guess (started rc)) = (w, inr (ROk rd None)) /\
                rd_last rd = 1) /\
  (exists w rd, guesses_handler group_a player swapped_guess
                  (guess_times 5 swapped_guess (started rc)) = (w, inr (ROk rd None)) /\
                rd_last rd = 0) /\
  (guesses_handler group_a player swapped_guess (guess_times 6 swapped_guess (started rc))).2
    = inr (RError ErrNoGuesses).
Proof.
  destruct rc; vm_compute;
    (split; [eexists _, _; split; reflexivity|split; [eexists _, _; split; reflexivity|reflexivity]]).
Qed.

(** The colour of the guessed winning tile, when its text differs
    from the secret's, is decided by the last guessed hand tile (the loop
    variable [tile] left from the hand loop), not by the winning tile:
    guessing the secret's tiles with 2p as the winning tile, where 2p is
    in the secret hand, draws the winning tile without colour, since the
    last hand tile 3p is not in the secret hand. *)
Theorem win_color_reads_last_hand_tile (rc : bool) :
  exists w rd, guesses_handler group_a player other_wait_guess (started rc) =
               (w, inr (ROk rd None)) /\
    rd_win rd = (40, no_color) /\
    40 ∈ hr_tiles (default (mkHandResult [] [] false no_win 0) (gs_hand (group_of (started rc) group_a))).
Proof.
  destruct rc; vm_compute; (eexists _, _; split; [reflexivity|split; [reflexivity|]]);
    apply list_elem_of_In; simpl; tauto.
Qed.

(** The spec's scenario with the secret's 2p swapped for 9p: the
    code asks the scorer first, and since [1m..9m 1p1p1p 9p 3p] is no
    winning hand the guess gets the no-win error and no feedback at all
    (the spec expects feedback marking the swapped position). *)
Theorem nine_p_swap_no_feedback (rc : bool) :
  han (estimate_hand_value [0; 4; 8; 12; 16; 20; 24; 28; 32; 36; 37; 38; 68; 44] 44
         (mkHandConfig true false)) = None /\
  exists w, guesses_handler group_a player nine_p_guess (started rc) = (w, inr (RError ErrNoWin)).
Proof. split; [by vm_compute|]. by destruct rc; vm_compute; eexists. Qed.

(** A guess of fourteen tiles that ends in two suit letters passes
    the 14-tile check, but its last two characters convert to no tile and
    [TC.one_line_string_to_136_array(msg_win_tile)[0]] raises
    [IndexError] (line 152) instead of an error reply. *)
Theorem two_letter_guess_raises (rc : bool) :
  (exists h l, format_hand_msg two_letter_guess = inr h /\
     one_line_string_to_136_array h = inr l /\ length l = 14%nat) /\
  exists w, guesses_handler group_a player two_letter_guess (started rc) = (w, inl IndexError).
Proof.
  split.
  - eexists _, _. split; [vm_compute; reflexivity|]. split; [vm_compute; reflexivity|reflexivity].
  - by destruct rc; vm_compute; eexists.
Qed.

(** With a registry that does not cancel a timer when its name is
    registered again, a group's win cancels the other group's timer and
    leaves its own armed: the timer then fires on the idle group and the
    timeout message is sent to it. *)
Theorem stale_timer_fires_on_idle_group :
  exists c c', reachable false hand_list c /\ step false hand_list c (EFire 0) c' /\
    group_of (c_world c) group_a = default_group /\
    w_sent (c_world c') = w_sent (c_world c) ++ [group_a].
Proof.
  exists (final false own_timer_outlives_win).
  exists (default (final false own_timer_outlives_win)
            (exec_event false hand_list (EFire 0) (final false own_timer_outlives_win))).
  split; [apply final_reachable; vm_compute; by eexists|].
  split; [apply exec_event_step; by vm_compute|]. by vm_compute.
Qed.

(** Under the same registry, a group that wins and starts a new game
    has two armed timeouts for that game, its own from before the win
    and the new one; the spec allows one. *)
Theorem restart_keeps_old_timer :
  exists c, reachable false hand_list c /\
    gs_start (group_of (c_world c) group_a) = true /\
    length (armed_for group_a (w_timers (c_world c))) = 2%nat.
Proof.
  exists (final false restart_after_win).
  split; [apply final_reachable; vm_compute; by eexists|]. by vm_compute.
Qed.

(** The filter of line 139 is [\d], which admits the digit 0 and
    every Unicode decimal digit, not only 1-9: "0p" and the
    Arabic-Indic one followed by "m" pass it, and the converter reads
    "0p" as 9m (index 32, the tile before 1p) and the Arabic-Indic one
    as 1m.  Nor does anything before the converter bound the honour
    digits or the copies: "8z" passes and is read as index 136, past the
    136 tiles, and a fifth 1m is read as index 4, the first 2m, so that
    "11111m2m" gives index 4 twice. *)
Theorem digit_filter_admits_zero :
  has_invalid_char (u "0p") = false /\ one_line_string_to_136_array (u "0p") = inr [32] /\
  has_invalid_char [1633; 109] = false /\ one_line_string_to_136_array [1633; 109] = inr [0] /\
  has_invalid_char (u "8z") = false /\ one_line_string_to_136_array (u "8z") = inr [136] /\
  has_invalid_char (u "11111m2m") = false /\
  one_line_string_to_136_array (u "11111m2m") = inr [0; 1; 2; 3; 4; 4].
Proof. by vm_compute. Qed.

(** Tiles are compared by their 136-index, which numbers the copies
    of a kind in the order they are typed: the guess [123456789m 1122p]
    won on 2p has at position 12 its second 2p (index 41), the secret
    hand has its only 2p (index 40) at that position, and the position is
    drawn without colour, although it holds the right tile (the spec
    compares tiles, and calls it Correct). *)
Theorem copy_index_hides_correct_tile (rc : bool) :
  exists w rd, guesses_handler group_a player two_copy_guess (started rc) =
               (w, inr (ROk rd None)) /\
    rd_hand rd !! 12%nat = Some (41, no_color) /\ tile_kind 41 = tile_kind 40 /\
    hr_tiles (default (mkHandResult [] [] false no_win 0) (gs_hand (group_of (started rc) group_a)))
      !! 12%nat = Some 40.
Proof.
  destruct rc; vm_compute; (eexists _, _; split; [reflexivity|]); repeat split.
Qed.

End Scenario.
