(* ===== verification/Witnesses.v ===== *)
(** Instances of the general theorems at concrete inputs of the spec's
    scenario ([Scenario]): each lemma applies one theorem to a concrete
    world, guess or corpus, its hypotheses discharged by evaluating the
    model, which shows that the hypotheses can be met together. *)

From Stdlib Require Import ZArith Lia Permutation.
From stdpp Require Import base list gmap strings sets sorting.
From S2P Require Import Prelude Unicode Tiles TilesSpec Guess Evaluator Corpus Timers Feedback Session Interleave SessionSpec Game GameSpec Replies Texts Scenario.

Open Scope Z_scope.
Local Open Scope py_scope.
Import TilesConverter TilesSpec GuessValidator Evaluator Corpus Timers TileFeedback HandGuess SessionSpec Game GameSpec Replies Texts Interleave Scenario.

Module Witnesses.

#[local] Existing Instance calc.

(** Introduce the value [t] evaluates to (a right injection unwrapped). *)
Local Ltac exists_value t :=
  let v := eval vm_compute in t in
  lazymatch v with
  | inr (VWin ?rd ?c) => exists rd, c
  | (?w, inr (ROk ?rd _)) => exists w, rd
  | (?w, inr (Handled (inr (ROk ?rd ?p)))) => exists w, rd, p
  | (?w, _) => exists w
  | inr ?x => exists x
  | Some ?x => exists x
  end.

(** A closed equation or boolean test, by evaluation. *)
Local Ltac by_eval := first [vm_compute; reflexivity | discriminate | lia].

(** Prove the first conjunct by evaluation and keep it as [H]. *)
Local Ltac split_eval H :=
  lazymatch goal with |- ?A /\ _ => assert (H : A) by by_eval; split; [exact H|] end.

(** The world in which [player] has made six counted guesses. *)
Definition exhausted_world : World := guess_times 6 swapped_guess (started false).

Lemma guess_exhausted_witness :
  has_invalid_char swapped_guess = false /\
  MAX_GUESS <= count_of exhausted_world group_a player /\
  guesses_handler group_a player swapped_guess exhausted_world =
    (exhausted_world, inr (RError ErrNoGuesses)).
Proof.
  assert (H1 : has_invalid_char swapped_guess = false) by by_eval.
  assert (H2 : MAX_GUESS <= count_of exhausted_world group_a player)
    by (apply Z.leb_le; by_eval).
  split; [done|split; [done|]]. exact (guess_exhausted _ _ _ _ H1 H2).
Defined.

Lemma guess_hand_has_13_tiles_witness :
  exists l, one_line_string_to_136_array exact_guess = inr l /\ length l = 14%nat /\
    exists l', one_line_string_to_136_array (py_slice exact_guess None (Some (-2))) = inr l' /\
               length l' = 13%nat.
Proof.
  exists_value (one_line_string_to_136_array exact_guess).
  assert (H1 : has_invalid_char exact_guess = false) by by_eval.
  assert (H2 : format_hand_msg exact_guess = inr exact_guess) by by_eval.
  assert (H3 : one_line_string_to_136_array exact_guess =
               inr [0; 4; 8; 12; 16; 20; 24; 28; 32; 36; 37; 38; 40; 44]) by by_eval.
  assert (H4 : one_line_string_to_136_array (py_slice exact_guess (Some (-2)) None) = inr [44])
    by by_eval.
  split; [exact H3|split; [done|]].
  exact (guess_hand_has_13_tiles _ _ _ _ _ H1 H2 H3 eq_refl H4).
Defined.

Lemma guess_win_resets_witness :
  exists w' rd, guesses_handler group_a player exact_guess (started false) =
                (w', inr (ROk rd (Some (5200, 5200)))) /\
    group_of w' group_a = default_group /\
    w_timers w' = cancel_call_later TIMER_NAME (w_timers (started false)) /\
    (exists hand main additional, gs_hand (group_of (started false) group_a) = Some hand /\
       cost (hr_result hand) = Some (main, additional) /\ 5200 = main + additional) /\
    5200 = default 0 (w_points (started false) !! player) + 5200 /\
    w_points w' !! player = Some 5200.
Proof.
  exists_value (guesses_handler group_a player exact_guess (started false)).
  split_eval H. exact (guess_win_resets _ _ _ _ _ _ _ _ H).
Defined.

Lemma hand_feedback_colors_witness :
  hand_feedback [0; 4; 8; 12; 16; 20; 24; 28; 32; 36; 37; 38; 40]
                [4; 0; 8; 12; 16; 20; 24; 28; 32; 36; 37; 38; 44] =
  inr (imap (fun i t => (t, expected_color [0; 4; 8; 12; 16; 20; 24; 28; 32; 36; 37; 38; 40] i t))
            [4; 0; 8; 12; 16; 20; 24; 28; 32; 36; 37; 38; 44]).
Proof. apply hand_feedback_colors. simpl. lia. Defined.

(** A guess of three tiles: [ErrNot14], after the counter was read. *)
Lemma guess_error_keeps_session_witness :
  exists w', guesses_handler group_a player (u "123m") (started false) =
             (w', inr (RError ErrNot14)) /\
    count_of w' group_a player = count_of (started false) group_a player /\
    w_timers w' = w_timers (started false).
Proof.
  exists_value (guesses_handler group_a player (u "123m") (started false)).
  split_eval H.
  assert (Hr : forall rd p, @inr PyExc Reply (RError ErrNot14) <> inr (ROk rd p))
    by (intros; discriminate).
  destruct (guess_error_keeps_session _ _ _ _ _ _ H Hr group_a player) as (? & _ & _ & ? & _).
  by split.
Defined.

Lemma guess_miss_counts_witness :
  exists w' rd, guesses_handler group_a player swapped_guess (started false) =
                (w', inr (ROk rd None)) /\
    rd_last rd = MAX_GUESS - count_of (started false) group_a player - 1 /\
    count_of w' group_a player = count_of (started false) group_a player + 1.
Proof.
  exists_value (guesses_handler group_a player swapped_guess (started false)).
  split_eval H. destruct (guess_miss_counts _ _ _ _ _ _ H) as (_ & ? & ? & _). by split.
Defined.

Lemma get_hand_corpus_line_witness :
  exists ts tw, get_hand [secret_line; secret_line] (Some 1) 0 =
    inr (mkHandResult ts (u "3p") false (estimate_hand_value tw 44 (mkHandConfig true false)) 1).
Proof.
  exists_value (one_line_string_to_136_array secret_tiles).
  exists_value (one_line_string_to_136_array (secret_tiles ++ u "3p")).
  apply (get_hand_corpus_line _ 1 0 secret_tiles false (u "3p") (u "abc") 49 99 _ _ 44 []);
    first [by_eval | apply (bool_decide_unpack _); by_eval].
Defined.

Lemma start_when_active_witness :
  start false hand_list group_a 0 (started false) = (started false, inr StartAlready).
Proof. apply start_when_active. by_eval. Defined.

Lemma start_when_idle_witness :
  exists h w', start false hand_list group_a 0 init_world = (w', inr StartOk) /\
    group_of w' group_a = mkGroupState true (Some h) (DefaultDict ∅) /\
    w_timers w' = call_later false 0 TIMEOUT group_a TIMER_NAME empty_reg.
Proof.
  exists_value (get_hand hand_list None 0).
  edestruct (start_when_idle false hand_list group_a 0 init_world) as (w' & H1 & H2 & _ & H3 & _);
    [by_eval|by_eval|].
  by exists w'.
Defined.

Lemma judge_win_exact_witness :
  exists rd c hand, judge (group_of (started false) group_a) player exact_guess = inr (VWin rd c) /\
    gs_hand (group_of (started false) group_a) = Some hand /\
    exists msg_hand msg_tiles t ws h,
      format_hand_msg exact_guess = inr msg_hand /\
      one_line_string_to_136_array msg_hand = inr msg_tiles /\
      one_line_string_to_136_array (py_slice msg_hand None (Some (-2))) = inr (hr_tiles hand) /\
      one_line_string_to_136_array (py_slice msg_hand (Some (-2)) None) = inr (t :: ws) /\
      one_line_string_to_136_array (hr_win_tile hand) = inr [t] /\
      han (estimate_hand_value msg_tiles t (mkHandConfig true (hr_tsumo hand))) = Some h /\ h <> 0.
Proof.
  exists_value (judge (group_of (started false) group_a) player exact_guess).
  exists_value (gs_hand (group_of (started false) group_a)).
  split_eval H. split_eval Hh. eapply judge_win_exact; [exact Hh|by_eval|by_eval|exact H].
Defined.

Lemma reachable_wf_witness :
  wf_world (c_world (final true restart_during_timeout)) /\
  forall g qq, 0 <= count_of (c_world (final true restart_during_timeout)) g qq <= MAX_GUESS.
Proof.
  apply (reachable_wf true hand_list). apply final_reachable. vm_compute. by eexists.
Defined.

Lemma guess_on_idle_group_raises_witness :
  guesses_handler group_b player exact_guess (started false) =
  (touch_user group_b player (started false), inl KeyError).
Proof. apply guess_on_idle_group_raises; by_eval. Defined.

(** "123456789m111235p": the last hand tile 3 is moved before the
    winning tile 5p. *)
Lemma format_hand_msg_same_tiles_witness :
  exists h, format_hand_msg (u "123456789m111235p") = inr h /\
    one_line_string_to_136_array h =
    one_line_string_to_136_array (u "123456789m1112" ++ [51; 53; 112]).
Proof. apply format_hand_msg_same_tiles; by_eval. Defined.

Lemma reply_feedback_exact_witness :
  exists w' rd, guesses_handler group_a player swapped_guess (started false) =
                (w', inr (ROk rd None)) /\
    exists hand, gs_hand (group_of (started false) group_a) = Some hand /\
      length (rd_hand rd) = 13%nat /\
      forall i t c, rd_hand rd !! i = Some (t, c) -> (c = blue <-> hr_tiles hand !! i = Some t).
Proof.
  exists_value (guesses_handler group_a player swapped_guess (started false)).
  split_eval H. exact (reply_feedback_exact _ _ _ _ _ _ _ H).
Defined.

Lemma guess_wrong_count_witness :
  guesses_handler group_a player (u "123m") (started false) =
  (touch_user group_a player (started false), inr (RError ErrNot14)).
Proof. eapply (guess_wrong_count _ _ _ _ ∅); by_eval. Defined.

(** A miss in a running game. *)
Definition game_a : Config := final false [EStart group_a 0].
Definition after_miss : Config :=
  default game_a (exec_event false hand_list (EGuess group_a player swapped_guess) game_a).

Lemma step_refines_spec_witness :
  abs_config after_miss group_a ≡
    spec_next (abs_event hand_list game_a (EGuess group_a player swapped_guess) group_a)
      (abs_config game_a group_a).
Proof.
  apply (step_refines_spec false hand_list game_a (EGuess group_a player swapped_guess)).
  apply exec_event_step; by_eval.
Defined.

Lemma step_counts_monotone_witness :
  count_of (c_world game_a) group_a player <= count_of (c_world after_miss) group_a player.
Proof.
  apply (step_counts_monotone false hand_list game_a (EGuess group_a player swapped_guess));
    [apply exec_event_step; by_eval|by_eval|by_eval].
Defined.

Lemma due_timeout_ends_game_witness :
  exists c1 c2,
    step false hand_list (final false [EStart group_a 0; ETick TIMEOUT]) (EFire 0) c1 /\
    step false hand_list c1
      (EResume (length (c_pending (final false [EStart group_a 0; ETick TIMEOUT])))) c2 /\
    group_of (c_world c2) group_a = default_group /\
    guess_cmd group_a player exact_guess (c_world c2) = (c_world c2, inr NoActiveGame) /\
    w_sent (c_world c2) = w_sent (c_world (final false [EStart group_a 0; ETick TIMEOUT])) ++ [group_a].
Proof.
  apply (due_timeout_ends_game false hand_list _ 0 (mkTimer group_a TIMEOUT true));
    [by_eval|reflexivity|by_eval].
Defined.

(** The world after group A's game was won. *)
Definition won_world : World := (guesses_handler group_a player exact_guess (started false)).1.

Lemma timeout_on_idle_group_witness :
  (forall g', group_of (timeout_resume group_a (timeout_notify group_a won_world).1).1 g' =
              group_of won_world g') /\
  w_sent (timeout_resume group_a (timeout_notify group_a won_world).1).1 = w_sent won_world ++ [group_a].
Proof. apply timeout_on_idle_group. by_eval. Defined.

Lemma guess_bad_char_rejected_witness :
  guesses_handler group_a player (u "12x") (started false) =
  (started false, inr (RError ErrBadChar)).
Proof. apply (guess_bad_char_rejected _ _ _ _ 120); [apply list_elem_of_In; simpl; tauto|by_eval]. Defined.

(** Group A wins while group B's game runs: group B's timer is gone. *)
Definition two_started_cfg : Config := final true [EStart group_a 0; EStart group_b 0].

Lemma win_disarms_every_timer_witness :
  exists w' rd pc, guess_cmd group_a player exact_guess (c_world two_started_cfg) =
                   (w', inr (Handled (inr (ROk rd (Some pc))))) /\
    armed_for group_b (w_timers w') = [].
Proof.
  assert (Hr : reachable true hand_list two_started_cfg)
    by (apply final_reachable; vm_compute; by eexists).
  eexists _, _, _. split; [vm_compute; reflexivity|].
  eapply (win_disarms_every_timer hand_list _ group_a player exact_guess); [exact Hr|].
  vm_compute. reflexivity.
Defined.

(** Group A's timeout waits at its [await]; the game is won, and started
    again before the timeout resumes. *)
Definition pre_restart : Config :=
  final false [EStart group_a 0; ETick TIMEOUT; EFire 0; EGuess group_a player exact_guess].
Definition restarted : Config :=
  default pre_restart (exec_event false hand_list (EStart group_a 0) pre_restart).
Definition stale_resumed : Config :=
  default restarted (exec_event false hand_list (EResume 0) restarted).

Lemma stale_timeout_ends_new_game_witness :
  gs_start (group_of (c_world restarted) group_a) = true /\
  group_of (c_world stale_resumed) group_a = default_group /\
  exists t, t ∈ armed_for group_a (w_timers (c_world stale_resumed)) /\
    w_now (c_world stale_resumed) < tm_deadline t.
Proof.
  eapply (stale_timeout_ends_new_game false hand_list pre_restart 0 group_a 0);
    [by_eval|by_eval|vm_compute; reflexivity|apply exec_event_step; by_eval|apply exec_event_step; by_eval].
Defined.

Lemma guess_empty_win_tile_raises_witness :
  guesses_handler group_a player two_letter_guess (started false) =
  (touch_user group_a player (started false), inl IndexError).
Proof. eapply (guess_empty_win_tile_raises _ _ _ _ ∅); by_eval. Defined.

Lemma guess_reply_wf_witness :
  exists w' rd p, guess_cmd group_a player swapped_guess (c_world game_a) =
                  (w', inr (Handled (inr (ROk rd p)))) /\ render_wf rd.
Proof.
  exists_value (guess_cmd group_a player swapped_guess (c_world game_a)).
  split_eval H.
  assert (Hr : reachable false hand_list game_a) by (apply final_reachable; vm_compute; by eexists).
  exact (guess_reply_wf false hand_list _ _ _ _ _ _ _ Hr H).
Defined.

(** The scenario's corpus: its only line names real tiles. *)
Lemma get_hand_bounds_witness :
  exists hr, get_hand hand_list None 0 = inr hr /\
             Forall (fun t => 0 <= t < 136) (hr_tiles hr) /\ NoDup (hr_tiles hr).
Proof.
  exists_value (get_hand hand_list None 0).
  split_eval H.
  apply (get_hand_bounds hand_list None 0 _ secret_line H); [by_eval|].
  apply (bool_decide_unpack _). by_eval.
Defined.

(** The swapped guess is a miss; its winning tile 3p has the secret's
    text, so it is blue. *)
Lemma reply_win_color_witness :
  exists w' rd p hand,
    guesses_handler group_a player swapped_guess (started false) = (w', inr (ROk rd p)) /\
    gs_hand (group_of (started false) group_a) = Some hand /\
    exists cur, one_line_string_to_136_array (py_slice swapped_guess None (Some (-2))) = inr cur /\
      (py_slice swapped_guess (Some (-2)) None = hr_win_tile hand -> (rd_win rd).2 = blue) /\
      (py_slice swapped_guess (Some (-2)) None <> hr_win_tile hand ->
       exists t, last cur = Some t /\
         (rd_win rd).2 = if bool_decide (t ∈ hr_tiles hand) then orange else no_color).
Proof.
  lazymatch eval vm_compute in (guesses_handler group_a player swapped_guess (started false)) with
  | (?w, inr (ROk ?rd ?p)) => exists w, rd, p end.
  lazymatch eval vm_compute in (gs_hand (group_of (started false) group_a)) with
  | Some ?h => exists h end.
  split_eval H1. split_eval H2.
  assert (Hf : format_hand_msg swapped_guess = inr swapped_guess) by by_eval.
  exact (reply_win_color _ _ _ _ _ _ _ _ _ H1 Hf H2).
Defined.

(** The exact guess wins the 5200 points of the scenario. *)
Lemma win_message_roundtrip_witness :
  exists w' rd p total,
    guesses_handler group_a player exact_guess (started false) = (w', inr (ROk rd (Some (p, total)))) /\
    parse_win_text (reply_dict (ROk rd (Some (p, total)))).2 =
      Some (p, default 0 (w_points w' !! player)) /\
    default 0 (w_points w' !! player) = default 0 (w_points (started false) !! player) + p.
Proof.
  lazymatch eval vm_compute in (guesses_handler group_a player exact_guess (started false)) with
  | (?w, inr (ROk ?rd (Some (?p, ?t)))) => exists w, rd, p, t end.
  split_eval H. exact (win_message_roundtrip _ _ _ _ _ _ _ _ H).
Defined.

(** Groups A and B both running a game. *)
Definition two_started : World := (start false hand_list group_b 0 (started false)).1.

(** The player misses in group A, then in group B. *)
Lemma guesses_commute_witness :
  exists w1 w12 r1 r2,
    guesses_handler group_a player swapped_guess two_started = (w1, r1) /\
    guesses_handler group_b player swapped_guess w1 = (w12, r2) /\ nonwin r1 /\ nonwin r2 /\
    exists w2, guesses_handler group_b player swapped_guess two_started = (w2, r2) /\
               guesses_handler group_a player swapped_guess w2 = (w12, r1).
Proof.
  set (x1 := guesses_handler group_a player swapped_guess two_started).
  set (x2 := guesses_handler group_b player swapped_guess x1.1).
  exists x1.1, x2.1, x1.2, x2.2.
  assert (H1 : guesses_handler group_a player swapped_guess two_started = (x1.1, x1.2))
    by apply surjective_pairing.
  assert (H2 : guesses_handler group_b player swapped_guess x1.1 = (x2.1, x2.2))
    by apply surjective_pairing.
  assert (N1 : nonwin x1.2) by (vm_compute; exact I).
  assert (N2 : nonwin x2.2) by (vm_compute; exact I).
  split; [done|split; [done|split; [done|split; [done|]]]].
  apply (guesses_commute group_a group_b _ _ _ _ _ _ _ _ _ ltac:(by_eval) H1 H2 N1 N2).
Defined.

End Witnesses.
